(* ===== verification/_CoqProject ===== *)
-Q . S2P
Prelude.v
DocNodes.v
ApiModel.v
Utilities.v
Resolver.v
Builder.v
Run.v
Documenter.v
Pages.v
Success.v
Distinct.v
Cli.v
Examples.v
