(* ===== verification/Prelude.v ===== *)
(** * api-documenter-hugo: a verification development

    The program renders an API model (packages, entry points, namespaces,
    classes, interfaces, enums, functions, variables, type aliases and their
    members) into a tree of Hugo Markdown pages.  Its source is under [src/]:
    [src/src/yaml/ISDPYamlFile.ts] holds, one after the other, the YAML model
    types (lines 1-105), the start script (106-130) and the class
    [HugoDocumenter] (131-1449); [src/unnamed/part_000] is
    [CustomDocNodeKind.ts]; [src/unnamed/part_001] is [DocTableCell.ts];
    [src/src/cli/] holds the command-line parser and two of its actions,
    [HugoAction] and [MarkdownAction].

    ** Files, in dependency order

    - [Prelude] (this file): the error type [Error] and the error monad
      [result] with stdpp's bind notation, [foldM], results with a
      postcondition ([ok_with], with its rules for bind and loops), facts on
      strings proved through their character lists ([chars]), the path
      notation [d </> s] in [path_scope], the separator lemmas
      ([app_sep_inj], [slashed_inj]) that make file names injective, the
      hint databases [docgen] and [docgen_rw] and the tactics
      [simplify_result], [string_eq] and [by_compute].
    - [DocNodes]: the document-node model.  [CustomDocNodeKind] and the
      getter [CustomDocNodes_configuration] with its static field
      ([CustomDocNodes]) translate [part_000]; [newDocTableCell] and the
      [TableCell] case of [kind] translate [part_001].  The node tree
      [DocNode] (a nested inductive with its own induction principle), the
      registry ([registerDocNodes], [registerAllowableChildren],
      [isAllowedChild]), [appendNode], [appendNodeInParagraph] and the other
      [new*] constructors stand for TSDoc and the node classes that are not
      under [src/]; [wf_node] is the invariant the checked constructors
      maintain; [the_configuration] is the configuration the documenter
      reads from the getter.
    - [ApiModel]: the item tree the documenter consumes: [ApiItemKind], the
      record [Api.Data] whose optional fields stand for the mixins of
      api-extractor-model, excerpts and tokens, TSDoc comments, item
      references [ApiItemRef] (an item with the chain of its ancestors, which
      stands for the parent pointers of the source), [getHierarchy],
      [getScopedNameWithinPackage], the record [ApiModel] with the two
      queries of the library as fields, and the typing invariant [wf_item].
    - [Utilities]: the class [Naming], the interface between the documenter
      and the naming helpers it calls ([getSafeFilenameForName],
      [getUnscopedName], [getConciseSignature]) with the one law the
      resolver needs (a safe name has no path separator), and its instance
      [spec_naming].
    - [Resolver]: [_getFilenameForApiItem] and [_getLinkFilenameForApiItem]
      of [HugoDocumenter], as a left fold of [filename_step] over the
      hierarchy, exactly as the loop of the source; its specification by
      path segments ([segment_name], [segments], [joined],
      [unique_segments]); an example model.
    - [Builder]: the methods of [HugoDocumenter] that build nodes and write
      no page: excerpts, cells, warning boxes, heritage paragraphs, remarks,
      examples, throws, parameter and enum tables, the breadcrumb; the
      documents the documenter accepts ([children_ok], [node_ok],
      [docs_ok]) and, for each operation, that it succeeds on them.
    - [Run]: runs.  [M] is a trace of events ([Event]: console lines,
      folders ensured or emptied, files written, the plugin's [onFinished])
      with an [outcome] (returned, thrown, out of fuel); [Host] is the
      record of what the documenter calls and [src/] does not hold (the
      emitter, the plugin loader, [path]); [DocumenterConfig] is the
      configuration as far as the documenter reads it.  Four ways to speak
      about a run, each with its rules for bind and loops: [agree] (two
      runs are the same and not out of fuel), [returns] (it returns a value
      with a postcondition), [traced] (its trace is in a set closed under
      concatenation, the class [Concatenable]) and [writes] (the files it
      has written when it returns).
    - [Documenter]: the page writer [_writeApiItemPage], the member tables
      that call it back ([_writeModelTable],
      [_writePackageOrNamespaceTables], [_writeClassTables],
      [_writeInterfaceTables]), [_getMembersAndWriteIncompleteWarning],
      [_deleteOldOutputFiles] and [generateFiles]; that the fuel is enough.
    - [Pages]: what a run writes: the pages a page asks for ([called]), the
      pages of a run in the order of their files ([pages_fuel], [pages_of])
      and the traces of the writer ([page_trace]), with the theorems that
      the writer and [generateFiles] meet them.
    - [Success]: a run on a well-formed model returns: the conditions
      ([page_ok], [emitter_total], [inherited_ok]), one lemma per operation
      of the writer, and the theorem for [generateFiles].
    - [Distinct]: every page has a file of its own: the pages of a run are
      distinct items of the tree ([tree_ok], [pages_NoDup]), and a run
      writes no file twice.
    - [Cli]: the actions the command line registers ([_populateActions])
      and [HugoAction_onExecute], with the theorem that puts [Pages] and
      [Success] together for the hugo action.
    - [Examples]: two models and two hosts, the runs on them evaluated, and
      the theorems of the files above applied to them.

    ** How the model is built

    Strings are [string]; the parts of the source that build strings with
    [+=] and template literals are appends here.  A JavaScript exception is
    a value [Err e] of [result] in the builder and an outcome [Throw e] of
    a run; every operation that can throw returns one and callers bind it,
    so an error aborts the run as it does in the source, and the trace keeps
    what was written before.  Mutation of the page under construction
    ([output], a [DocSection]) is explicit state passing: an operation takes
    the nodes of the section and returns the new nodes.  A loop with
    mutable locals is a fold of a step function over the list it iterates,
    with the locals as its state.

    The writer recurses through the member tables into the pages of the
    members; the tables take the writer as a parameter ([writePage]) and
    [_writeApiItemPage] ties the knot with fuel.  The recursion is not
    structural once inherited members are shown (a member of a base class is
    reached from the derived class).  [generateFiles] starts with
    [run_fuel = S (item_height root)], which is enough for every tree,
    because only containers recurse and the members a class or interface
    lists are leaves ([_writeApiItemPage_enough_fuel],
    [generateFiles_enough_fuel]); theorems on runs are stated for every
    outcome or for runs that return, never for runs out of fuel.
    [pages_fuel] takes the same fuel and does not depend on it once it is
    above the height of the item ([pages_fuel_enough]).

    ** What the theorems show

    - [DocNodes]: the relation of allowed children the documenter builds
      pages under, the registration of the custom kinds, the getter as a
      singleton, the constructor of a table cell on success and on failure.
    - [Resolver]: the file name is the path of the specified segments
      ([filename_is_segments]); file names are unique in a well-formed model
      whose sibling segments are unique ([unique_paths]) and not otherwise
      ([filename_clash]); overloads and variables get files of their own;
      an enum member shares the file of its enum and a package that of its
      default entry point.
    - [Builder]: how a section of a comment is merged into a cell
      ([_appendAndMergeSection_spec]), how examples are numbered
      ([_writeRemarksSection_spec]), what the replacement of line breaks
      does ([unwrap_run], [unwrap_newline_free]), the modifiers of a member,
      when a table is shown, and the references of a type alias, listed
      once for every text ([_writeHeritageTypes_references], against the
      loop with its set of visited texts); and, as lemmas, that every
      operation succeeds with well-formed nodes under the configuration of
      the documenter.
    - [Documenter]: termination of the recursion, the index of the site as
      the last file, the errors of unsupported kinds, the default entry
      point without a page.
    - [Pages]: whatever the outcome, a run empties the output folder once
      and first, then only logs and writes pages under it, each after its
      folder is ensured and with the configured line ending
      ([generateFiles_trace]); a run that returns has written exactly the
      files of [pages_of], in order ([generateFiles_files]).
    - [Success]: on a well-formed model whose comments hold only nodes a
      section may hold, no operation throws and every page reaches the
      emitter as a well-formed section ([generateFiles_returns]).
    - [Distinct]: the resolver and the writer together: when the members
      of every item have distinct segments, inherited members are not
      listed and the host joins distinct names to distinct paths, a run
      that returns writes no file twice ([generateFiles_no_overwrite]); the
      writer skips the default entry point, whose file is the file of its
      package, and no table asks for the page of an enum member.
    - [Cli]: the hugo action returns on such a model, with the trace and
      the files above, CRLF line endings and no plugin
      ([HugoAction_onExecute_spec]); the parser does not register it.
    - [Examples]: the exact traces of the runs on the two models, the page
      of a class down to its tables, and a run that overwrites a page.

    ** What is not modelled

    - Of the command line ([src/src/cli/]): argument parsing and dispatch,
      which belong to @rushstack/ts-command-line, [BaseAction.buildApiModel]
      and [MarkdownAction.onExecute], whose documenter is not under [src/].
    - The YAML model types (lines 1-105 of [ISDPYamlFile.ts]): type
      declarations without operations, unused by [HugoDocumenter].
    - The start script (lines 106-130): pure I/O.
    - The text of a page: the Markdown emitter, like the plugin loader, the
      file system, the TSDoc parser and the algorithms of
      api-extractor-model ([resolveDeclarationReference],
      [findMembersWithInheritance]), is not in [src/]; these enter the model
      as parameters (fields of [Host], [ApiModel] and [Naming]) and the
      theorems hold for every choice of them; [generateFiles_returns]
      assumes of them what it says ([emitter_total], [inherited_ok]).
    - [PackageName.getUnscopedName] is total in the model; its error on an
      invalid package name is not modelled.  [String.prototype.trim] is
      modelled on white space of one byte. *)

From Stdlib Require Export Ascii.
From stdpp Require Export base tactics option list strings gmap pretty.

(** ** Errors and the error monad *)

(** The error kinds of the program.  The source throws [Error] objects that
    differ by their message; [TypeError] is the error of the runtime when a
    property of [undefined] is read. *)
Inductive Error : Type :=
| StructureError (parentKind childKind : string)
| ConfigurationError (message : string)
| UnsupportedKindError (kind : string)
| TypeError (message : string).

#[export] Instance Error_eq_dec : EqDecision Error.
Proof. solve_decision. Defined.

Inductive result (A : Type) : Type :=
| Ok (a : A)
| Err (e : Error).
Arguments Ok {A} a.
Arguments Err {A} e.

#[export] Instance result_eq_dec `{EqDecision A} : EqDecision (result A).
Proof. solve_decision. Defined.

#[export] Instance result_ret : MRet result := λ A a, Ok a.
#[export] Instance result_bind : MBind result := λ A B f m,
  match m with Ok a => f a | Err e => Err e end.
#[export] Instance result_fmap : FMap result := λ A B f m,
  match m with Ok a => Ok (f a) | Err e => Err e end.

Definition is_Ok {A} (r : result A) : Prop := ∃ a, r = Ok a.

#[export] Instance is_Ok_dec {A} (r : result A) : Decision (is_Ok r).
Proof.
  destruct r as [a|e]; [left; by exists a | right; by intros [? ?]].
Defined.

(** A result that is a value with [Q]: what an operation that must not
    throw promises. *)
Definition ok_with {A} (Q : A → Prop) (r : result A) : Prop := ∃ a, r = Ok a ∧ Q a.

(** [forM_ l f] runs [f] on every element, in order, and stops at the first
    error: a [for ... of] loop whose body may throw. *)
Fixpoint forM_ {A} (f : A → result unit) (l : list A) : result unit :=
  match l with
  | [] => Ok ()
  | x :: l => f x ;; forM_ f l
  end.

(** [foldM f a l]: a loop that threads an accumulator and may throw. *)
Fixpoint foldM {A B} (f : B → A → result B) (b : B) (l : list A) : result B :=
  match l with
  | [] => Ok b
  | x :: l => b' ← f b x; foldM f b' l
  end.

(** ** Strings as character lists *)

Definition chars (s : string) : list ascii := String.list_ascii_of_string s.

Definition slash : ascii := "/"%char.

(** A path segment: a string in which the separator does not occur. *)
Definition slash_free (s : string) : Prop := slash ∉ chars s.

#[export] Instance slash_free_dec s : Decision (slash_free s).
Proof. unfold slash_free. apply _. Defined.

Declare Scope path_scope.
Delimit Scope path_scope with path.
Notation "d </> s" := (d +:+ "/" +:+ s)
  (at level 59, left associativity) : path_scope.
Open Scope path_scope.

(** [slashed segs]: every segment followed by the separator. *)
Definition slashed (segs : list string) : list ascii :=
  concat ((λ s, chars s ++ [slash]) <$> segs).

Create HintDb docgen.
Create Rewrite HintDb docgen_rw.

(** ** Lemmas on [result] *)

Lemma bind_Ok {A B} (f : A → result B) (m : result A) (b : B) :
  m ≫= f = Ok b ↔ ∃ a, m = Ok a ∧ f a = Ok b.
Proof. destruct m; simpl; naive_solver. Qed.

Lemma bind_Err {A B} (f : A → result B) (m : result A) (e : Error) :
  m ≫= f = Err e ↔ m = Err e ∨ ∃ a, m = Ok a ∧ f a = Err e.
Proof. destruct m; simpl; naive_solver. Qed.

Lemma fmap_Ok {A B} (f : A → B) (m : result A) (b : B) :
  f <$> m = Ok b ↔ ∃ a, m = Ok a ∧ b = f a.
Proof. destruct m; simpl; naive_solver. Qed.

Lemma is_Ok_Ok {A} (a : A) : is_Ok (Ok a).
Proof. by exists a. Qed.

Lemma is_Ok_Err {A} (e : Error) : ¬ is_Ok (@Err A e).
Proof. by intros [? ?]. Qed.

Lemma is_Ok_bind {A B} (f : A → result B) (m : result A) :
  is_Ok (m ≫= f) ↔ ∃ a, m = Ok a ∧ is_Ok (f a).
Proof. destruct m; simpl; unfold is_Ok; naive_solver. Qed.

#[export] Hint Resolve is_Ok_Ok : docgen.

(** Closes a decidable goal on closed terms by evaluation. *)
Ltac by_compute := apply (bool_decide_unpack _); vm_compute; exact I.

(** Destructs the binds of hypotheses of the form [m ≫= f = Ok b]. *)
Ltac simplify_result :=
  repeat match goal with
  | H : Ok _ = Ok _ |- _ => inv H
  | H : Err _ = Ok _ |- _ => discriminate H
  | H : Ok _ = Err _ |- _ => discriminate H
  | H : Err _ = Err _ |- _ => inv H
  | H : mret _ = Ok _ |- _ => inv H
  | H : mbind _ _ = Ok _ |- _ =>
      apply bind_Ok in H; destruct H as (? & ? & H)
  | H : fmap _ _ = Ok _ |- _ =>
      apply fmap_Ok in H; destruct H as (? & ? & ?)
  end.

Lemma forM__app {A} (f : A → result unit) (l k : list A) :
  forM_ f (l ++ k) = (forM_ f l ;; forM_ f k).
Proof. induction l as [|x l IH]; simpl; [done|]. destruct (f x); simpl; auto. Qed.

Lemma forM__Ok {A} (f : A → result unit) (l : list A) :
  forM_ f l = Ok () ↔ Forall (λ x, f x = Ok ()) l.
Proof.
  induction l as [|x l IH]; simpl; [by split; auto|].
  rewrite Forall_cons, <- IH. destruct (f x) as [[]|]; simpl; naive_solver.
Qed.

Lemma foldM_app {A B} (f : B → A → result B) (b : B) (l k : list A) :
  foldM f b (l ++ k) = (foldM f b l ≫= λ b', foldM f b' k).
Proof.
  revert b. induction l as [|x l IH]; intros b; simpl; [done|].
  destruct (f b x); simpl; auto.
Qed.

(** A loop whose body never throws is a pure fold. *)
Lemma foldM_pure {A B} (f : B → A → result B) (g : B → A → B) (b : B) (l : list A) :
  (∀ b x, f b x = Ok (g b x)) → foldM f b l = Ok (foldl g b l).
Proof.
  intros Hf. revert b. induction l as [|x l IH]; intros b; simpl; [done|].
  by rewrite Hf; simpl.
Qed.

(** ** Results with a postcondition *)

Section ok_with_facts.
Context {A B : Type}.
Implicit Types (Q : A → Prop) (R : B → Prop) (r : result A).

Lemma ok_Ok Q (a : A) : Q a → ok_with Q (Ok a).
Proof. intros. by exists a. Qed.

Lemma ok_bind Q R r (f : A → result B) :
  ok_with Q r → (∀ a, Q a → ok_with R (f a)) → ok_with R (r ≫= f).
Proof. intros (a & -> & Ha) Hf. by apply Hf. Qed.

Lemma ok_fmap Q R (g : A → B) r :
  ok_with Q r → (∀ a, Q a → R (g a)) → ok_with R (g <$> r).
Proof. intros (a & -> & Ha) Hg. exists (g a). auto. Qed.

Lemma ok_weaken Q (Q' : A → Prop) r : ok_with Q r → (∀ a, Q a → Q' a) → ok_with Q' r.
Proof. intros (a & -> & Ha) HQ. exists a. auto. Qed.

Lemma ok_is_Ok Q r : ok_with Q r → is_Ok r.
Proof. intros (a & -> & _). by exists a. Qed.

End ok_with_facts.

(** A loop with an invariant. *)
Lemma ok_foldM {A B} (R : B → Prop) (f : B → A → result B) (b : B) (l : list A) :
  R b → (∀ b x, x ∈ l → R b → ok_with R (f b x)) → ok_with R (foldM f b l).
Proof.
  revert b. induction l as [|x l IH]; intros b Hb Hf; [by apply ok_Ok|].
  apply (ok_bind R); [apply Hf; [left|done]|].
  intros b' Hb'. apply IH; [done|]. intros ????. apply Hf; [by right|done].
Qed.

(** ** Lemmas on lists *)

(** A loop that skips the elements without [P] is the loop over the
    elements with [P]. *)
Lemma concat_fmap_filter {A B} (P : A → Prop) `{∀ x, Decision (P x)} (g : A → list B)
    (l : list A) :
  concat ((λ x, if decide (P x) then g x else []) <$> l) = concat (g <$> filter P l).
Proof.
  induction l as [|x l IH]; [done|]. rewrite filter_cons, fmap_cons.
  destruct (decide (P x)); rewrite ?fmap_cons; cbn [concat]; by rewrite IH.
Qed.

Lemma fmap_concat {A B} (f : A → B) (l : list (list A)) :
  f <$> concat l = concat ((λ k : list A, f <$> k) <$> l).
Proof. induction l as [|x l IH]; [done|]. simpl. by rewrite fmap_app, IH. Qed.

Lemma concat_fmap_bind {A B} (f : A → list B) (l : list A) : concat (f <$> l) = l ≫= f.
Proof. induction l as [|x l IH]; [done|]. csimpl. by rewrite IH. Qed.

Lemma elem_of_concat_fmap {A B} (f : A → list B) (l : list A) (y : B) :
  y ∈ concat (f <$> l) ↔ ∃ x, y ∈ f x ∧ x ∈ l.
Proof. by rewrite concat_fmap_bind, list_elem_of_bind. Qed.

(** ** Lemmas on strings *)

Lemma chars_app (s t : string) : chars (s +:+ t) = chars s ++ chars t.
Proof.
  unfold chars. induction s as [|a s IH]; [done|].
  change (String a s +:+ t) with (String a (s +:+ t)). simpl. by rewrite IH.
Qed.

#[export] Instance chars_inj : Inj (=) (=) chars.
Proof.
  intros s t H. unfold chars in H.
  rewrite <- (String.string_of_list_ascii_of_string s),
    <- (String.string_of_list_ascii_of_string t). by rewrite H.
Qed.

Lemma chars_of_list (l : list ascii) : chars (String.string_of_list_ascii l) = l.
Proof. apply String.list_ascii_of_string_of_list_ascii. Qed.

Lemma string_app_assoc (s t u : string) : (s +:+ t) +:+ u = s +:+ t +:+ u.
Proof. apply (inj chars). by rewrite !chars_app, app_assoc. Qed.

Lemma string_app_nil_l (s : string) : "" +:+ s = s.
Proof. done. Qed.

Lemma string_app_nil_r (s : string) : s +:+ "" = s.
Proof. apply (inj chars). by rewrite chars_app, app_nil_r. Qed.

Lemma string_app_inv_tail (s t u : string) : s +:+ u = t +:+ u → s = t.
Proof.
  intros H. apply (inj chars). apply (f_equal chars) in H.
  rewrite !chars_app in H. by eapply app_inv_tail.
Qed.

Lemma string_app_inv_head (s t u : string) : s +:+ t = s +:+ u → t = u.
Proof.
  intros H. apply (inj chars). apply (f_equal chars) in H.
  rewrite !chars_app in H. by eapply app_inv_head.
Qed.

Lemma string_length_chars (s : string) : String.length s = length (chars s).
Proof. unfold chars. induction s; simpl; auto. Qed.

Lemma string_length_app (s t : string) :
  String.length (s +:+ t) = String.length s + String.length t.
Proof. by rewrite !string_length_chars, chars_app, length_app. Qed.

#[export] Hint Rewrite chars_app string_app_assoc string_app_nil_l
  string_app_nil_r : docgen_rw.

(** Proves an equation between strings built by appends. *)
Ltac string_eq :=
  apply (inj chars); rewrite ?chars_app, <- ?app_assoc; try done.

Lemma slash_free_app (s t : string) :
  slash_free (s +:+ t) ↔ slash_free s ∧ slash_free t.
Proof. unfold slash_free. rewrite chars_app, not_elem_of_app. done. Qed.

(** ** Separators *)

(** Two lists cut at the first occurrence of a separator agree on both sides. *)
Lemma app_sep_inj {A} (x : A) (l1 l2 k1 k2 : list A) :
  x ∉ l1 → x ∉ l2 → l1 ++ x :: k1 = l2 ++ x :: k2 → l1 = l2 ∧ k1 = k2.
Proof.
  revert l2. induction l1 as [|a l1 IH]; intros [|b l2] H1 H2 H; simpl in H.
  - by injection H as ->.
  - injection H as -> _. set_solver.
  - injection H as -> _. set_solver.
  - injection H as -> H.
    apply not_elem_of_cons in H1 as [_ H1]. apply not_elem_of_cons in H2 as [_ H2].
    destruct (IH l2 H1 H2 H) as [-> ->]. done.
Qed.

Lemma slashed_cons (s : string) (segs : list string) :
  slashed (s :: segs) = chars s ++ slash :: slashed segs.
Proof. unfold slashed. simpl. by rewrite <- app_assoc. Qed.

Lemma slashed_app (segs1 segs2 : list string) :
  slashed (segs1 ++ segs2) = slashed segs1 ++ slashed segs2.
Proof. unfold slashed. by rewrite fmap_app, concat_app. Qed.

(** Slash-terminated segment lists are determined by their concatenation,
    whatever follows them, as long as what follows has no separator. *)
Lemma slashed_inj (segs1 segs2 : list string) (t : list ascii) :
  Forall slash_free segs1 → Forall slash_free segs2 → slash ∉ t →
  slashed segs1 ++ t = slashed segs2 ++ t → segs1 = segs2.
Proof.
  intros H1. revert segs2.
  induction H1 as [|s1 segs1 Hs1 _ IH]; intros segs2 H2 Ht H;
    destruct H2 as [|s2 segs2 Hs2 H2]; [done| | |].
  - exfalso. rewrite slashed_cons in H. simpl in H. apply Ht. rewrite H.
    rewrite <- app_assoc. set_solver.
  - exfalso. rewrite slashed_cons in H. simpl in H. apply Ht. rewrite <- H.
    rewrite <- app_assoc. set_solver.
  - rewrite !slashed_cons, <- !app_assoc in H. simpl in H.
    apply app_sep_inj in H as [Hs H]; [|done..].
    apply (inj chars) in Hs as ->. f_equal. by apply IH.
Qed.
