(* ===== verification/DocNodes.v ===== *)
(** * The document-node model

    The node kinds, the node tree, the registry of kinds with its
    allowable-children relation, the configuration that
    [CustomDocNodeKind.ts] ([src/unnamed/part_000]) builds, the checked
    construction operations, and the well-formedness invariant they keep.

    The generic substrate (TSDoc's [DocNodeKind], [DocNodeManager],
    [DocNodeContainer], [DocSection]) and the node classes other than
    [DocTableCell] are not under [src/]; they are modelled from the
    specification (section 4.1) and from the way [HugoDocumenter] calls them.
    [CustomDocNodeKind], [CustomDocNodes] and [DocTableCell] are translated
    from their sources. *)

From S2P Require Import Prelude.

(** ** Kinds *)

(** The built-in kinds the substrate registers. *)
Inductive DocNodeKind : Type :=
| Section_ | Paragraph | PlainText | SoftBreak | LinkTag | CodeSpan | FencedCode.

(** [const enum CustomDocNodeKind]: the six kinds of the extension. *)
Inductive CustomDocNodeKind : Type :=
| EmphasisSpan | Heading | NoteBox | Table | TableCell | TableRow.

#[export] Instance DocNodeKind_eq_dec : EqDecision DocNodeKind.
Proof. solve_decision. Defined.
#[export] Instance CustomDocNodeKind_eq_dec : EqDecision CustomDocNodeKind.
Proof. solve_decision. Defined.

(** A kind is a string at run time: the value of the enum member. *)
Definition DocNodeKind_tag (k : DocNodeKind) : string :=
  match k with
  | Section_ => "Section" | Paragraph => "Paragraph" | PlainText => "PlainText"
  | SoftBreak => "SoftBreak" | LinkTag => "LinkTag" | CodeSpan => "CodeSpan"
  | FencedCode => "FencedCode"
  end.

Definition CustomDocNodeKind_tag (k : CustomDocNodeKind) : string :=
  match k with
  | EmphasisSpan => "EmphasisSpan" | Heading => "Heading" | NoteBox => "NoteBox"
  | Table => "Table" | TableCell => "TableCell" | TableRow => "TableRow"
  end.

Definition all_DocNodeKind : list DocNodeKind :=
  [Section_; Paragraph; PlainText; SoftBreak; LinkTag; CodeSpan; FencedCode].
Definition all_CustomDocNodeKind : list CustomDocNodeKind :=
  [EmphasisSpan; Heading; NoteBox; Table; TableCell; TableRow].

(** Every kind tag of the system. *)
Definition all_tags : list string :=
  (DocNodeKind_tag <$> all_DocNodeKind) ++ (CustomDocNodeKind_tag <$> all_CustomDocNodeKind).

(** ** The node tree *)

Section DocNode_def.
Local Unset Elimination Schemes.

(** A node with the fields of its class.  A [content] field is the
    [DocSection] a note box or a table cell owns; [header] is the
    [DocTableRow] of a table. *)
Inductive DocNode : Type :=
| DocPlainText (text : string)
| DocSoftBreak
| DocCodeSpan (code : string)
| DocFencedCode (language code : string)
| DocLinkTag (linkText : string) (codeDestination urlDestination : option string)
| DocParagraph (nodes : list DocNode)
| DocSection (nodes : list DocNode)
| DocEmphasisSpan (bold italic : bool) (nodes : list DocNode)
| DocHeading (title : string) (level : nat)
| DocNoteBox (content : DocNode)
| DocTable (header : DocNode) (rows : list DocNode)
| DocTableRow (cells : list DocNode)
| DocTableCell (content : DocNode).

Variable P : DocNode → Prop.
Hypothesis HPlainText : ∀ text, P (DocPlainText text).
Hypothesis HSoftBreak : P DocSoftBreak.
Hypothesis HCodeSpan : ∀ code, P (DocCodeSpan code).
Hypothesis HFencedCode : ∀ language code, P (DocFencedCode language code).
Hypothesis HLinkTag : ∀ t c u, P (DocLinkTag t c u).
Hypothesis HParagraph : ∀ nodes, Forall P nodes → P (DocParagraph nodes).
Hypothesis HSection : ∀ nodes, Forall P nodes → P (DocSection nodes).
Hypothesis HEmphasisSpan : ∀ b i nodes, Forall P nodes → P (DocEmphasisSpan b i nodes).
Hypothesis HHeading : ∀ title level, P (DocHeading title level).
Hypothesis HNoteBox : ∀ content, P content → P (DocNoteBox content).
Hypothesis HTable : ∀ header rows, P header → Forall P rows → P (DocTable header rows).
Hypothesis HTableRow : ∀ cells, Forall P cells → P (DocTableRow cells).
Hypothesis HTableCell : ∀ content, P content → P (DocTableCell content).

Fixpoint DocNode_ind (n : DocNode) : P n :=
  let all := fix all (l : list DocNode) : Forall P l :=
    match l with
    | [] => Forall_nil_2 P
    | x :: l => Forall_cons_2 P x l (DocNode_ind x) (all l)
    end in
  match n with
  | DocPlainText text => HPlainText text
  | DocSoftBreak => HSoftBreak
  | DocCodeSpan code => HCodeSpan code
  | DocFencedCode language code => HFencedCode language code
  | DocLinkTag t c u => HLinkTag t c u
  | DocParagraph nodes => HParagraph nodes (all nodes)
  | DocSection nodes => HSection nodes (all nodes)
  | DocEmphasisSpan b i nodes => HEmphasisSpan b i nodes (all nodes)
  | DocHeading title level => HHeading title level
  | DocNoteBox content => HNoteBox content (DocNode_ind content)
  | DocTable header rows => HTable header rows (DocNode_ind header) (all rows)
  | DocTableRow cells => HTableRow cells (all cells)
  | DocTableCell content => HTableCell content (DocNode_ind content)
  end.
End DocNode_def.

#[export] Instance DocNode_eq_dec : EqDecision DocNode.
Proof.
  unshelve refine (fix go (x y : DocNode) {struct x} : Decision (x = y) :=
    let gol := fix gol (l1 l2 : list DocNode) {struct l1} : Decision (l1 = l2) :=
      match l1, l2 with
      | [], [] => left eq_refl
      | a :: l1, b :: l2 => cast_if_and (go a b) (gol l1 l2)
      | _, _ => right _
      end in
    match x, y with
    | DocPlainText t, DocPlainText t' => cast_if (decide (t = t'))
    | DocSoftBreak, DocSoftBreak => left eq_refl
    | DocCodeSpan c, DocCodeSpan c' => cast_if (decide (c = c'))
    | DocFencedCode l c, DocFencedCode l' c' =>
        cast_if_and (decide (l = l')) (decide (c = c'))
    | DocLinkTag t c u, DocLinkTag t' c' u' =>
        cast_if_and3 (decide (t = t')) (decide (c = c')) (decide (u = u'))
    | DocParagraph l, DocParagraph l' => cast_if (gol l l')
    | DocSection l, DocSection l' => cast_if (gol l l')
    | DocEmphasisSpan b i l, DocEmphasisSpan b' i' l' =>
        cast_if_and3 (decide (b = b')) (decide (i = i')) (gol l l')
    | DocHeading t l, DocHeading t' l' => cast_if_and (decide (t = t')) (decide (l = l'))
    | DocNoteBox c, DocNoteBox c' => cast_if (go c c')
    | DocTable h r, DocTable h' r' => cast_if_and (go h h') (gol r r')
    | DocTableRow l, DocTableRow l' => cast_if (gol l l')
    | DocTableCell c, DocTableCell c' => cast_if (go c c')
    | _, _ => right _
    end); try (clear gol); try (clear go); try congruence.
Defined.

(** The [kind] getter of each class ([DocTableCell.kind] is
    [src/unnamed/part_001], lines 25-27). *)
Definition kind (n : DocNode) : string :=
  match n with
  | DocPlainText _ => DocNodeKind_tag PlainText
  | DocSoftBreak => DocNodeKind_tag SoftBreak
  | DocCodeSpan _ => DocNodeKind_tag CodeSpan
  | DocFencedCode _ _ => DocNodeKind_tag FencedCode
  | DocLinkTag _ _ _ => DocNodeKind_tag LinkTag
  | DocParagraph _ => DocNodeKind_tag Paragraph
  | DocSection _ => DocNodeKind_tag Section_
  | DocEmphasisSpan _ _ _ => CustomDocNodeKind_tag EmphasisSpan
  | DocHeading _ _ => CustomDocNodeKind_tag Heading
  | DocNoteBox _ => CustomDocNodeKind_tag NoteBox
  | DocTable _ _ => CustomDocNodeKind_tag Table
  | DocTableRow _ => CustomDocNodeKind_tag TableRow
  | DocTableCell _ => CustomDocNodeKind_tag TableCell
  end.

(** [getChildNodes]: the nodes a container holds; the slots of the others. *)
Definition getChildNodes (n : DocNode) : list DocNode :=
  match n with
  | DocParagraph nodes | DocSection nodes | DocEmphasisSpan _ _ nodes => nodes
  | DocNoteBox content | DocTableCell content => [content]
  | DocTable header rows => header :: rows
  | DocTableRow cells => cells
  | _ => []
  end.

(** ** The registry *)

Record DocNodeDefinition : Type := {
  docNodeKind : string;
  constructor : string;
  packageName : string;
  allowedChildKinds : gset string;
}.

Record TSDocConfiguration : Type := {
  docNodeManager : gmap string DocNodeDefinition;
}.

Definition allowChild (childKind : string) (d : DocNodeDefinition) : DocNodeDefinition :=
  {| docNodeKind := docNodeKind d; constructor := constructor d;
     packageName := packageName d;
     allowedChildKinds := allowedChildKinds d ∪ {[ childKind ]} |}.

(** One definition of [registerDocNodes]: a kind is registered once. *)
Definition registerDocNode (pkg : string) (m : gmap string DocNodeDefinition)
    (d : string * string) : result (gmap string DocNodeDefinition) :=
  match m !! d.1 with
  | Some _ => Err (ConfigurationError d.1)
  | None => Ok (<[d.1 := {| docNodeKind := d.1; constructor := d.2;
                            packageName := pkg; allowedChildKinds := ∅ |}]> m)
  end.

Definition registerDocNodes (pkg : string) (definitions : list (string * string))
    (m : gmap string DocNodeDefinition) : result (gmap string DocNodeDefinition) :=
  foldM (registerDocNode pkg) m definitions.

(** One child of [registerAllowableChildren]: the child kind must be known;
    it is added to the set of the parent. *)
Definition registerAllowableChild (parentKind : string)
    (m : gmap string DocNodeDefinition) (childKind : string) :
    result (gmap string DocNodeDefinition) :=
  match m !! childKind with
  | None => Err (ConfigurationError childKind)
  | Some _ => Ok (alter (allowChild childKind) parentKind m)
  end.

(** The specification is silent on kinds that were never registered; the
    model refuses them, which is what makes a successful configuration mean
    that every kind it names exists. *)
Definition registerAllowableChildren (parentKind : string) (childKinds : list string)
    (m : gmap string DocNodeDefinition) : result (gmap string DocNodeDefinition) :=
  match m !! parentKind with
  | None => Err (ConfigurationError parentKind)
  | Some _ => foldM (registerAllowableChild parentKind) m childKinds
  end.

(** The declared relation of a registry: [childKind] is in the set of
    [parentKind]. *)
Definition allowedIn (m : gmap string DocNodeDefinition) (parentKind childKind : string) :
    bool :=
  match m !! parentKind with
  | Some d => bool_decide (childKind ∈ allowedChildKinds d)
  | None => false
  end.

Definition isAllowedChild (cfg : TSDocConfiguration) (parentKind childKind : string) : bool :=
  allowedIn (docNodeManager cfg) parentKind childKind.

(** [new TSDocConfiguration()]: the built-in kinds, a section holding fenced
    code and paragraphs, a paragraph holding inline nodes. *)
Definition TSDocConfiguration_new : result TSDocConfiguration :=
  m ← registerDocNodes "@microsoft/tsdoc"
         ((λ k, (DocNodeKind_tag k, "Doc" +:+ DocNodeKind_tag k)) <$> all_DocNodeKind) ∅;
  m ← registerAllowableChildren (DocNodeKind_tag Section_)
         (DocNodeKind_tag <$> [FencedCode; Paragraph]) m;
  m ← registerAllowableChildren (DocNodeKind_tag Paragraph)
         (DocNodeKind_tag <$> [CodeSpan; LinkTag; PlainText; SoftBreak]) m;
  Ok {| docNodeManager := m |}.

(** ** [CustomDocNodes] *)

(** The static field [_configuration]. *)
Record CustomDocNodes : Type := {
  _configuration : option TSDocConfiguration;
}.

Definition CustomDocNodes_init : CustomDocNodes := {| _configuration := None |}.

(** The registrations of the getter's first call (part_000, lines 30-51). *)
Definition CustomDocNodes_register (configuration : TSDocConfiguration) :
    result TSDocConfiguration :=
  m ← registerDocNodes "@micrososft/api-documenter"
        [ (CustomDocNodeKind_tag EmphasisSpan, "DocEmphasisSpan");
          (CustomDocNodeKind_tag Heading, "DocHeading");
          (CustomDocNodeKind_tag NoteBox, "DocNoteBox");
          (CustomDocNodeKind_tag Table, "DocTable");
          (CustomDocNodeKind_tag TableCell, "DocTableCell");
          (CustomDocNodeKind_tag TableRow, "DocTableRow") ]
        (docNodeManager configuration);
  m ← registerAllowableChildren (CustomDocNodeKind_tag EmphasisSpan)
        [DocNodeKind_tag PlainText; DocNodeKind_tag SoftBreak] m;
  m ← registerAllowableChildren (DocNodeKind_tag Section_)
        [CustomDocNodeKind_tag Heading; CustomDocNodeKind_tag NoteBox;
         CustomDocNodeKind_tag Table] m;
  m ← registerAllowableChildren (DocNodeKind_tag Paragraph)
        [CustomDocNodeKind_tag EmphasisSpan] m;
  Ok {| docNodeManager := m |}.

(** [static get configuration()] (lines 27-56): built on the first call,
    stored in the static field and returned from there afterwards.  A
    configuration is an object: besides the configuration and the new value
    of the static field, a call returns how many configurations it
    constructed with [new TSDocConfiguration()], which is what tells the
    stored object from a rebuilt one. *)
Definition CustomDocNodes_configuration (s : CustomDocNodes) :
    result (TSDocConfiguration * CustomDocNodes * nat) :=
  match _configuration s with
  | None =>
      configuration ← TSDocConfiguration_new;
      configuration ← CustomDocNodes_register configuration;
      Ok (configuration, {| _configuration := Some configuration |}, 1)
  | Some configuration => Ok (configuration, s, 0)
  end.

(** ** Checked construction *)

Section construction.
Context (cfg : TSDocConfiguration).

(** [DocNodeContainer.appendNode] on the nodes of a container of kind
    [parentKind]. *)
Definition appendNode (parentKind : string) (nodes : list DocNode) (docNode : DocNode) :
    result (list DocNode) :=
  if isAllowedChild cfg parentKind (kind docNode)
  then Ok (nodes ++ [docNode])
  else Err (StructureError parentKind (kind docNode)).

Definition appendNodes (parentKind : string) (nodes docNodes : list DocNode) :
    result (list DocNode) :=
  foldM (appendNode parentKind) nodes docNodes.

Definition newDocParagraph (childNodes : list DocNode) : result DocNode :=
  DocParagraph <$> appendNodes (DocNodeKind_tag Paragraph) [] childNodes.

Definition newDocSection (childNodes : list DocNode) : result DocNode :=
  DocSection <$> appendNodes (DocNodeKind_tag Section_) [] childNodes.

Definition newDocEmphasisSpan (bold italic : bool) (childNodes : list DocNode) :
    result DocNode :=
  DocEmphasisSpan bold italic <$>
    appendNodes (CustomDocNodeKind_tag EmphasisSpan) [] childNodes.

Definition newDocNoteBox (sectionChildNodes : list DocNode) : result DocNode :=
  DocNoteBox <$> newDocSection sectionChildNodes.

(** [DocTableCell]'s constructor (part_001, lines 18-22): the cell owns a
    fresh section holding the given nodes. *)
Definition newDocTableCell (sectionChildNodes : list DocNode) : result DocNode :=
  DocTableCell <$> newDocSection sectionChildNodes.

(** [DocSection.appendNodeInParagraph]: into the last node when it is a
    paragraph, into a new paragraph otherwise. *)
Definition appendNodeInParagraph (nodes : list DocNode) (docNode : DocNode) :
    result (list DocNode) :=
  match last nodes with
  | Some (DocParagraph children) =>
      children ← appendNode (DocNodeKind_tag Paragraph) children docNode;
      Ok (removelast nodes ++ [DocParagraph children])
  | _ =>
      nodes ← appendNode (DocNodeKind_tag Section_) nodes (DocParagraph []);
      children ← appendNode (DocNodeKind_tag Paragraph) [] docNode;
      Ok (removelast nodes ++ [DocParagraph children])
  end.

Definition appendNodesInParagraph (nodes docNodes : list DocNode) : result (list DocNode) :=
  foldM appendNodeInParagraph nodes docNodes.

(** [DocTableRow]: its cells, in order. *)
Definition newDocTableRow (cells : list DocNode) : DocNode := DocTableRow cells.

(** [addPlainTextCell] of the header row: a cell with one paragraph. *)
Definition newPlainTextCell (cellContent : string) : result DocNode :=
  nodes ← appendNodeInParagraph [] (DocPlainText cellContent);
  Ok (DocTableCell (DocSection nodes)).

(** [new DocTable({ headerTitles })]: a header row, no rows. *)
Definition newDocTable (headerTitles : list string) : result DocNode :=
  cells ← mapM newPlainTextCell headerTitles;
  Ok (DocTable (DocTableRow cells) []).

End construction.

(** [DocTable.addRow] and [DocTable.rows]. *)
Definition addRow (table row : DocNode) : DocNode :=
  match table with
  | DocTable header rows => DocTable header (rows ++ [row])
  | _ => table
  end.

Definition rows (table : DocNode) : list DocNode :=
  match table with
  | DocTable _ rows => rows
  | _ => []
  end.

(** ** Well-formedness *)

(** Every container holds only children its kind allows, and every slot
    holds a node of the class its type names. *)
Fixpoint wf_node (cfg : TSDocConfiguration) (n : DocNode) : bool :=
  let children (parentKind : string) := fix go (l : list DocNode) : bool :=
    match l with
    | [] => true
    | x :: l => isAllowedChild cfg parentKind (kind x) && wf_node cfg x && go l
    end in
  let all := fix go (l : list DocNode) : bool :=
    match l with
    | [] => true
    | x :: l => wf_node cfg x && go l
    end in
  match n with
  | DocParagraph nodes => children (DocNodeKind_tag Paragraph) nodes
  | DocSection nodes => children (DocNodeKind_tag Section_) nodes
  | DocEmphasisSpan _ _ nodes => children (CustomDocNodeKind_tag EmphasisSpan) nodes
  | DocNoteBox content | DocTableCell content =>
      bool_decide (kind content = DocNodeKind_tag Section_) && wf_node cfg content
  | DocTable header rows =>
      bool_decide (kind header = CustomDocNodeKind_tag TableRow) && wf_node cfg header
      && forallb (λ r, bool_decide (kind r = CustomDocNodeKind_tag TableRow)) rows
      && all rows
  | DocTableRow cells =>
      forallb (λ c, bool_decide (kind c = CustomDocNodeKind_tag TableCell)) cells
      && all cells
  | _ => true
  end.

(** A list of nodes that may stand in a container of kind [parentKind]. *)
Definition wf_children (cfg : TSDocConfiguration) (parentKind : string)
    (l : list DocNode) : bool :=
  forallb (λ x, isAllowedChild cfg parentKind (kind x) && wf_node cfg x) l.

(** ** The declared relation, specified *)

(** The pairs (parent, child) the configuration of the documenter allows. *)
Definition allowed_pairs : list (string * string) :=
  [ ("Section", "FencedCode"); ("Section", "Paragraph");
    ("Paragraph", "CodeSpan"); ("Paragraph", "LinkTag");
    ("Paragraph", "PlainText"); ("Paragraph", "SoftBreak");
    ("EmphasisSpan", "PlainText"); ("EmphasisSpan", "SoftBreak");
    ("Section", "Heading"); ("Section", "NoteBox"); ("Section", "Table");
    ("Paragraph", "EmphasisSpan") ].

Definition allowed_spec (parentKind childKind : string) : bool :=
  bool_decide ((parentKind, childKind) ∈ allowed_pairs).

(** The configuration the documenter builds every page with: what its
    constructor reads from the getter ([this._tsdocConfiguration =
    CustomDocNodes.configuration], line 223 of ISDPYamlFile.ts) when the
    static field is still unset.  The getter does not fail there
    ([the_configuration_built]); the other branch is never taken. *)
Definition the_configuration : TSDocConfiguration :=
  match CustomDocNodes_configuration CustomDocNodes_init with
  | Ok (configuration, _, _) => configuration
  | Err _ => {| docNodeManager := ∅ |}
  end.

(** * Theorems *)

(** ** The registry *)

Section registry.
Implicit Types (m : gmap string DocNodeDefinition) (p c k pkg : string).

Lemma registerDocNode_Ok pkg m d m' :
  registerDocNode pkg m d = Ok m' →
  m !! d.1 = None ∧
  m' = <[d.1 := {| docNodeKind := d.1; constructor := d.2; packageName := pkg;
                   allowedChildKinds := ∅ |}]> m.
Proof. unfold registerDocNode. destruct (m !! d.1); naive_solver. Qed.

Lemma registerDocNode_allowed pkg m d m' p c :
  registerDocNode pkg m d = Ok m' → allowedIn m' p c = allowedIn m p c.
Proof.
  intros [Hnone ->]%registerDocNode_Ok. unfold allowedIn.
  destruct (decide (d.1 = p)) as [<-|Hne].
  - by rewrite lookup_insert_eq, Hnone.
  - by rewrite lookup_insert_ne.
Qed.

Lemma registerDocNodes_allowed pkg defs m m' p c :
  registerDocNodes pkg defs m = Ok m' → allowedIn m' p c = allowedIn m p c.
Proof.
  unfold registerDocNodes. revert m.
  induction defs as [|d defs IH]; intros m H; simpl in H; simplify_result; [done|].
  erewrite IH by done. by eapply registerDocNode_allowed.
Qed.

Lemma registerDocNodes_dom pkg defs m m' :
  registerDocNodes pkg defs m = Ok m' → dom m' = dom m ∪ list_to_set defs.*1.
Proof.
  unfold registerDocNodes. revert m.
  induction defs as [|d defs IH]; intros m H; simpl in H; simplify_result.
  - set_solver.
  - rewrite (IH _ H). match goal with H : registerDocNode _ _ _ = _ |- _ =>
      apply registerDocNode_Ok in H as [_ ->] end.
    rewrite dom_insert_L. set_solver.
Qed.

(** A kind tag is registered at most once. *)
Lemma registerDocNodes_duplicate pkg defs m k ctor :
  k ∈ dom m → (k, ctor) ∈ defs → ¬ is_Ok (registerDocNodes pkg defs m).
Proof.
  intros Hk Hin [m' H]. unfold registerDocNodes in H. revert m Hk H.
  induction defs as [|d defs IH]; intros m Hk H; simpl in H; [set_solver|].
  simplify_result.
  match goal with H : registerDocNode _ _ _ = _ |- _ =>
    apply registerDocNode_Ok in H as [Hnone ->] end.
  apply elem_of_cons in Hin as [<-|Hin].
  - apply not_elem_of_dom in Hnone. done.
  - eapply IH; [done| |done]. rewrite dom_insert_L. set_solver.
Qed.

Lemma registerAllowableChild_Ok p m c m' :
  registerAllowableChild p m c = Ok m' →
  is_Some (m !! c) ∧ m' = alter (allowChild c) p m.
Proof. unfold registerAllowableChild. destruct (m !! c); naive_solver. Qed.

Lemma allowedIn_alter p m c p' c' :
  allowedIn (alter (allowChild c) p m) p' c' =
  allowedIn m p' c' || (bool_decide (p' = p) && bool_decide (c' = c) && bool_decide (p ∈ dom m)).
Proof.
  unfold allowedIn. destruct (decide (p = p')) as [<-|Hne].
  - rewrite lookup_alter_eq. destruct (m !! p) as [d|] eqn:Hd; simpl.
    + rewrite (bool_decide_eq_true_2 (p = p)) by done.
      rewrite (bool_decide_eq_true_2 (p ∈ dom m)) by (apply elem_of_dom; eauto).
      rewrite andb_true_r. simpl. rewrite <- bool_decide_or.
      apply bool_decide_ext. set_solver.
    + rewrite (bool_decide_eq_false_2 (p ∈ dom m)) by (by apply not_elem_of_dom).
      by rewrite andb_false_r.
  - rewrite lookup_alter_ne by done.
    rewrite (bool_decide_eq_false_2 (p' = p)) by done. by rewrite orb_false_r.
Qed.

Lemma registerAllowableChild_dom p m c m' :
  registerAllowableChild p m c = Ok m' → dom m' = dom m.
Proof.
  intros [_ ->]%registerAllowableChild_Ok. apply set_eq. intros k.
  by rewrite !elem_of_dom, lookup_alter_is_Some.
Qed.

Lemma foldM_registerAllowableChild p cs m m' :
  foldM (registerAllowableChild p) m cs = Ok m' →
  dom m' = dom m ∧ Forall (λ c, c ∈ dom m) cs ∧
  ∀ p' c', allowedIn m' p' c' =
    allowedIn m p' c' || (bool_decide (p' = p) && bool_decide (c' ∈ cs) && bool_decide (p ∈ dom m)).
Proof.
  revert m. induction cs as [|c cs IH]; intros m H; simpl in H; simplify_result.
  - split_and!; [done|done|]. intros p' c'.
    rewrite (bool_decide_eq_false_2 (c' ∈ [])) by set_solver.
    by rewrite andb_false_r, orb_false_r.
  - match goal with H : registerAllowableChild _ _ _ = _ |- _ =>
      pose proof (registerAllowableChild_dom _ _ _ _ H) as Hdom;
      apply registerAllowableChild_Ok in H as [Hc ->] end.
    destruct (IH _ H) as (Hd & Hall & Hallowed). rewrite Hdom in *.
    split_and!; [done| |].
    + constructor; [by apply elem_of_dom|done].
    + intros p' c'. rewrite Hallowed, allowedIn_alter.
      rewrite <- orb_assoc. f_equal.
      destruct (bool_decide (p' = p)), (bool_decide (p ∈ dom m)); simpl;
        rewrite ?andb_false_r; try done.
      rewrite !andb_true_r. destruct (decide (c' = c)) as [->|Hne].
      * rewrite (bool_decide_eq_true_2 (c = c)) by done.
        rewrite (bool_decide_eq_true_2 (c ∈ c :: cs)) by set_solver. done.
      * rewrite (bool_decide_eq_false_2 (c' = c)) by done. simpl.
        apply bool_decide_ext. set_solver.
Qed.

(** Registering allowable children adds them to the set of the parent and
    changes nothing else: repeated calls are additive. *)
Lemma registerAllowableChildren_allowed p cs m m' p' c' :
  registerAllowableChildren p cs m = Ok m' →
  allowedIn m' p' c' = allowedIn m p' c' || (bool_decide (p' = p) && bool_decide (c' ∈ cs)).
Proof.
  unfold registerAllowableChildren. destruct (m !! p) as [d|] eqn:Hp; [|done].
  intros (_ & _ & ->)%foldM_registerAllowableChild.
  rewrite (bool_decide_eq_true_2 (p ∈ dom m)) by (apply elem_of_dom; eauto).
  by rewrite andb_true_r.
Qed.

Lemma registerAllowableChildren_dom p cs m m' :
  registerAllowableChildren p cs m = Ok m' → dom m' = dom m.
Proof.
  unfold registerAllowableChildren. destruct (m !! p); [|done].
  by intros (? & _)%foldM_registerAllowableChild.
Qed.

(** Only registered kinds take part in the relation. *)
Lemma registerAllowableChildren_registered p cs m m' :
  registerAllowableChildren p cs m = Ok m' → p ∈ dom m ∧ Forall (λ c, c ∈ dom m) cs.
Proof.
  unfold registerAllowableChildren. destruct (m !! p) eqn:Hp; [|done].
  intros (_ & ? & _)%foldM_registerAllowableChild. split; [|done].
  apply elem_of_dom; eauto.
Qed.

End registry.

(** ** The configuration of the documenter *)

(** The relation of the substrate and what the extension adds to it. *)
Definition builtin_pairs : list (string * string) :=
  [ ("Section", "FencedCode"); ("Section", "Paragraph");
    ("Paragraph", "CodeSpan"); ("Paragraph", "LinkTag");
    ("Paragraph", "PlainText"); ("Paragraph", "SoftBreak") ].

Definition custom_pairs : list (string * string) :=
  [ ("EmphasisSpan", "PlainText"); ("EmphasisSpan", "SoftBreak");
    ("Section", "Heading"); ("Section", "NoteBox"); ("Section", "Table");
    ("Paragraph", "EmphasisSpan") ].

Lemma bool_decide_pair_cons (p c p0 c0 : string) (l : list (string * string)) :
  bool_decide ((p, c) ∈ (p0, c0) :: l) =
  bool_decide (p = p0) && bool_decide (c = c0) || bool_decide ((p, c) ∈ l).
Proof.
  rewrite <- bool_decide_and, <- bool_decide_or. apply bool_decide_ext.
  rewrite elem_of_cons. naive_solver.
Qed.

Lemma bool_decide_in_cons (c c0 : string) (l : list string) :
  bool_decide (c ∈ c0 :: l) = bool_decide (c = c0) || bool_decide (c ∈ l).
Proof. rewrite <- bool_decide_or. apply bool_decide_ext. by rewrite elem_of_cons. Qed.

Lemma bool_decide_in_nil {A} `{EqDecision A} (c : A) : bool_decide (c ∈ @nil A) = false.
Proof. apply bool_decide_eq_false_2. apply not_elem_of_nil. Qed.

(** Normalises membership tests in literal lists to tests of equality. *)
Ltac unfold_pairs :=
  repeat first [ rewrite bool_decide_pair_cons | rewrite bool_decide_in_cons
               | rewrite bool_decide_in_nil ];
  rewrite ?andb_false_r, ?orb_false_r.

Lemma TSDocConfiguration_new_allowed cfg p c :
  TSDocConfiguration_new = Ok cfg →
  isAllowedChild cfg p c = bool_decide ((p, c) ∈ builtin_pairs).
Proof.
  unfold TSDocConfiguration_new, isAllowedChild. intros H. simplify_result. simpl.
  repeat match goal with
  | H : registerAllowableChildren _ _ _ = Ok _ |- _ =>
      rewrite (registerAllowableChildren_allowed _ _ _ _ _ _ H); clear H
  | H : registerDocNodes _ _ _ = Ok _ |- _ =>
      rewrite (registerDocNodes_allowed _ _ _ _ _ _ H); clear H
  end.
  unfold builtin_pairs, allowedIn. rewrite lookup_empty. simpl. unfold_pairs.
  repeat (destruct (bool_decide _); simpl; try done).
Qed.

(** The extension widens the relation of whatever configuration it is given
    by exactly [custom_pairs]. *)
Lemma CustomDocNodes_register_allowed cfg cfg' p c :
  CustomDocNodes_register cfg = Ok cfg' →
  isAllowedChild cfg' p c = isAllowedChild cfg p c || bool_decide ((p, c) ∈ custom_pairs).
Proof.
  unfold CustomDocNodes_register, isAllowedChild. intros H. simplify_result. simpl.
  repeat match goal with
  | H : registerAllowableChildren _ _ _ = Ok _ |- _ =>
      rewrite (registerAllowableChildren_allowed _ _ _ _ _ _ H); clear H
  | H : registerDocNodes _ _ _ = Ok _ |- _ =>
      rewrite (registerDocNodes_allowed _ _ _ _ _ _ H); clear H
  end.
  unfold custom_pairs. simpl. unfold_pairs.
  destruct (allowedIn _ p c); [done|]. simpl.
  repeat (destruct (bool_decide _); simpl; try done).
Qed.

(** The first call of the getter succeeds: the built-in kinds are
    registered, then the extension on top of them. *)
Lemma the_configuration_built :
  ∃ cfg0, TSDocConfiguration_new = Ok cfg0 ∧
          CustomDocNodes_register cfg0 = Ok the_configuration.
Proof.
  unfold the_configuration, CustomDocNodes_configuration. simpl.
  destruct TSDocConfiguration_new as [cfg0|e] eqn:E0.
  - exists cfg0. split; [done|]. simpl.
    destruct (CustomDocNodes_register cfg0) as [cfg|e] eqn:E1; [done|].
    exfalso. revert E1. vm_compute in E0. injection E0 as <-. by vm_compute.
  - exfalso. by vm_compute in E0.
Qed.

Lemma CustomDocNodes_configuration_init :
  CustomDocNodes_configuration CustomDocNodes_init =
  Ok (the_configuration, {| _configuration := Some the_configuration |}, 1).
Proof.
  destruct the_configuration_built as (cfg0 & H0 & H1).
  unfold CustomDocNodes_configuration. simpl. rewrite H0. simpl. by rewrite H1.
Qed.

#[global] Opaque the_configuration.

Lemma bool_decide_elem_of_app {A} `{EqDecision A} (x : A) (l k : list A) :
  bool_decide (x ∈ l ++ k) = bool_decide (x ∈ l) || bool_decide (x ∈ k).
Proof. rewrite <- bool_decide_or. apply bool_decide_ext, elem_of_app. Qed.

(** The relation of the configuration, computed. *)
Lemma isAllowedChild_the_configuration (parentKind childKind : string) :
  isAllowedChild the_configuration parentKind childKind = allowed_spec parentKind childKind.
Proof.
  destruct the_configuration_built as (cfg0 & H0 & H1).
  rewrite (CustomDocNodes_register_allowed _ _ _ _ H1),
    (TSDocConfiguration_new_allowed _ _ _ H0).
  unfold allowed_spec. change allowed_pairs with (builtin_pairs ++ custom_pairs).
  by rewrite bool_decide_elem_of_app.
Qed.

(** C10: the relation the documenter builds its pages under is exactly
    [allowed_pairs]: a section holds fenced code, paragraphs, headings, note
    boxes and tables; a paragraph holds code spans, links, plain text, soft
    breaks and emphasis spans; an emphasis span holds plain text and soft
    breaks; nothing else is allowed, for any two kind tags. *)
Theorem the_configuration_allowed (parentKind childKind : string) :
  isAllowedChild the_configuration parentKind childKind = true ↔
  (parentKind, childKind) ∈ allowed_pairs.
Proof.
  rewrite isAllowedChild_the_configuration. unfold allowed_spec.
  apply bool_decide_eq_true.
Qed.

(** C30: the registrations of the six custom kinds: each of
    [EmphasisSpan], [Heading], [NoteBox], [Table], [TableCell] and
    [TableRow] is a kind of the configuration, registered with the class
    that constructs it and under the package name the source gives, which
    is spelled [@micrososft]. *)
Theorem custom_kinds_registered (k : CustomDocNodeKind) :
  ∃ d, docNodeManager the_configuration !! CustomDocNodeKind_tag k = Some d ∧
       docNodeKind d = CustomDocNodeKind_tag k ∧
       constructor d = "Doc" +:+ CustomDocNodeKind_tag k ∧
       packageName d = "@micrososft/api-documenter".
Proof. destruct k; (eexists; split; [vm_compute; reflexivity|by vm_compute]). Qed.

(** C29: the getter is a singleton: once a call has returned a
    configuration, every later call returns that same configuration from
    the static field, leaves the field as it is and constructs no
    configuration. *)
Theorem CustomDocNodes_configuration_singleton s c s' (n : nat) :
  CustomDocNodes_configuration s = Ok (c, s', n) →
  CustomDocNodes_configuration s' = Ok (c, s', 0).
Proof.
  unfold CustomDocNodes_configuration. destruct s as [[c0|]]; simpl.
  - by intros [= <- <- _].
  - destruct TSDocConfiguration_new as [c0|]; simpl; [|done].
    destruct (CustomDocNodes_register c0) as [c1|]; simpl; [|done].
    by intros [= <- <- _].
Qed.

Lemma CustomDocNodes_configuration_singleton_witness :
  CustomDocNodes_configuration CustomDocNodes_init =
    Ok (the_configuration, {| _configuration := Some the_configuration |}, 1) ∧
  CustomDocNodes_configuration {| _configuration := Some the_configuration |} =
    Ok (the_configuration, {| _configuration := Some the_configuration |}, 0).
Proof.
  split; [exact CustomDocNodes_configuration_init|].
  exact (CustomDocNodes_configuration_singleton CustomDocNodes_init _ _ _
           CustomDocNodes_configuration_init).
Defined.

Lemma CustomDocNodes_register_dom cfg cfg' :
  CustomDocNodes_register cfg = Ok cfg' →
  dom (docNodeManager cfg') =
  dom (docNodeManager cfg) ∪ list_to_set (CustomDocNodeKind_tag <$> all_CustomDocNodeKind).
Proof.
  unfold CustomDocNodes_register. intros H.
  apply bind_Ok in H as (m1 & H1 & H). apply bind_Ok in H as (m2 & H2 & H).
  apply bind_Ok in H as (m3 & H3 & H). apply bind_Ok in H as (m4 & H4 & H).
  injection H as <-. simpl.
  rewrite (registerAllowableChildren_dom _ _ _ _ H4),
    (registerAllowableChildren_dom _ _ _ _ H3),
    (registerAllowableChildren_dom _ _ _ _ H2),
    (registerDocNodes_dom _ _ _ _ H1).
  done.
Qed.

(** ** Checked construction *)

Section construction_facts.
Context (cfg : TSDocConfiguration).
Implicit Types (p : string) (n : DocNode) (nodes ns : list DocNode).

(** The children a container of kind [p] accepts. *)
Definition allowed_children p ns : Prop :=
  Forall (λ n, isAllowedChild cfg p (kind n) = true) ns.

Lemma appendNode_Ok p nodes n r :
  appendNode cfg p nodes n = Ok r ↔ r = nodes ++ [n] ∧ isAllowedChild cfg p (kind n) = true.
Proof. unfold appendNode. destruct (isAllowedChild _ _ _); naive_solver. Qed.

Lemma appendNode_Err p nodes n e :
  appendNode cfg p nodes n = Err e ↔
  e = StructureError p (kind n) ∧ isAllowedChild cfg p (kind n) = false.
Proof. unfold appendNode. destruct (isAllowedChild _ _ _); naive_solver. Qed.

Lemma appendNodes_Ok p nodes ns r :
  appendNodes cfg p nodes ns = Ok r ↔ r = nodes ++ ns ∧ allowed_children p ns.
Proof.
  unfold appendNodes, allowed_children. revert nodes.
  induction ns as [|n ns IH]; intros nodes; simpl.
  - rewrite app_nil_r. naive_solver.
  - rewrite bind_Ok, Forall_cons. setoid_rewrite appendNode_Ok. setoid_rewrite IH.
    split.
    + intros (? & [-> ?] & -> & ?). by rewrite <- app_assoc.
    + intros (-> & ? & ?). eexists. split; [done|]. by rewrite <- app_assoc.
Qed.

(** A failing construction reports the first child that is not allowed. *)
Lemma appendNodes_Err p nodes ns e :
  appendNodes cfg p nodes ns = Err e ↔
  ∃ ns1 n ns2, ns = ns1 ++ n :: ns2 ∧ allowed_children p ns1 ∧
    isAllowedChild cfg p (kind n) = false ∧ e = StructureError p (kind n).
Proof.
  unfold appendNodes, allowed_children. revert nodes.
  induction ns as [|n ns IH]; intros nodes; simpl.
  - split; [done|]. intros (ns1 & ? & ? & ? & _). by destruct ns1.
  - rewrite bind_Err, appendNode_Err. setoid_rewrite appendNode_Ok. split.
    + intros [[-> Hn]|(? & [-> Hn] & (ns1 & n' & ns2 & -> & ? & ? & ?)%IH)].
      * exists [], n, ns. by split_and!.
      * exists (n :: ns1), n', ns2. split_and!; [done| |done..]. by constructor.
    + intros ([|n0 ns1] & n' & ns2 & Heq & Hall & Hn & ->); simplify_eq/=.
      * by left.
      * right. apply Forall_cons in Hall as [? ?]. eexists. split; [done|].
        apply IH. by exists ns1, n', ns2.
Qed.

Lemma newDocSection_Ok ns r :
  newDocSection cfg ns = Ok r ↔ r = DocSection ns ∧ allowed_children "Section" ns.
Proof.
  unfold newDocSection. rewrite fmap_Ok. setoid_rewrite appendNodes_Ok. naive_solver.
Qed.

Lemma newDocParagraph_Ok ns r :
  newDocParagraph cfg ns = Ok r ↔ r = DocParagraph ns ∧ allowed_children "Paragraph" ns.
Proof.
  unfold newDocParagraph. rewrite fmap_Ok. setoid_rewrite appendNodes_Ok. naive_solver.
Qed.

Lemma newDocEmphasisSpan_Ok b i ns r :
  newDocEmphasisSpan cfg b i ns = Ok r ↔
  r = DocEmphasisSpan b i ns ∧ allowed_children "EmphasisSpan" ns.
Proof.
  unfold newDocEmphasisSpan. rewrite fmap_Ok. setoid_rewrite appendNodes_Ok. naive_solver.
Qed.

Lemma newDocNoteBox_Ok ns r :
  newDocNoteBox cfg ns = Ok r ↔
  r = DocNoteBox (DocSection ns) ∧ allowed_children "Section" ns.
Proof.
  unfold newDocNoteBox. rewrite fmap_Ok. setoid_rewrite newDocSection_Ok. naive_solver.
Qed.

Lemma newDocTableCell_Ok ns r :
  newDocTableCell cfg ns = Ok r ↔
  r = DocTableCell (DocSection ns) ∧ allowed_children "Section" ns.
Proof.
  unfold newDocTableCell. rewrite fmap_Ok. setoid_rewrite newDocSection_Ok. naive_solver.
Qed.

(** *** Well-formedness *)

Lemma wf_children_app p ns ns' :
  wf_children cfg p (ns ++ ns') = wf_children cfg p ns && wf_children cfg p ns'.
Proof. unfold wf_children. apply forallb_app. Qed.

Lemma wf_children_Forall p ns :
  wf_children cfg p ns = true ↔
  allowed_children p ns ∧ Forall (λ n, wf_node cfg n = true) ns.
Proof.
  unfold wf_children, allowed_children. rewrite forallb_forall, <- Forall_and, Forall_forall.
  setoid_rewrite andb_true_iff. setoid_rewrite <- list_elem_of_In. done.
Qed.

Lemma wf_node_children p (ns : list DocNode) :
  (fix go (l : list DocNode) : bool :=
     match l with
     | [] => true
     | x :: l => isAllowedChild cfg p (kind x) && wf_node cfg x && go l
     end) ns = wf_children cfg p ns.
Proof. induction ns as [|n ns IH]; simpl; [done|]. by rewrite IH. Qed.

Lemma wf_node_all (ns : list DocNode) :
  (fix go (l : list DocNode) : bool :=
     match l with
     | [] => true
     | x :: l => wf_node cfg x && go l
     end) ns = forallb (wf_node cfg) ns.
Proof. induction ns as [|n ns IH]; simpl; [done|]. by rewrite IH. Qed.

Lemma wf_node_Paragraph ns :
  wf_node cfg (DocParagraph ns) = wf_children cfg "Paragraph" ns.
Proof. apply wf_node_children. Qed.

Lemma wf_node_Section ns :
  wf_node cfg (DocSection ns) = wf_children cfg "Section" ns.
Proof. apply wf_node_children. Qed.

Lemma wf_node_EmphasisSpan b i ns :
  wf_node cfg (DocEmphasisSpan b i ns) = wf_children cfg "EmphasisSpan" ns.
Proof. apply wf_node_children. Qed.

Lemma wf_node_TableCell ns :
  wf_node cfg (DocTableCell (DocSection ns)) = wf_children cfg "Section" ns.
Proof. simpl. apply wf_node_children. Qed.

Lemma wf_node_NoteBox ns :
  wf_node cfg (DocNoteBox (DocSection ns)) = wf_children cfg "Section" ns.
Proof. simpl. apply wf_node_children. Qed.

Lemma wf_node_TableRow cells :
  wf_node cfg (DocTableRow cells) =
  forallb (λ c, bool_decide (kind c = "TableCell")) cells && forallb (wf_node cfg) cells.
Proof. simpl. by rewrite wf_node_all. Qed.

Lemma wf_node_Table header rows :
  wf_node cfg (DocTable header rows) =
  bool_decide (kind header = "TableRow") && wf_node cfg header
  && forallb (λ r, bool_decide (kind r = "TableRow")) rows && forallb (wf_node cfg) rows.
Proof. simpl. by rewrite wf_node_all. Qed.

End construction_facts.

#[export] Hint Rewrite wf_node_Paragraph wf_node_Section wf_node_EmphasisSpan
  wf_node_TableCell wf_node_NoteBox wf_node_TableRow wf_node_Table
  wf_children_app : docgen_rw.

Section paragraphs.
Context (cfg : TSDocConfiguration).
Implicit Types (n : DocNode) (nodes ns l : list DocNode).

(** The last node is a paragraph: the next inline node joins it. *)
Lemma appendNodeInParagraph_join l children n :
  appendNodeInParagraph cfg (l ++ [DocParagraph children]) n =
  (children' ← appendNode cfg "Paragraph" children n;
   Ok (l ++ [DocParagraph children'])).
Proof.
  unfold appendNodeInParagraph. rewrite last_snoc. simpl.
  by rewrite removelast_last.
Qed.

(** No paragraph at the end: a new paragraph is opened. *)
Lemma appendNodeInParagraph_open nodes n :
  (∀ children, last nodes ≠ Some (DocParagraph children)) →
  appendNodeInParagraph cfg nodes n =
  (if isAllowedChild cfg "Section" "Paragraph"
   then children ← appendNode cfg "Paragraph" [] n; Ok (nodes ++ [DocParagraph children])
   else Err (StructureError "Section" "Paragraph")).
Proof.
  intros Hlast. unfold appendNodeInParagraph.
  assert ((nodes' ← appendNode cfg "Section" nodes (DocParagraph []);
           children ← appendNode cfg "Paragraph" [] n;
           Ok (removelast nodes' ++ [DocParagraph children])) =
          (if isAllowedChild cfg "Section" "Paragraph"
           then children ← appendNode cfg "Paragraph" [] n;
                Ok (nodes ++ [DocParagraph children])
           else Err (StructureError "Section" "Paragraph"))) as Heq.
  { change (appendNode cfg "Section" nodes (DocParagraph [])) with
      (if isAllowedChild cfg "Section" "Paragraph"
       then Ok (nodes ++ [DocParagraph []])
       else Err (StructureError "Section" "Paragraph")).
    destruct (isAllowedChild cfg "Section" "Paragraph"); [|done].
    simpl. destruct (appendNode cfg "Paragraph" [] n); [|done].
    simpl. by rewrite removelast_last. }
  destruct (last nodes) as [[]|] eqn:E; try exact Heq. by destruct (Hlast nodes0).
Qed.

(** The two outcomes of a successful [appendNodeInParagraph]. *)
Lemma appendNodeInParagraph_Ok nodes n r :
  appendNodeInParagraph cfg nodes n = Ok r →
  isAllowedChild cfg "Paragraph" (kind n) = true ∧
  ((∃ l children, nodes = l ++ [DocParagraph children] ∧
                  r = l ++ [DocParagraph (children ++ [n])]) ∨
   (isAllowedChild cfg "Section" "Paragraph" = true ∧ r = nodes ++ [DocParagraph [n]])).
Proof.
  unfold appendNodeInParagraph.
  assert ((nodes' ← appendNode cfg "Section" nodes (DocParagraph []);
           children ← appendNode cfg "Paragraph" [] n;
           Ok (removelast nodes' ++ [DocParagraph children])) = Ok r →
          isAllowedChild cfg "Paragraph" (kind n) = true ∧
          isAllowedChild cfg "Section" "Paragraph" = true ∧
          r = nodes ++ [DocParagraph [n]]) as Hopen.
  { intros H. apply bind_Ok in H as (nodes' & H1 & H).
    apply bind_Ok in H as (ch & H2 & H). injection H as <-.
    apply appendNode_Ok in H1 as [-> Hsp]. apply appendNode_Ok in H2 as [-> Hc].
    by rewrite removelast_last. }
  destruct (last nodes) as [x|] eqn:E; [destruct x|];
    try (intros H; destruct (Hopen H) as (? & ? & ?); split; [done|by right]).
  apply last_Some in E as [l ->]. intros H. apply bind_Ok in H as (ch & H1 & H).
  injection H as <-. apply appendNode_Ok in H1 as [-> Hc].
  rewrite removelast_last. split; [done|]. left. eauto.
Qed.

Lemma appendNodeInParagraph_wf nodes n r :
  wf_children cfg "Section" nodes = true → wf_node cfg n = true →
  appendNodeInParagraph cfg nodes n = Ok r → wf_children cfg "Section" r = true.
Proof.
  intros Hwf Hn [Hc [(l & ch & -> & ->)|[Hsp ->]]]%appendNodeInParagraph_Ok.
  - rewrite wf_children_app in Hwf |- *. apply andb_true_iff in Hwf as [-> Hp].
    simpl in Hp |- *. rewrite wf_node_children in Hp |- *.
    rewrite !andb_true_r in Hp. apply andb_true_iff in Hp as [-> Hp].
    rewrite wf_children_app, Hp. simpl. by rewrite Hc, Hn.
  - rewrite wf_children_app, Hwf. simpl. by rewrite Hsp, Hc, Hn.
Qed.

Lemma appendNodesInParagraph_wf nodes ns r :
  wf_children cfg "Section" nodes = true → Forall (λ n, wf_node cfg n = true) ns →
  appendNodesInParagraph cfg nodes ns = Ok r → wf_children cfg "Section" r = true.
Proof.
  unfold appendNodesInParagraph. intros Hwf Hns. revert nodes Hwf.
  induction Hns as [|n ns Hn _ IH]; intros nodes Hwf H; simpl in H; simplify_result; [done|].
  eapply IH; [|done]. by eapply appendNodeInParagraph_wf.
Qed.

End paragraphs.

(** ** The construction operations under the documenter's configuration *)

(** Appending under the documenter's configuration: the child goes in
    when the pair of kinds is declared, and is refused otherwise. *)
Lemma appendNode_the_configuration (parentKind : string) (nodes : list DocNode) (n : DocNode) :
  appendNode the_configuration parentKind nodes n =
  if allowed_spec parentKind (kind n)
  then Ok (nodes ++ [n])
  else Err (StructureError parentKind (kind n)).
Proof. unfold appendNode. by rewrite isAllowedChild_the_configuration. Qed.

(** C11: a table cell built from well-formed nodes that a section accepts is
    the cell that owns a section with exactly these nodes, and it is
    well-formed; conversely a well-formed cell over a section is what the
    constructor returns. *)
Theorem newDocTableCell_spec (cfg : TSDocConfiguration) (ns : list DocNode) (r : DocNode) :
  newDocTableCell cfg ns = Ok r ∧ Forall (λ n, wf_node cfg n = true) ns ↔
  r = DocTableCell (DocSection ns) ∧ wf_node cfg r = true.
Proof.
  rewrite newDocTableCell_Ok. split.
  - intros [[-> Hall] Hwf]. split; [done|].
    rewrite wf_node_TableCell. by apply wf_children_Forall.
  - intros [-> Hwf]. rewrite wf_node_TableCell in Hwf.
    apply wf_children_Forall in Hwf as [? ?]. done.
Qed.

(** C12: when the constructor of a table cell fails, the error is a structure
    error of the section the cell owns, and it names the first node that a
    section does not accept. *)
Theorem newDocTableCell_Err (cfg : TSDocConfiguration) (ns : list DocNode) (e : Error) :
  newDocTableCell cfg ns = Err e ↔
  ∃ ns1 n ns2, ns = ns1 ++ n :: ns2 ∧ allowed_children cfg "Section" ns1 ∧
    isAllowedChild cfg "Section" (kind n) = false ∧ e = StructureError "Section" (kind n).
Proof.
  rewrite <- (appendNodes_Err cfg "Section" []).
  unfold newDocTableCell, newDocSection.
  change (DocNodeKind_tag Section_) with "Section".
  destruct (appendNodes cfg "Section" [] ns); unfold fmap, result_fmap; simpl.
  - split; intros H; discriminate H.
  - split; intros [= ->]; done.
Qed.

(** The checked constructors establish the invariant. *)
Lemma constructors_wf (cfg : TSDocConfiguration) (ns : list DocNode) (r : DocNode) :
  Forall (λ n, wf_node cfg n = true) ns →
  (newDocSection cfg ns = Ok r ∨ newDocParagraph cfg ns = Ok r ∨
   (∃ b i, newDocEmphasisSpan cfg b i ns = Ok r) ∨ newDocNoteBox cfg ns = Ok r ∨
   newDocTableCell cfg ns = Ok r) →
  wf_node cfg r = true.
Proof.
  intros Hwf [H|[H|[(b & i & H)|[H|H]]]].
  - apply newDocSection_Ok in H as [-> ?]. rewrite wf_node_Section. by apply wf_children_Forall.
  - apply newDocParagraph_Ok in H as [-> ?]. rewrite wf_node_Paragraph.
    by apply wf_children_Forall.
  - apply newDocEmphasisSpan_Ok in H as [-> ?]. rewrite wf_node_EmphasisSpan.
    by apply wf_children_Forall.
  - apply newDocNoteBox_Ok in H as [-> ?]. rewrite wf_node_NoteBox. by apply wf_children_Forall.
  - apply newDocTableCell_Ok in H as [-> ?]. rewrite wf_node_TableCell.
    by apply wf_children_Forall.
Qed.
