(* ===== verification/ApiModel.v ===== *)
(** * The item model

    The tree of API items the documenter reads.  The classes of
    api-extractor-model are not under [src/]; what is modelled here is the part
    of them that [HugoDocumenter] uses: the kind tag, the names, the mixin
    properties (an optional field is [None] when the mixin is not a base class
    of the item, which is what [XMixin.isBaseClassOf(item)] tests), the
    excerpts, the TSDoc comment and the members.

    An item of the source knows its parent.  Here an item is reached
    through an [ApiItemRef]: the item with the chain of its ancestors, root
    first.  [getHierarchy] is that chain with the item at its end; two
    references are the same item when they are equal, which is exact as long
    as no container holds the same member twice (api-extractor-model refuses
    two members with one container key). *)

From S2P Require Import Prelude DocNodes.

(** ** Kinds, tags, excerpts and comments *)

Inductive ApiItemKind : Type :=
| CallSignature | Class | Constructor | ConstructSignature | EntryPoint | Enum
| EnumMember | Function | IndexSignature | Interface | Method | MethodSignature
| Model | Namespace | Package | Property | PropertySignature | TypeAlias
| Variable_ | None_.

#[export] Instance ApiItemKind_eq_dec : EqDecision ApiItemKind.
Proof. solve_decision. Defined.

(** The value of the enum member, as it appears in an error message. *)
Definition ApiItemKind_tag (k : ApiItemKind) : string :=
  match k with
  | CallSignature => "CallSignature" | Class => "Class" | Constructor => "Constructor"
  | ConstructSignature => "ConstructSignature" | EntryPoint => "EntryPoint"
  | Enum => "Enum" | EnumMember => "EnumMember" | Function => "Function"
  | IndexSignature => "IndexSignature" | Interface => "Interface" | Method => "Method"
  | MethodSignature => "MethodSignature" | Model => "Model" | Namespace => "Namespace"
  | Package => "Package" | Property => "Property"
  | PropertySignature => "PropertySignature" | TypeAlias => "TypeAlias"
  | Variable_ => "Variable" | None_ => "None"
  end.

Inductive ReleaseTag : Type :=
| ReleaseTag_None | Internal | Alpha | Beta | Public.

#[export] Instance ReleaseTag_eq_dec : EqDecision ReleaseTag.
Proof. solve_decision. Defined.

Inductive ExcerptTokenKind : Type := Content | Reference.

#[export] Instance ExcerptTokenKind_eq_dec : EqDecision ExcerptTokenKind.
Proof. solve_decision. Defined.

Record ExcerptToken : Type := {
  tokenKind : ExcerptTokenKind;
  text : string;
  canonicalReference : option string;
}.

#[export] Instance ExcerptToken_eq_dec : EqDecision ExcerptToken.
Proof. solve_decision. Defined.

(** An excerpt, by the tokens it spans. *)
Record Excerpt : Type := {
  spannedTokens : list ExcerptToken;
}.

#[export] Instance Excerpt_eq_dec : EqDecision Excerpt.
Proof. solve_decision. Defined.

(** [Excerpt.text]: the texts of the spanned tokens, joined. *)
Definition Excerpt_text (e : Excerpt) : string :=
  foldr (λ t s, text t +:+ s) "" (spannedTokens e).

(** A block of a comment: the tag in upper case and the nodes of its content. *)
Record DocBlock : Type := {
  tagNameWithUpperCase : string;
  content : list DocNode;
}.

#[export] Instance DocBlock_eq_dec : EqDecision DocBlock.
Proof. solve_decision. Defined.

Record DocComment : Type := {
  summarySection : list DocNode;
  remarksBlock : option DocBlock;
  deprecatedBlock : option DocBlock;
  returnsBlock : option DocBlock;
  customBlocks : list DocBlock;
}.

#[export] Instance DocComment_eq_dec : EqDecision DocComment.
Proof. solve_decision. Defined.

(** The standard tags the documenter filters custom blocks by. *)
Definition StandardTags_decorator : string := "@DECORATOR".
Definition StandardTags_example : string := "@EXAMPLE".
Definition StandardTags_throws : string := "@THROWS".

(** A parameter of a function-like item ([Parameter] of api-extractor-model). *)
Record ApiParameter : Type := {
  parameterName : string;
  parameterTypeExcerpt : Excerpt;
  parameterIsOptional : bool;
  tsdocParamBlock : option DocBlock;
}.

#[export] Instance ApiParameter_eq_dec : EqDecision ApiParameter.
Proof. solve_decision. Defined.

(** ** Items *)

Module Api.
(** The own properties of an item. *)
Record Data : Type := {
  kind : ApiItemKind;
  displayName : string;
  name : string;
  releaseTag : option ReleaseTag;
  tsdocComment : option DocComment;
  excerptTokens : option (list ExcerptToken);
  excerptWithModifiers : string;
  extendsType : option Excerpt;
  implementsTypes : list Excerpt;
  extendsTypes : list Excerpt;
  overloadIndex : option nat;
  parameters : list ApiParameter;
  returnTypeExcerpt : option Excerpt;
  isOptional : option bool;
  isStatic : option bool;
  isProtected : option bool;
  isAbstract : option bool;
  isReadonly : option bool;
  propertyTypeExcerpt : option Excerpt;
  isEventProperty : bool;
  initializerExcerpt : option Excerpt;
}.

(** An item with nothing but a kind and a name. *)
Definition plain (k : ApiItemKind) (n : string) : Data :=
  {| kind := k; displayName := n; name := n; releaseTag := None; tsdocComment := None;
     excerptTokens := None; excerptWithModifiers := ""; extendsType := None;
     implementsTypes := []; extendsTypes := []; overloadIndex := None;
     parameters := []; returnTypeExcerpt := None; isOptional := None;
     isStatic := None; isProtected := None; isAbstract := None; isReadonly := None;
     propertyTypeExcerpt := None; isEventProperty := false;
     initializerExcerpt := None |}.

(** A function-like item with nothing but a kind, a name and an overload
    index. *)
Definition callable (k : ApiItemKind) (n : string) (i : nat) : Data :=
  {| kind := k; displayName := n; name := n; releaseTag := None; tsdocComment := None;
     excerptTokens := None; excerptWithModifiers := ""; extendsType := None;
     implementsTypes := []; extendsTypes := []; overloadIndex := Some i;
     parameters := []; returnTypeExcerpt := None; isOptional := None;
     isStatic := None; isProtected := None; isAbstract := None; isReadonly := None;
     propertyTypeExcerpt := None; isEventProperty := false;
     initializerExcerpt := None |}.
End Api.

#[export] Instance ApiData_eq_dec : EqDecision Api.Data.
Proof. solve_decision. Defined.

Section ApiItem_def.
Local Unset Elimination Schemes.

Inductive ApiItem : Type :=
| mkApiItem (data : Api.Data) (members : list ApiItem).

Variable P : ApiItem → Prop.
Hypothesis Hitem : ∀ data members, Forall P members → P (mkApiItem data members).

Fixpoint ApiItem_ind (i : ApiItem) : P i :=
  match i with
  | mkApiItem data members =>
      Hitem data members
        ((fix all (l : list ApiItem) : Forall P l :=
            match l with
            | [] => Forall_nil_2 P
            | x :: l => Forall_cons_2 P x l (ApiItem_ind x) (all l)
            end) members)
  end.
End ApiItem_def.

Definition data (i : ApiItem) : Api.Data := match i with mkApiItem d _ => d end.
Definition members (i : ApiItem) : list ApiItem := match i with mkApiItem _ m => m end.
Coercion data : ApiItem >-> Api.Data.

#[export] Instance ApiItem_eq_dec : EqDecision ApiItem.
Proof.
  unshelve refine (fix go (x y : ApiItem) {struct x} : Decision (x = y) :=
    let gol := fix gol (l1 l2 : list ApiItem) {struct l1} : Decision (l1 = l2) :=
      match l1, l2 with
      | [], [] => left eq_refl
      | a :: l1, b :: l2 => cast_if_and (go a b) (gol l1 l2)
      | _, _ => right _
      end in
    match x, y with
    | mkApiItem d m, mkApiItem d' m' => cast_if_and (decide (d = d')) (gol m m')
    end); try (clear gol); try (clear go); try congruence.
Defined.

(** The height of an item: the longest chain of members below it. *)
Fixpoint item_height (i : ApiItem) : nat :=
  match i with
  | mkApiItem _ members =>
      S ((fix go (l : list ApiItem) : nat :=
            match l with
            | [] => 0
            | x :: l => item_height x `max` go l
            end) members)
  end.

(** ** References *)

(** An item in its place: [ancestors] are its parent chain, root first. *)
Record ApiItemRef : Type := {
  ancestors : list ApiItem;
  self : ApiItem;
}.
Coercion self : ApiItemRef >-> ApiItem.

#[export] Instance ApiItemRef_eq_dec : EqDecision ApiItemRef.
Proof. solve_decision. Defined.

(** [ApiItem.getHierarchy]: from the root down to the item. *)
Definition getHierarchy (r : ApiItemRef) : list ApiItem := ancestors r ++ [self r].

(** [ApiItem.parent]. *)
Definition parent (r : ApiItemRef) : option ApiItemRef :=
  match last (ancestors r) with
  | Some p => Some {| ancestors := removelast (ancestors r); self := p |}
  | None => None
  end.

(** The reference of a member of [r]. *)
Definition memberRef (r : ApiItemRef) (m : ApiItem) : ApiItemRef :=
  {| ancestors := getHierarchy r; self := m |}.

(** [ApiItemContainerMixin.members], as references. *)
Definition memberRefs (r : ApiItemRef) : list ApiItemRef :=
  memberRef r <$> members r.

(** [ApiPackage.entryPoints]: the members of a package. *)
Definition entryPoints (r : ApiItemRef) : list ApiItemRef := memberRefs r.

(** [ApiEntryPoint.importPath]: the name of the entry point. *)
Definition importPath (i : ApiItem) : string := Api.name i.

(** The references of the items of a hierarchy: [anc] are the ancestors of
    the first item of [l]. *)
Fixpoint refs_along (anc l : list ApiItem) : list ApiItemRef :=
  match l with
  | [] => []
  | x :: l => {| ancestors := anc; self := x |} :: refs_along (anc ++ [x]) l
  end.

(** [getHierarchy], each item with its place. *)
Definition hierarchyRefs (r : ApiItemRef) : list ApiItemRef :=
  refs_along [] (getHierarchy r).

Definition rootRef (root : ApiItem) : ApiItemRef := {| ancestors := []; self := root |}.

(** Every reference of the tree below [r], [r] first, members in order. *)
Fixpoint refs_below_fuel (fuel : nat) (r : ApiItemRef) : list ApiItemRef :=
  match fuel with
  | 0 => []
  | S fuel => r :: concat (refs_below_fuel fuel <$> memberRefs r)
  end.

Definition refs_below (r : ApiItemRef) : list ApiItemRef :=
  refs_below_fuel (item_height r) r.

(** The kinds that do not name a scope: the model, packages, entry points. *)
Definition is_scope_root (k : ApiItemKind) : bool :=
  match k with
  | Model | Package | EntryPoint => true
  | _ => false
  end.

(** [getScopedNameWithinPackage]: the display names from below the entry
    point down to the item, joined by dots. *)
Fixpoint scoped_parts (up : list ApiItem) : list string :=
  match up with
  | [] => []
  | i :: up =>
      if is_scope_root (Api.kind i) then [] else Api.displayName i :: scoped_parts up
  end.

Fixpoint join_dots (parts : list string) : string :=
  match parts with
  | [] => ""
  | [p] => p
  | p :: parts => p +:+ "." +:+ join_dots parts
  end.

Definition getScopedNameWithinPackage (r : ApiItemRef) : string :=
  join_dots (reverse (scoped_parts (reverse (getHierarchy r)))).

(** ** The model *)

(** [IFindApiItemsResult]. *)
Record IFindApiItemsResult : Type := {
  items : list ApiItemRef;
  messages : list string;
  maybeIncompleteResult : bool;
}.

(** The model: its root item and the two queries the documenter asks it.
    The queries are api-extractor-model's; the theorems hold for all of
    them. *)
Record ApiModel : Type := {
  root : ApiItem;
  resolveDeclarationReference : string → option ApiItemRef;
  findMembersWithInheritance : ApiItemRef → IFindApiItemsResult;
}.

(** A model with nothing to resolve and no inheritance. *)
Definition closed_model (root : ApiItem) : ApiModel :=
  {| root := root;
     resolveDeclarationReference := λ _, None;
     findMembersWithInheritance := λ r,
       {| items := memberRefs r; messages := []; maybeIncompleteResult := false |} |}.

(** ** The shape of a well-formed tree *)

(** Which kinds a container of a kind holds: the fixed hierarchy of the
    item model. *)
Definition member_kind_ok (parentKind childKind : ApiItemKind) : bool :=
  match parentKind with
  | Model => bool_decide (childKind = Package)
  | Package => bool_decide (childKind = EntryPoint)
  | EntryPoint | Namespace =>
      bool_decide (childKind ∈ [Class; Interface; Enum; Function; Variable_; TypeAlias; Namespace])
  | Class => bool_decide (childKind ∈ [Constructor; Method; Property; IndexSignature])
  | Interface =>
      bool_decide (childKind ∈ [ConstructSignature; MethodSignature; PropertySignature;
                                CallSignature; IndexSignature])
  | Enum => bool_decide (childKind = EnumMember)
  | _ => false
  end.

(** [ApiParameterListMixin] is a base class of exactly these kinds. *)
Definition has_parameter_list (k : ApiItemKind) : bool :=
  bool_decide (k ∈ [Constructor; ConstructSignature; Function; Method; MethodSignature;
                    CallSignature; IndexSignature]).

Fixpoint wf_item (i : ApiItem) : bool :=
  match i with
  | mkApiItem d members =>
      bool_decide (is_Some (Api.overloadIndex d) ↔ has_parameter_list (Api.kind d) = true)
      && (fix go (l : list ApiItem) : bool :=
            match l with
            | [] => true
            | x :: l => member_kind_ok (Api.kind d) (Api.kind x) && wf_item x && go l
            end) members
  end.

(** A well-formed model: a well-formed tree under a [Model] root. *)
Definition wf_model (root : ApiItem) : bool :=
  bool_decide (Api.kind root = Model) && wf_item root.

(** * Theorems *)

(** ** The shape of the tree *)

Lemma item_height_unfold d ms :
  item_height (mkApiItem d ms) = S (foldr (λ x n, item_height x `max` n) 0 ms).
Proof. done. Qed.

Lemma item_height_member (i m : ApiItem) : m ∈ members i → item_height m < item_height i.
Proof.
  destruct i as [d ms]. rewrite item_height_unfold. simpl. intros Hm.
  induction ms as [|x ms IH]; simpl.
  - by apply elem_of_nil in Hm.
  - apply elem_of_cons in Hm as [->|Hm]; [lia|]. specialize (IH Hm). lia.
Qed.

Lemma item_height_pos (i : ApiItem) : 0 < item_height i.
Proof. destruct i. rewrite item_height_unfold. lia. Qed.

Lemma wf_item_unfold d ms :
  wf_item (mkApiItem d ms) =
  bool_decide (is_Some (Api.overloadIndex d) ↔ has_parameter_list (Api.kind d) = true)
  && forallb (λ x : ApiItem, member_kind_ok (Api.kind d) (Api.kind x) && wf_item x) ms.
Proof. done. Qed.

(** A member of a well-formed item has a kind its container holds, and is
    well-formed. *)
Lemma wf_item_member (i m : ApiItem) :
  wf_item i = true → m ∈ members i →
  member_kind_ok (Api.kind i) (Api.kind m) = true ∧ wf_item m = true.
Proof.
  destruct i as [d ms]. rewrite wf_item_unfold. simpl.
  intros [_ Hms]%andb_true_iff Hm. rewrite forallb_forall in Hms.
  apply andb_true_iff, Hms. by apply list_elem_of_In.
Qed.

(** Packages are found under the model and nowhere else; the model is no
    member of anything. *)
Lemma member_kind_ok_Package (k : ApiItemKind) :
  member_kind_ok k Package = true → k = Model.
Proof. by destruct k. Qed.

Lemma member_kind_ok_Model (k : ApiItemKind) : member_kind_ok k Model = false.
Proof. by destruct k. Qed.

Lemma member_kind_ok_EnumMember_parent (k : ApiItemKind) :
  member_kind_ok EnumMember k = false.
Proof. done. Qed.

(** ** References *)

Lemma getHierarchy_memberRef (r : ApiItemRef) (m : ApiItem) :
  getHierarchy (memberRef r m) = getHierarchy r ++ [m].
Proof. done. Qed.

Lemma parent_memberRef (r : ApiItemRef) (m : ApiItem) : parent (memberRef r m) = Some r.
Proof.
  unfold parent, memberRef, getHierarchy. simpl. rewrite last_snoc, removelast_last.
  by destruct r.
Qed.

Lemma getHierarchy_inj (r1 r2 : ApiItemRef) : getHierarchy r1 = getHierarchy r2 → r1 = r2.
Proof.
  destruct r1 as [a1 s1], r2 as [a2 s2]. unfold getHierarchy. simpl.
  intros [-> [= ->]]%app_inj_2; done.
Qed.
