(* ===== verification/Utilities.v ===== *)
(** * Naming helpers: the interface the documenter relies on

    [HugoDocumenter] calls three helpers that are not under [src/]:
    [Utilities.getSafeFilenameForName] and [Utilities.getConciseSignature] of
    the repository's [utils/], and [PackageName.getUnscopedName] of
    node-core-library.  The class [Naming] is what the documenter may assume
    of them: the three operations and one law, that a safe file name never
    contains the path separator.  The resolver and the page writer are
    verified against this interface; [spec_naming] is the implementation the
    specification describes (section 4.2), and it discharges the law. *)

From S2P Require Import Prelude DocNodes ApiModel.

Class Naming : Type := {
  getSafeFilenameForName : string → string;
  getUnscopedName : string → string;
  getConciseSignature : ApiItem → string;
  getSafeFilenameForName_slash_free : ∀ s, slash_free (getSafeFilenameForName s);
}.

(** ** The implementation of the specification *)

(** The characters a file name keeps: letters, digits, [_], [-] and [.]. *)
Definition is_safe_char (c : ascii) : bool :=
  let n := N_of_ascii c in
  ((48 <=? n) && (n <=? 57) || (65 <=? n) && (n <=? 90) || (97 <=? n) && (n <=? 122)
   || (n =? 95) || (n =? 45) || (n =? 46))%N.

Definition safe_char (c : ascii) : ascii :=
  if is_safe_char c then c else "_"%char.

(** Every other character is replaced by an underscore. *)
Definition spec_getSafeFilenameForName (s : string) : string :=
  String.string_of_list_ascii (safe_char <$> chars s).

(** What follows the first slash. *)
Fixpoint after_slash (s : string) : option string :=
  match s with
  | EmptyString => None
  | String c s => if decide (c = slash) then Some s else after_slash s
  end.

(** The name without its scope: [@scope/name] is [name]. *)
Definition spec_getUnscopedName (s : string) : string :=
  match s with
  | String "@" _ => default s (after_slash s)
  | _ => s
  end.

(** [name(p1, p2)] for an item with a parameter list, the name otherwise. *)
Definition spec_getConciseSignature (apiItem : ApiItem) : string :=
  match Api.overloadIndex apiItem with
  | Some _ =>
      Api.displayName apiItem +:+ "(" +:+
        foldr (λ p s, if decide (s = "") then p else p +:+ ", " +:+ s) ""
          (parameterName <$> Api.parameters apiItem) +:+ ")"
  | None => Api.displayName apiItem
  end.

Lemma safe_char_not_slash (c : ascii) : safe_char c ≠ slash.
Proof. destruct c as [[] [] [] [] [] [] [] []]; by vm_compute. Qed.

Lemma chars_spec_getSafeFilenameForName (s : string) :
  chars (spec_getSafeFilenameForName s) = safe_char <$> chars s.
Proof. apply chars_of_list. Qed.

Lemma spec_getSafeFilenameForName_slash_free (s : string) :
  slash_free (spec_getSafeFilenameForName s).
Proof.
  unfold slash_free. rewrite chars_spec_getSafeFilenameForName.
  intros (c & Hc & _)%list_elem_of_fmap. by eapply safe_char_not_slash.
Qed.

#[export] Instance spec_naming : Naming := {|
  getSafeFilenameForName := spec_getSafeFilenameForName;
  getUnscopedName := spec_getUnscopedName;
  getConciseSignature := spec_getConciseSignature;
  getSafeFilenameForName_slash_free := spec_getSafeFilenameForName_slash_free;
|}.

(** ** Facts *)

Lemma spec_getSafeFilenameForName_length (s : string) :
  String.length (spec_getSafeFilenameForName s) = String.length s.
Proof.
  by rewrite !string_length_chars, chars_spec_getSafeFilenameForName, length_fmap.
Qed.

(** A name made of safe characters is its own file name. *)
Lemma spec_getSafeFilenameForName_id (s : string) :
  forallb is_safe_char (chars s) = true → spec_getSafeFilenameForName s = s.
Proof.
  intros Hs. apply (inj chars). rewrite chars_spec_getSafeFilenameForName.
  induction (chars s) as [|c l IH]; csimpl in *; [done|].
  apply andb_true_iff in Hs as [Hc Hl]. unfold safe_char at 1. rewrite Hc. f_equal. auto.
Qed.

(** The escape is idempotent. *)
Lemma spec_getSafeFilenameForName_idemp (s : string) :
  spec_getSafeFilenameForName (spec_getSafeFilenameForName s) =
  spec_getSafeFilenameForName s.
Proof.
  apply spec_getSafeFilenameForName_id. rewrite chars_spec_getSafeFilenameForName.
  induction (chars s) as [|c l IH]; csimpl; [done|]. rewrite IH, andb_true_r.
  unfold safe_char. destruct (is_safe_char c) eqn:E; [done|]. by vm_compute.
Qed.

Example spec_getUnscopedName_scoped : spec_getUnscopedName "@scope/widgets" = "widgets".
Proof. reflexivity. Qed.

Example spec_getUnscopedName_plain : spec_getUnscopedName "widgets" = "widgets".
Proof. reflexivity. Qed.

Example spec_getSafeFilenameForName_constructor :
  spec_getSafeFilenameForName "(constructor)" = "_constructor_".
Proof. reflexivity. Qed.
