(* ===== verification/Resolver.v ===== *)
(** * The file name and link resolver

    [_getFilenameForApiItem] and [_getLinkFilenameForApiItem] of
    [HugoDocumenter] ([src/src/yaml/ISDPYamlFile.ts], lines 1394-1443).  The
    loop of the source over [apiItem.getHierarchy()] is the left fold of
    [filename_step] over the hierarchy; the accumulator is [baseName].  The
    test [hierarchyItem === apiItem] of the loop holds at the last element of
    the hierarchy and nowhere else, so each element is paired with this
    flag ([marked_hierarchy]).

    The theorems are proved for every implementation of [Naming]. *)

From S2P Require Import Prelude DocNodes ApiModel Utilities.

Section resolver.
Context `{Naming}.

(** The hard-coded [_baseUrl] (line 217). *)
Definition _baseUrl : string := "/docs".

(** The name an item contributes (lines 1402-1412): the safe display name,
    with the suffix of an overload and the prefix of a variable. *)
Definition qualifiedName (hierarchyItem : ApiItem) : string :=
  let qualifiedName := getSafeFilenameForName (Api.displayName hierarchyItem) in
  let qualifiedName :=
    match Api.overloadIndex hierarchyItem with
    | Some overloadIndex =>
        if decide (1 < overloadIndex)
        then qualifiedName +:+ "_" +:+ pretty (overloadIndex - 1)
        else qualifiedName
    | None => qualifiedName
    end in
  if decide (Api.kind hierarchyItem = Variable_)
  then "var_" +:+ qualifiedName
  else qualifiedName.

(** The hierarchy, each element with the answer to
    [hierarchyItem === apiItem]. *)
Definition marked_hierarchy (apiItem : ApiItemRef) : list (ApiItem * bool) :=
  ((λ a, (a, false)) <$> ancestors apiItem) ++ [(self apiItem, true)].

(** One turn of the loop (lines 1400-1437). *)
Definition filename_step (baseName : string) (x : ApiItem * bool) : string :=
  let '(hierarchyItem, isApiItem) := x in
  match Api.kind hierarchyItem with
  | Model | EnumMember => baseName
  | EntryPoint =>
      let entrypointName := Api.name hierarchyItem in
      if decide (0 < String.length entrypointName)
      then baseName </> getSafeFilenameForName (getUnscopedName entrypointName)
      else baseName +:+ "/_root"
  | Package =>
      let baseName :=
        getSafeFilenameForName (getUnscopedName (Api.displayName hierarchyItem)) in
      if isApiItem then baseName +:+ "/_root" else baseName
  | _ => baseName </> qualifiedName hierarchyItem
  end.

(** [baseName] when the loop ends. *)
Definition baseName_of (apiItem : ApiItemRef) : string :=
  foldl filename_step "" (marked_hierarchy apiItem).

Definition _getFilenameForApiItem (apiItem : ApiItemRef) : string :=
  if decide (Api.kind apiItem = Model) then "_index.md"
  else baseName_of apiItem +:+ "/_index.md".

Definition _getLinkFilenameForApiItem (apiItem : ApiItemRef) : string :=
  _baseUrl </> _getFilenameForApiItem apiItem.

(** ** Path segments: the specification of the file name *)

(** The segment of an ordinary item: the prefix of a variable, the safe
    display name, and the number of an overload from the second on, counted
    from one. *)
Definition segment_name (m : ApiItem) : string :=
  (if decide (Api.kind m = Variable_) then "var_" else "")
  +:+ getSafeFilenameForName (Api.displayName m)
  +:+ match Api.overloadIndex m with
      | Some n => if decide (2 ≤ n) then "_" +:+ pretty (n - 1) else ""
      | None => ""
      end.

(** The directory names of a file name, one per hierarchy element that
    contributes.  The file name of the specification is these segments
    joined by the separator, with [_index.md] as the file. *)
Definition segments_step (segs : list string) (x : ApiItem * bool) : list string :=
  let '(hierarchyItem, isApiItem) := x in
  match Api.kind hierarchyItem with
  | Model | EnumMember => segs
  | EntryPoint =>
      if decide (0 < String.length (Api.name hierarchyItem))
      then segs ++ [getSafeFilenameForName (getUnscopedName (Api.name hierarchyItem))]
      else segs ++ ["_root"]
  | Package =>
      let segs :=
        [getSafeFilenameForName (getUnscopedName (Api.displayName hierarchyItem))] in
      if isApiItem then segs ++ ["_root"] else segs
  | _ => segs ++ [segment_name hierarchyItem]
  end.

Definition segments (apiItem : ApiItemRef) : list string :=
  foldl segments_step [""] (marked_hierarchy apiItem).

(** The file of a list of segments: each segment followed by the
    separator, then the index file. *)
Definition joined (segs : list string) : string :=
  foldr (λ s file, s +:+ "/" +:+ file) "_index.md" segs.

(** The kinds that get a directory of their own under their container,
    named after them. *)
Definition ordinary (k : ApiItemKind) : bool :=
  match k with
  | Model | EnumMember | EntryPoint | Package => false
  | _ => true
  end.

(** The directory the files of the members of [apiItem] go to: the base
    name after the hierarchy of [apiItem], when [apiItem] is not the item
    resolved. *)
Definition memberDir (apiItem : ApiItemRef) : string :=
  foldl filename_step "" ((λ a, (a, false)) <$> getHierarchy apiItem).

(** The segment a member adds to the directory of its container; none for
    an enum member, which lives on the page of its enum. *)
Definition member_segment (m : ApiItem) : option string :=
  match Api.kind m with
  | Model | EnumMember => None
  | EntryPoint =>
      Some (if decide (0 < String.length (Api.name m))
            then getSafeFilenameForName (getUnscopedName (Api.name m))
            else "_root")
  | Package => Some (getSafeFilenameForName (getUnscopedName (Api.displayName m)))
  | _ => Some (segment_name m)
  end.

(** No two members of a container get the same segment, and no named entry
    point takes the segment [_root] of the default one: the condition under
    which file names are unique. *)
Fixpoint unique_segments (i : ApiItem) : bool :=
  match i with
  | mkApiItem d ms =>
      bool_decide (NoDup (omap member_segment ms))
      && forallb (λ m : ApiItem, bool_decide
           (Api.kind m = EntryPoint → 0 < String.length (Api.name m) →
            member_segment m ≠ Some "_root")) ms
      && (fix go (l : list ApiItem) : bool :=
            match l with
            | [] => true
            | x :: l => unique_segments x && go l
            end) ms
  end.

(** [c] descends from [i]: each element is a member of the one before. *)
Fixpoint is_chain (i : ApiItem) (c : list ApiItem) : Prop :=
  match c with
  | [] => True
  | m :: c => m ∈ members i ∧ is_chain m c
  end.

(** The references of the tree under [root]. *)
Definition in_tree (root : ApiItem) (r : ApiItemRef) : Prop :=
  ∃ c, getHierarchy r = root :: c ∧ is_chain root c.

(** The items that have a file of their own: not an enum member, and not
    the default entry point, whose page is the page of its package. *)
Definition addressable (i : ApiItem) : bool :=
  negb (bool_decide (Api.kind i = EnumMember))
  && negb (bool_decide (Api.kind i = EntryPoint ∧ Api.name i = "")).

End resolver.

Arguments filename_step : simpl never.
Arguments segments_step : simpl never.
Arguments member_segment : simpl never.

(** * Theorems *)

Section resolver_facts.
Context `{Naming}.
Implicit Types (r : ApiItemRef) (i m : ApiItem) (base : string) (segs : list string).

(** ** Slash-free segments *)

Lemma slash_free_literal (s : string) : bool_decide (slash_free s) = true → slash_free s.
Proof. apply bool_decide_eq_true_1. Qed.

Lemma pretty_N_char_not_slash (x : N) : pretty_N_char x ≠ slash.
Proof. unfold pretty_N_char. by repeat case_match. Qed.

Lemma pretty_N_go_slash_free (x : N) (s : string) :
  slash_free s → slash_free (pretty_N_go x s).
Proof.
  revert s. induction (N.lt_wf_0 x) as [x _ IH]; intros s Hs.
  destruct (decide (0 < x)%N) as [Hx|Hx].
  - rewrite pretty_N_go_step by done. apply IH.
    + apply N.div_lt; lia.
    + unfold slash_free in *. change (chars (String ?c s)) with (c :: chars s).
      apply not_elem_of_cons. split; [|done].
      apply not_eq_sym, pretty_N_char_not_slash.
  - assert (x = 0%N) as -> by lia. by rewrite pretty_N_go_0.
Qed.

Lemma pretty_nat_slash_free (n : nat) : slash_free (pretty n).
Proof.
  unfold pretty, pretty_nat, pretty, pretty_N.
  destruct (decide (N.of_nat n = 0%N)); [by apply slash_free_literal|].
  by apply pretty_N_go_slash_free, slash_free_literal.
Qed.

(** The name the loop builds by appending is the segment name. *)
Lemma qualifiedName_segment_name i : qualifiedName i = segment_name i.
Proof.
  unfold qualifiedName, segment_name.
  destruct (Api.overloadIndex i) as [n|]; repeat case_decide; try lia;
    autorewrite with docgen_rw; done.
Qed.

Lemma qualifiedName_slash_free i : slash_free (qualifiedName i).
Proof.
  unfold qualifiedName.
  assert (slash_free (match Api.overloadIndex i with
    | Some overloadIndex =>
        if decide (1 < overloadIndex)
        then getSafeFilenameForName (Api.displayName i) +:+ "_" +:+ pretty (overloadIndex - 1)
        else getSafeFilenameForName (Api.displayName i)
    | None => getSafeFilenameForName (Api.displayName i)
    end)) as Hq.
  { destruct (Api.overloadIndex i) as [n|]; [case_decide|];
      rewrite ?slash_free_app; split_and?;
      auto using getSafeFilenameForName_slash_free, pretty_nat_slash_free, slash_free_literal. }
  case_decide; [|done]. apply slash_free_app. split; [by apply slash_free_literal|done].
Qed.

(** ** The file name is its segments, joined *)

Lemma slashed_snoc segs (s : string) :
  slashed (segs ++ [s]) = slashed segs ++ chars s ++ [slash].
Proof. rewrite slashed_app. unfold slashed at 2. simpl. by rewrite app_nil_r. Qed.

Lemma slashed_singleton (s : string) : slashed [s] = chars s ++ [slash].
Proof. unfold slashed. simpl. by rewrite app_nil_r. Qed.

Lemma chars_path base (s : string) :
  chars (base </> s) ++ [slash] = (chars base ++ [slash]) ++ chars s ++ [slash].
Proof. rewrite !chars_app. change (chars "/") with [slash]. by rewrite <- !app_assoc. Qed.

Lemma chars_root base :
  chars (base +:+ "/_root") ++ [slash] = (chars base ++ [slash]) ++ chars "_root" ++ [slash].
Proof.
  rewrite chars_app. change (chars "/_root") with ([slash] ++ chars "_root").
  by rewrite <- !app_assoc.
Qed.

Lemma filename_step_segments base segs x :
  chars base ++ [slash] = slashed segs →
  chars (filename_step base x) ++ [slash] = slashed (segments_step segs x).
Proof.
  intros Hbase. destruct x as [i isApiItem]. unfold filename_step, segments_step.
  rewrite qualifiedName_segment_name.
  destruct (Api.kind i); try done;
    try (by rewrite chars_path, slashed_snoc, Hbase).
  - case_decide; rewrite slashed_snoc, <- Hbase.
    + by rewrite chars_path.
    + by rewrite chars_root.
  - destruct isApiItem.
    + rewrite chars_root, slashed_snoc. by rewrite slashed_singleton.
    + by rewrite slashed_singleton.
Qed.

Lemma segments_step_slash_free segs x :
  Forall slash_free segs → Forall slash_free (segments_step segs x).
Proof.
  intros Hsegs. destruct x as [i isApiItem]. unfold segments_step.
  assert (slash_free "_root") by by apply slash_free_literal.
  destruct (Api.kind i); repeat case_decide; try destruct isApiItem;
    rewrite ?Forall_app, ?Forall_singleton; split_and?;
    rewrite <- ?qualifiedName_segment_name;
    auto using getSafeFilenameForName_slash_free, qualifiedName_slash_free.
Qed.

Lemma segments_step_nonempty segs x : segs ≠ [] → segments_step segs x ≠ [].
Proof.
  intros Hsegs. destruct x as [i isApiItem]. unfold segments_step.
  destruct (Api.kind i); repeat case_decide; try destruct isApiItem; try done;
    by intros ?%app_nil_r_inv.
Qed.

Lemma foldl_filename_segments base segs (h : list (ApiItem * bool)) :
  chars base ++ [slash] = slashed segs →
  chars (foldl filename_step base h) ++ [slash] = slashed (foldl segments_step segs h).
Proof.
  revert base segs. induction h as [|x h IH]; intros base segs Hbase; simpl; [done|].
  by apply IH, filename_step_segments.
Qed.

Lemma baseName_segments r : chars (baseName_of r) ++ [slash] = slashed (segments r).
Proof. by apply foldl_filename_segments. Qed.

Lemma segments_slash_free r : Forall slash_free (segments r).
Proof.
  unfold segments. generalize (marked_hierarchy r).
  assert (Forall slash_free [""]) as Hinit.
  { apply Forall_singleton. by apply slash_free_literal. }
  revert Hinit. generalize [""]. intros segs Hsegs h. revert segs Hsegs.
  induction h as [|x h IH]; intros segs Hsegs; simpl; [done|].
  by apply IH, segments_step_slash_free.
Qed.

Lemma segments_nonempty r : segments r ≠ [].
Proof.
  unfold segments. generalize (marked_hierarchy r).
  assert ([""] ≠ @nil string) as Hinit by done.
  revert Hinit. generalize [""]. intros segs Hsegs h. revert segs Hsegs.
  induction h as [|x h IH]; intros segs Hsegs; simpl; [done|].
  by apply IH, segments_step_nonempty.
Qed.

(** The file name of an item other than the model: its segments, each
    followed by the separator, then [_index.md]. *)
Lemma filename_segments r :
  Api.kind r ≠ Model →
  chars (_getFilenameForApiItem r) = slashed (segments r) ++ chars "_index.md".
Proof.
  intros Hk. unfold _getFilenameForApiItem. rewrite decide_False by done.
  rewrite chars_app, <- baseName_segments. change (chars "/_index.md") with
    ([slash] ++ chars "_index.md"). by rewrite app_assoc.
Qed.

(** ** Segments along a chain of the tree *)

Lemma unique_segments_unfold d ms :
  unique_segments (mkApiItem d ms) =
  bool_decide (NoDup (omap member_segment ms))
  && forallb (λ m : ApiItem, bool_decide
       (Api.kind m = EntryPoint → 0 < String.length (Api.name m) →
        member_segment m ≠ Some "_root")) ms
  && forallb unique_segments ms.
Proof. done. Qed.

Lemma unique_segments_NoDup i :
  unique_segments i = true → NoDup (omap member_segment (members i)).
Proof.
  destruct i as [d ms]. rewrite unique_segments_unfold, !andb_true_iff.
  intros [[Hnd _] _]. by apply bool_decide_eq_true_1 in Hnd.
Qed.

Lemma unique_segments_member i m :
  unique_segments i = true → m ∈ members i →
  unique_segments m = true ∧
  (Api.kind m = EntryPoint → 0 < String.length (Api.name m) →
   member_segment m ≠ Some "_root").
Proof.
  destruct i as [d ms]. rewrite unique_segments_unfold, !andb_true_iff, !forallb_forall.
  intros [[_ Hep] Hms] Hm%list_elem_of_In. split; [by apply Hms|].
  by apply (bool_decide_eq_true_1 _ (Hep m Hm)).
Qed.

(** Away from packages a step appends the segment of the item, marked or not. *)
Lemma segments_step_member segs i (b : bool) :
  Api.kind i ≠ Package →
  segments_step segs (i, b) = segs ++ option_list (member_segment i).
Proof.
  intros Hk. unfold segments_step, member_segment.
  destruct (Api.kind i); try done; try case_decide; simpl; by rewrite ?app_nil_r.
Qed.

Lemma omap_snoc {A B} (f : A → option B) (l : list A) (x : A) :
  omap f (l ++ [x]) = omap f l ++ option_list (f x).
Proof. rewrite omap_app. simpl. by destruct (f x). Qed.

Lemma foldl_segments_step_members segs (l : list ApiItem) :
  Forall (λ i, Api.kind i ≠ Package) l →
  foldl segments_step segs ((λ a, (a, false)) <$> l) = segs ++ omap member_segment l.
Proof.
  induction l as [|x l IH] using rev_ind; intros Hl; csimpl; [by rewrite app_nil_r|].
  apply Forall_app in Hl as [Hl Hx%Forall_inv].
  rewrite fmap_app, foldl_app, omap_snoc, IH by done. cbn [fmap list_fmap foldl].
  by rewrite segments_step_member, app_assoc by done.
Qed.

(** The segments of a reference below a package of the model: the segment
    of the package, then one per item down to the reference; a package
    itself gets [_root] for its second segment. *)
Definition chain_segments (c : list ApiItem) : list string :=
  match c with
  | [p] => omap member_segment [p] ++ ["_root"]
  | _ => omap member_segment c
  end.

Lemma segments_step_Model segs i (b : bool) :
  Api.kind i = Model → segments_step segs (i, b) = segs.
Proof. unfold segments_step. by intros ->. Qed.

Lemma segments_step_Package segs i (b : bool) :
  Api.kind i = Package →
  segments_step segs (i, b) =
  omap member_segment [i] ++ (if b then ["_root"] else []).
Proof. unfold segments_step, member_segment. simpl. intros ->. by destruct b. Qed.

Lemma segments_package r root pkg :
  getHierarchy r = [root; pkg] → Api.kind root = Model → Api.kind pkg = Package →
  segments r = chain_segments [pkg].
Proof.
  destruct r as [anc s]. unfold getHierarchy, segments, marked_hierarchy.
  cbn [ancestors self].
  intros [-> ->]%(app_inj_tail anc [root]) Hroot Hpkg. cbn [fmap list_fmap app foldl].
  by rewrite (segments_step_Model _ root), segments_step_Package by done.
Qed.

Lemma segments_below_package r root pkg m c :
  getHierarchy r = root :: pkg :: m :: c →
  Api.kind root = Model → Api.kind pkg = Package →
  Forall (λ i, Api.kind i ≠ Package) (m :: c) →
  segments r = chain_segments (pkg :: m :: c).
Proof.
  destruct r as [anc s]. unfold getHierarchy, segments, marked_hierarchy.
  cbn [ancestors self chain_segments]. intros Hh Hroot Hpkg Hc.
  destruct (exists_last (l:=m :: c)) as (c' & z & Hz); [done|]. rewrite Hz in Hh, Hc |- *.
  apply (app_inj_tail anc (root :: pkg :: c')) in Hh as [-> ->].
  apply Forall_app in Hc as [Hc' Hs%Forall_inv].
  rewrite foldl_app, !fmap_cons. cbn [foldl].
  rewrite (segments_step_Model _ root), (segments_step_Package _ pkg) by done.
  rewrite foldl_segments_step_members, segments_step_member by done.
  change (pkg :: c' ++ [z]) with ([pkg] ++ c' ++ [z]).
  by rewrite omap_app, omap_snoc, !app_nil_r, <- app_assoc.
Qed.

(** ** Chains of a well-formed tree *)

Lemma member_segment_is_Some m :
  is_Some (member_segment m) ↔ Api.kind m ≠ Model ∧ Api.kind m ≠ EnumMember.
Proof.
  unfold member_segment. destruct (Api.kind m); split; try done;
    try (by intros [? ?]); by intros [[] ?]%is_Some_alt || intros [? []].
Qed.

Lemma wf_chain_kinds i (c : list ApiItem) :
  wf_item i = true → Api.kind i ≠ Model → is_chain i c →
  Forall (λ m, Api.kind m ≠ Package) c.
Proof.
  revert i; induction c as [|m c IH]; intros i Hwf Hk Hc; [done|].
  destruct Hc as [Hm Hc]. destruct (wf_item_member i m Hwf Hm) as [Hok Hwfm].
  constructor.
  - intros Hp. rewrite Hp in Hok. by apply member_kind_ok_Package in Hok.
  - apply (IH m); [done| |done]. intros Hmod.
    by rewrite Hmod, member_kind_ok_Model in Hok.
Qed.

(** Every item of a chain has a segment, when the last one is no enum
    member: an enum member has no members. *)
Lemma wf_chain_segments i (c : list ApiItem) :
  wf_item i = true → is_chain i c →
  (∀ m, last c = Some m → Api.kind m ≠ EnumMember) →
  Forall (λ m, is_Some (member_segment m)) c.
Proof.
  revert i; induction c as [|m c IH]; intros i Hwf Hc Hlast; [done|].
  destruct Hc as [Hm Hc]. destruct (wf_item_member i m Hwf Hm) as [Hok Hwfm].
  constructor.
  - apply member_segment_is_Some. split.
    + intros Hmod. by rewrite Hmod, member_kind_ok_Model in Hok.
    + destruct c as [|m' c]; [by apply Hlast|]. destruct Hc as [Hm' _].
      destruct (wf_item_member m m' Hwfm Hm') as [Hok' _].
      intros He. by rewrite He in Hok'.
  - apply (IH m); [done..|]. intros m' Hl. apply Hlast. by destruct c.
Qed.

Lemma wf_chain_last_not_Model i (c : list ApiItem) m :
  wf_item i = true → is_chain i c → last c = Some m → Api.kind m ≠ Model.
Proof.
  revert i; induction c as [|x c IH]; intros i Hwf Hc Hlast; [done|].
  destruct Hc as [Hx Hc]. destruct (wf_item_member i x Hwf Hx) as [Hok Hwfx].
  destruct c as [|y c].
  - injection Hlast as <-. intros Hmod. by rewrite Hmod, member_kind_ok_Model in Hok.
  - by apply (IH x).
Qed.

Lemma NoDup_omap_inj {A B} (f : A → option B) (l : list A) (x y : A) (b : B) :
  NoDup (omap f l) → x ∈ l → y ∈ l → f x = Some b → f y = Some b → x = y.
Proof.
  induction l as [|a l IH]; intros Hnd Hx Hy Hfx Hfy; [by apply elem_of_nil in Hx|].
  assert (∀ z, z ∈ l → f z = Some b → f a = Some b → False) as Hhead.
  { intros z Hz Hfz Hfa. csimpl in Hnd. rewrite Hfa in Hnd.
    apply NoDup_cons in Hnd as [Hb _]. apply Hb, list_elem_of_omap. eauto. }
  apply elem_of_cons in Hx as [Hx|Hx]; apply elem_of_cons in Hy as [Hy|Hy]; subst;
    [done|exfalso; eauto..|].
  apply IH; try done. csimpl in Hnd. destruct (f a); [by apply NoDup_cons in Hnd as [_ ?]|done].
Qed.

(** Two chains from one item with the same segments are the same chain. *)
Lemma omap_member_segment_inj i (c1 c2 : list ApiItem) :
  unique_segments i = true → is_chain i c1 → is_chain i c2 →
  Forall (λ m, is_Some (member_segment m)) c1 →
  Forall (λ m, is_Some (member_segment m)) c2 →
  omap member_segment c1 = omap member_segment c2 → c1 = c2.
Proof.
  revert i c2; induction c1 as [|m1 c1 IH]; intros i [|m2 c2] Hu H1 H2 Hs1 Hs2 Heq;
    [done| | |].
  - apply Forall_inv in Hs2 as [s Hs]. csimpl in Heq. by rewrite Hs in Heq.
  - apply Forall_inv in Hs1 as [s Hs]. csimpl in Heq. by rewrite Hs in Heq.
  - destruct H1 as [Hm1 Hc1], H2 as [Hm2 Hc2].
    apply Forall_cons in Hs1 as [[s1 Hs1] Hs1'], Hs2 as [[s2 Hs2] Hs2'].
    csimpl in Heq. rewrite Hs1, Hs2 in Heq. injection Heq as -> Heq.
    assert (m1 = m2) as -> by eauto using NoDup_omap_inj, unique_segments_NoDup.
    f_equal. apply (IH m2); try done. by apply (unique_segments_member i m2).
Qed.

(** ** References of the tree of a model *)

Lemma addressable_spec i :
  addressable i = true ↔
  Api.kind i ≠ EnumMember ∧ ¬ (Api.kind i = EntryPoint ∧ Api.name i = "").
Proof.
  unfold addressable. by rewrite andb_true_iff, !negb_true_iff, !bool_decide_eq_false.
Qed.

Lemma wf_model_inv (root : ApiItem) :
  wf_model root = true → Api.kind root = Model ∧ wf_item root = true.
Proof. unfold wf_model. by intros [?%bool_decide_eq_true_1 ?]%andb_true_iff. Qed.

Lemma hierarchy_last r : last (getHierarchy r) = Some (self r).
Proof. apply last_snoc. Qed.

(** Below the model come a package, then an entry point, then no package. *)
Lemma model_chain_shape (root pkg : ApiItem) (c : list ApiItem) :
  wf_model root = true → is_chain root (pkg :: c) →
  Api.kind pkg = Package ∧ Forall (λ i, Api.kind i ≠ Package) c ∧
  (∀ e c', c = e :: c' → Api.kind e = EntryPoint).
Proof.
  intros [Hroot Hwf]%wf_model_inv [Hp Hc].
  destruct (wf_item_member root pkg Hwf Hp) as [Hok Hwfp].
  rewrite Hroot in Hok. apply bool_decide_eq_true_1 in Hok. split_and!; [done| |].
  - apply (wf_chain_kinds pkg); [done|by rewrite Hok|done].
  - intros e c' ->. destruct Hc as [He _].
    destruct (wf_item_member pkg e Hwfp He) as [Hoke _].
    rewrite Hok in Hoke. by apply bool_decide_eq_true_1 in Hoke.
Qed.

(** What the resolver computes for a reference of the tree that has a file. *)
Lemma tree_ref_segments (root : ApiItem) r (c : list ApiItem) :
  wf_model root = true → unique_segments root = true →
  getHierarchy r = root :: c → is_chain root c → c ≠ [] → addressable r = true →
  segments r = chain_segments c ∧
  Forall (λ m, is_Some (member_segment m)) c ∧
  (∀ p e, c = [p; e] → member_segment e ≠ Some "_root").
Proof.
  intros Hwf Hu Hh Hc Hne [Henum Hdef]%addressable_spec.
  destruct c as [|pkg c]; [done|].
  destruct (model_chain_shape root pkg c Hwf Hc) as (Hpkg & Hkinds & Hep).
  pose proof (hierarchy_last r) as Hlast. rewrite Hh in Hlast. cbn [last] in Hlast.
  destruct (wf_model_inv root Hwf) as [Hroot Hwfr]. split_and!.
  - destruct c as [|m c]; [by apply (segments_package r root)|].
    by apply (segments_below_package r root).
  - apply (wf_chain_segments root); [done..|]. intros m Hm.
    rewrite Hlast in Hm. by injection Hm as <-.
  - intros p e [= -> ->]. injection Hlast as Hlast. destruct Hc as (Hp & He & _).
    destruct (unique_segments_member root p Hu Hp) as [Hup _].
    destruct (unique_segments_member p e Hup He) as [_ Hroot'].
    apply Hroot'; [by eapply Hep|]. rewrite Hlast.
    destruct (Api.name r) eqn:Hn; simpl; [|lia]. destruct Hdef. split; [|done].
    rewrite <- Hlast. by eapply Hep.
Qed.

(** A package and an item two levels down have the same segments only when
    the latter is an entry point with the segment [_root]. *)
Lemma chain_root_clash (p1 p2 e : ApiItem) (c : list ApiItem) :
  Forall (λ m, is_Some (member_segment m)) (p2 :: e :: c) →
  omap member_segment [p1] ++ ["_root"] = omap member_segment (p2 :: e :: c) →
  c = [] ∧ member_segment e = Some "_root".
Proof.
  intros Hs Heq. apply Forall_cons in Hs as [[sp Hsp] Hs].
  apply Forall_cons in Hs as [[se Hse] Hc]. csimpl in Heq. rewrite Hsp, Hse in Heq.
  destruct (member_segment p1); [|done]. injection Heq as _ <- Hnil.
  destruct c as [|x c]; [done|]. apply Forall_inv in Hc as [sx Hsx].
  csimpl in Hnil. by rewrite Hsx in Hnil.
Qed.

Lemma chain_segments_inj (root : ApiItem) (c1 c2 : list ApiItem) :
  unique_segments root = true → is_chain root c1 → is_chain root c2 →
  c1 ≠ [] → c2 ≠ [] →
  Forall (λ m, is_Some (member_segment m)) c1 →
  Forall (λ m, is_Some (member_segment m)) c2 →
  (∀ p e, c1 = [p; e] → member_segment e ≠ Some "_root") →
  (∀ p e, c2 = [p; e] → member_segment e ≠ Some "_root") →
  chain_segments c1 = chain_segments c2 → c1 = c2.
Proof.
  intros Hu H1 H2 Hn1 Hn2 Hs1 Hs2 Hr1 Hr2 Heq.
  apply (omap_member_segment_inj root); try done.
  destruct c1 as [|p1 [|e1 c1]], c2 as [|p2 [|e2 c2]]; try done; cbn [chain_segments] in Heq.
  - by apply app_inv_tail in Heq.
  - exfalso. apply (Hr2 p2 e2); [|by eapply chain_root_clash]. f_equal. f_equal.
    by eapply chain_root_clash.
  - exfalso. apply (Hr1 p1 e1); [|by eapply chain_root_clash]. f_equal. f_equal.
    by eapply chain_root_clash.
Qed.

Lemma filename_inj_segments r1 r2 :
  Api.kind r1 ≠ Model → Api.kind r2 ≠ Model →
  _getFilenameForApiItem r1 = _getFilenameForApiItem r2 → segments r1 = segments r2.
Proof.
  intros H1 H2 Heq%(f_equal chars). rewrite !filename_segments in Heq by done.
  eapply slashed_inj; eauto using segments_slash_free.
  by apply (slash_free_literal "_index.md").
Qed.

Lemma filename_Model_ne r1 r2 :
  Api.kind r1 = Model → Api.kind r2 ≠ Model →
  _getFilenameForApiItem r1 ≠ _getFilenameForApiItem r2.
Proof.
  intros H1 H2 Heq%(f_equal chars). rewrite (filename_segments r2) in Heq by done.
  unfold _getFilenameForApiItem in Heq. rewrite decide_True in Heq by done.
  pose proof (segments_nonempty r2) as Hne. destruct (segments r2) as [|s segs]; [done|].
  rewrite slashed_cons in Heq. apply (f_equal length) in Heq.
  rewrite !length_app in Heq. simpl in Heq. lia.
Qed.

(** The only reference of the tree of the model kind is the root. *)
Lemma tree_Model (root : ApiItem) r :
  wf_model root = true → in_tree root r → Api.kind r = Model → r = rootRef root.
Proof.
  intros [_ Hwf]%wf_model_inv (c & Hh & Hc) Hk. apply getHierarchy_inj. rewrite Hh.
  destruct c as [|x c]; [done|]. exfalso.
  apply (wf_chain_last_not_Model root (x :: c) r Hwf Hc); [|done].
  pose proof (hierarchy_last r) as Hl. by rewrite Hh in Hl.
Qed.

Lemma tree_not_Model (root : ApiItem) r :
  wf_model root = true → in_tree root r → Api.kind r ≠ Model →
  ∃ c, getHierarchy r = root :: c ∧ is_chain root c ∧ c ≠ [].
Proof.
  intros [Hroot _]%wf_model_inv (c & Hh & Hc) Hk. exists c. split_and!; [done..|].
  intros ->. pose proof (hierarchy_last r) as Hl. rewrite Hh in Hl.
  injection Hl as Hl. by rewrite <- Hl in Hk.
Qed.

Lemma is_chain_snoc i (c : list ApiItem) (x m : ApiItem) :
  is_chain i c → last (i :: c) = Some x → m ∈ members x → is_chain i (c ++ [m]).
Proof.
  revert i; induction c as [|y c IH]; intros i Hc Hl Hm.
  - injection Hl as ->. by split.
  - destruct Hc as [Hy Hc]. split; [done|]. by apply IH.
Qed.

Lemma in_tree_rootRef (root : ApiItem) : in_tree root (rootRef root).
Proof. by exists []. Qed.

Lemma in_tree_memberRef (root : ApiItem) r m :
  in_tree root r → m ∈ members r → in_tree root (memberRef r m).
Proof.
  intros (c & Hh & Hc) Hm. exists (c ++ [m]). rewrite getHierarchy_memberRef, Hh.
  split; [done|]. apply (is_chain_snoc root c r); [done| |done].
  rewrite <- Hh. apply hierarchy_last.
Qed.

(** ** The theorems of the resolver *)

Lemma chars_joined segs : chars (joined segs) = slashed segs ++ chars "_index.md".
Proof.
  induction segs as [|s segs IH]; [done|]. cbn [joined foldr].
  rewrite slashed_cons, !chars_app, <- app_assoc. fold (joined segs). by rewrite IH.
Qed.

(** C5: the loop of the resolver computes the path of the segments: the
    file name of an item other than the model is the segments of its
    hierarchy (the safe package name, [_root] or the safe name of the entry
    point, then the segment name of each item below, none for an enum
    member), each followed by a separator, then [_index.md]. *)
Theorem filename_is_segments r :
  Api.kind r ≠ Model → _getFilenameForApiItem r = joined (segments r).
Proof. intros Hk. apply (inj chars). by rewrite chars_joined, filename_segments. Qed.

(** File names are injective on the items of a tree that have a page of
    their own. *)
Lemma filename_inj_tree (root : ApiItem) r1 r2 :
  wf_model root = true → unique_segments root = true →
  in_tree root r1 → in_tree root r2 →
  addressable r1 = true → addressable r2 = true →
  _getFilenameForApiItem r1 = _getFilenameForApiItem r2 → r1 = r2.
Proof.
  intros Hwf Hu Ht1 Ht2 Ha1 Ha2 Heq.
  destruct (decide (Api.kind r1 = Model)) as [Hk1|Hk1],
    (decide (Api.kind r2 = Model)) as [Hk2|Hk2].
  - by rewrite (tree_Model root r1), (tree_Model root r2).
  - by destruct (filename_Model_ne r1 r2).
  - by destruct (filename_Model_ne r2 r1).
  - destruct (tree_not_Model root r1) as (c1 & Hh1 & Hc1 & Hn1); [done..|].
    destruct (tree_not_Model root r2) as (c2 & Hh2 & Hc2 & Hn2); [done..|].
    destruct (tree_ref_segments root r1 c1) as (Hs1 & Hf1 & Hr1); [done..|].
    destruct (tree_ref_segments root r2 c2) as (Hs2 & Hf2 & Hr2); [done..|].
    apply filename_inj_segments in Heq; [|done..]. rewrite Hs1, Hs2 in Heq.
    apply getHierarchy_inj. rewrite Hh1, Hh2. f_equal.
    by apply (chain_segments_inj root).
Qed.

(** C1: no two items of a well-formed model that have a page of their own
    (every item but enum members and default entry points) get the same
    output file, provided no two members of one container get the same
    segment and no named entry point takes the segment [_root]. *)
Theorem unique_paths (root : ApiItem) r1 r2 :
  wf_model root = true → unique_segments root = true →
  in_tree root r1 → in_tree root r2 →
  addressable r1 = true → addressable r2 = true →
  _getFilenameForApiItem r1 = _getFilenameForApiItem r2 → r1 = r2.
Proof. apply filename_inj_tree. Qed.

(** The link to an item is the base URL, a separator and the name of the
    file written for the item, so two links are equal exactly when the
    files are. *)
Lemma link_eq_iff_filename r1 r2 :
  _getLinkFilenameForApiItem r1 = _getLinkFilenameForApiItem r2 ↔
  _getFilenameForApiItem r1 = _getFilenameForApiItem r2.
Proof.
  unfold _getLinkFilenameForApiItem. split; [|by intros ->].
  intros Heq%(f_equal chars). rewrite !chars_app in Heq.
  by do 2 apply app_inv_head in Heq; apply (inj chars) in Heq.
Qed.

Lemma baseName_of_memberRef_step r m :
  Api.kind r ≠ Package →
  baseName_of (memberRef r m) = filename_step (baseName_of r) (m, true).
Proof.
  intros Hk. unfold baseName_of, marked_hierarchy, memberRef, getHierarchy.
  cbn [ancestors self]. rewrite fmap_app, !foldl_app. cbn [fmap list_fmap foldl].
  f_equal. unfold filename_step. by destruct (Api.kind r).
Qed.

Lemma baseName_of_member r m :
  baseName_of (memberRef r m) = filename_step (memberDir r) (m, true).
Proof.
  unfold baseName_of, marked_hierarchy, memberRef, memberDir. cbn [ancestors self].
  by rewrite foldl_app.
Qed.

(** The file of an ordinary member: the directory of the members of its
    container, the segment of the member, the index file. *)
Lemma member_filename r m :
  ordinary (Api.kind m) = true →
  _getFilenameForApiItem (memberRef r m) = memberDir r </> segment_name m +:+ "/_index.md".
Proof.
  intros Hk. unfold _getFilenameForApiItem. rewrite baseName_of_member.
  cbn [memberRef self]. unfold filename_step. rewrite qualifiedName_segment_name.
  destruct (Api.kind m); try done; by rewrite decide_False.
Qed.

Lemma member_filename_inj r m1 m2 :
  ordinary (Api.kind m1) = true → ordinary (Api.kind m2) = true →
  _getFilenameForApiItem (memberRef r m1) = _getFilenameForApiItem (memberRef r m2) →
  segment_name m1 = segment_name m2.
Proof.
  intros H1 H2. rewrite !member_filename by done.
  intros Heq%string_app_inv_tail. by do 2 apply string_app_inv_head in Heq.
Qed.

(** C23: overloads get files of their own: two members of one container of
    the same kind and display name whose overload indices differ are
    resolved to different files, the first overload to the plain name and
    each later one to the name with its index less one. *)
Theorem overloads_distinct r m1 m2 (i j : nat) :
  ordinary (Api.kind m1) = true → Api.kind m1 = Api.kind m2 →
  Api.displayName m1 = Api.displayName m2 →
  Api.overloadIndex m1 = Some i → Api.overloadIndex m2 = Some j →
  1 ≤ i → 1 ≤ j → i ≠ j →
  _getFilenameForApiItem (memberRef r m1) ≠ _getFilenameForApiItem (memberRef r m2).
Proof.
  intros Hk Hkk Hn Hi Hj ? ? Hij Heq%member_filename_inj; [|congruence..].
  unfold segment_name in Heq. rewrite Hi, Hj, Hkk, Hn in Heq.
  do 2 apply string_app_inv_head in Heq.
  repeat case_decide; try done; try lia.
  apply (string_app_inv_head "_"), (inj pretty) in Heq. lia.
Qed.

(** C24: a variable never shares its file with a sibling of the same name
    that is no variable and no overload (the type alias of the same name,
    say): the prefix [var_] keeps the two apart. *)
Theorem variable_prefix_distinct r (v : ApiItem) m :
  Api.kind v = Variable_ → ordinary (Api.kind m) = true → Api.kind m ≠ Variable_ →
  Api.overloadIndex m = None → Api.displayName v = Api.displayName m →
  _getFilenameForApiItem (memberRef r v) ≠ _getFilenameForApiItem (memberRef r m).
Proof.
  intros Hv Hk Hm Ho Hn Heq%member_filename_inj; [|by rewrite ?Hv..].
  unfold segment_name in Heq. rewrite Hv, Ho, Hn, !decide_True, decide_False in Heq by done.
  apply (f_equal String.length) in Heq. rewrite !string_length_app in Heq. simpl in Heq. lia.
Qed.

(** C28: an enum member has no file of its own: its file name is the file
    name of its enum. *)
Theorem enum_member_filename r m :
  Api.kind r = Enum → Api.kind m = EnumMember →
  _getFilenameForApiItem (memberRef r m) = _getFilenameForApiItem r.
Proof.
  intros Hr Hm. unfold _getFilenameForApiItem.
  rewrite baseName_of_memberRef_step by (by rewrite Hr). cbn [memberRef self].
  rewrite !decide_False by (by rewrite ?Hr, ?Hm). unfold filename_step. by rewrite Hm.
Qed.

(** C27: a package and its default entry point get the same file: the
    page of the package is the page of its default entry point. *)
Theorem package_filename_root (root pkg e : ApiItem) :
  Api.kind root = Model → Api.kind pkg = Package →
  Api.kind e = EntryPoint → Api.name e = "" →
  _getFilenameForApiItem (memberRef (memberRef (rootRef root) pkg) e) =
  _getFilenameForApiItem (memberRef (rootRef root) pkg).
Proof.
  intros Hroot Hpkg He Hn. unfold _getFilenameForApiItem. cbn [memberRef self].
  rewrite !decide_False by (by rewrite ?Hpkg, ?He). f_equal.
  unfold baseName_of, marked_hierarchy, memberRef, getHierarchy, rootRef.
  cbn [ancestors self fmap list_fmap app foldl]. unfold filename_step.
  by rewrite Hroot, Hpkg, He, Hn.
Qed.

End resolver_facts.

(** * The resolver on a model

    A package [@scope/widgets] with a default entry point that exports a
    class, an enum and a variable; names are made safe by [spec_naming]. *)

Definition ex_render1 : ApiItem := mkApiItem (Api.callable Method "render" 1) [].
Definition ex_render2 : ApiItem := mkApiItem (Api.callable Method "render" 2) [].
Definition ex_ctor : ApiItem := mkApiItem (Api.callable Constructor "(constructor)" 1) [].
Definition ex_size : ApiItem := mkApiItem (Api.plain Property "size") [].
Definition ex_Widget : ApiItem :=
  mkApiItem (Api.plain Class "Widget") [ex_ctor; ex_render1; ex_render2; ex_size].
Definition ex_Red : ApiItem := mkApiItem (Api.plain EnumMember "Red") [].
Definition ex_Color : ApiItem := mkApiItem (Api.plain Enum "Color") [ex_Red].
Definition ex_foo : ApiItem := mkApiItem (Api.plain Variable_ "foo") [].
Definition ex_entry : ApiItem :=
  mkApiItem (Api.plain EntryPoint "") [ex_Widget; ex_Color; ex_foo].
Definition ex_pkg : ApiItem := mkApiItem (Api.plain Package "@scope/widgets") [ex_entry].
Definition ex_root : ApiItem := mkApiItem (Api.plain Model "") [ex_pkg].

Definition ex_pkg_ref : ApiItemRef := memberRef (rootRef ex_root) ex_pkg.
Definition ex_entry_ref : ApiItemRef := memberRef ex_pkg_ref ex_entry.
Definition ex_Widget_ref : ApiItemRef := memberRef ex_entry_ref ex_Widget.
Definition ex_Color_ref : ApiItemRef := memberRef ex_entry_ref ex_Color.
Definition ex_render2_ref : ApiItemRef := memberRef ex_Widget_ref ex_render2.

(** A second entry point that exports a variable [foo] and a function
    [var_foo], and a class with two overloads of [m] and a method [m_1]. *)
Definition ex_var_foo : ApiItem := mkApiItem (Api.callable Function "var_foo" 1) [].
Definition ex_m2 : ApiItem := mkApiItem (Api.callable Method "m" 2) [].
Definition ex_m_1 : ApiItem := mkApiItem (Api.callable Method "m_1" 1) [].
Definition ex_C : ApiItem :=
  mkApiItem (Api.plain Class "C") [mkApiItem (Api.callable Method "m" 1) []; ex_m2; ex_m_1].
Definition ex_clash_entry : ApiItem :=
  mkApiItem (Api.plain EntryPoint "") [ex_foo; ex_var_foo; ex_C].
Definition ex_clash_pkg : ApiItem := mkApiItem (Api.plain Package "clash") [ex_clash_entry].
Definition ex_clash_root : ApiItem := mkApiItem (Api.plain Model "") [ex_clash_pkg].
Definition ex_clash_entry_ref : ApiItemRef :=
  memberRef (memberRef (rootRef ex_clash_root) ex_clash_pkg) ex_clash_entry.

Lemma ex_in_tree_entry : in_tree ex_root ex_entry_ref.
Proof.
  unfold ex_entry_ref, ex_pkg_ref.
  repeat (apply in_tree_memberRef; [|by_compute]). apply in_tree_rootRef. Qed.

Lemma filename_is_segments_witness :
  Api.kind ex_render2_ref ≠ Model ∧
  _getFilenameForApiItem ex_render2_ref = joined ["widgets"; "_root"; "Widget"; "render_1"].
Proof. split; [done|]. by rewrite filename_is_segments. Defined.

Lemma unique_paths_witness :
  wf_model ex_root = true ∧ unique_segments ex_root = true ∧
  in_tree ex_root ex_Widget_ref ∧ in_tree ex_root ex_render2_ref ∧
  addressable ex_Widget_ref = true ∧ addressable ex_render2_ref = true ∧
  _getFilenameForApiItem ex_Widget_ref ≠ _getFilenameForApiItem ex_render2_ref.
Proof.
  assert (in_tree ex_root ex_Widget_ref) as HW.
  { apply in_tree_memberRef; [apply ex_in_tree_entry|by_compute]. }
  assert (in_tree ex_root ex_render2_ref) as Hr.
  { apply in_tree_memberRef; [done|by_compute]. }
  assert (wf_model ex_root = true) as Hwf by by vm_compute.
  assert (unique_segments ex_root = true) as Hu by by vm_compute.
  assert (addressable ex_Widget_ref = true) as Ha1 by by vm_compute.
  assert (addressable ex_render2_ref = true) as Ha2 by by vm_compute.
  split_and!; try assumption.
  intros Heq. by apply (unique_paths ex_root _ _ Hwf Hu HW Hr Ha1 Ha2) in Heq.
Defined.

Lemma overloads_distinct_witness :
  _getFilenameForApiItem (memberRef ex_Widget_ref ex_render1) ≠
  _getFilenameForApiItem (memberRef ex_Widget_ref ex_render2).
Proof. by apply (overloads_distinct ex_Widget_ref ex_render1 ex_render2 1 2); [..|lia|lia|]. Defined.

Lemma variable_prefix_distinct_witness :
  _getFilenameForApiItem (memberRef ex_entry_ref ex_foo) ≠
  _getFilenameForApiItem (memberRef ex_entry_ref (mkApiItem (Api.plain TypeAlias "foo") [])).
Proof. by apply variable_prefix_distinct. Defined.

Lemma enum_member_filename_witness :
  Api.kind ex_Color_ref = Enum ∧ Api.kind ex_Red = EnumMember ∧
  _getFilenameForApiItem (memberRef ex_Color_ref ex_Red) = _getFilenameForApiItem ex_Color_ref.
Proof. split_and!; [done..|]. by apply enum_member_filename. Defined.

Lemma package_filename_root_witness :
  Api.kind ex_root = Model ∧ Api.kind ex_pkg = Package ∧
  Api.kind ex_entry = EntryPoint ∧ Api.name ex_entry = "" ∧
  _getFilenameForApiItem ex_entry_ref = _getFilenameForApiItem ex_pkg_ref.
Proof. split_and!; [done..|]. by apply package_filename_root. Defined.


(** C36: without the condition on segments file names are not unique: in a
    well-formed model a variable [foo] and a function [var_foo] of one
    entry point get one file, and so do the second overload of [m] and a
    method [m_1] of one class. *)
Example filename_clash :
  wf_model ex_clash_root = true ∧
  (let r1 := memberRef ex_clash_entry_ref ex_foo in
   let r2 := memberRef ex_clash_entry_ref ex_var_foo in
   in_tree ex_clash_root r1 ∧ in_tree ex_clash_root r2 ∧
   addressable r1 = true ∧ addressable r2 = true ∧ r1 ≠ r2 ∧
   _getFilenameForApiItem r1 = _getFilenameForApiItem r2) ∧
  (let r1 := memberRef (memberRef ex_clash_entry_ref ex_C) ex_m2 in
   let r2 := memberRef (memberRef ex_clash_entry_ref ex_C) ex_m_1 in
   in_tree ex_clash_root r1 ∧ in_tree ex_clash_root r2 ∧
   addressable r1 = true ∧ addressable r2 = true ∧ r1 ≠ r2 ∧
   _getFilenameForApiItem r1 = _getFilenameForApiItem r2).
Proof.
  cbv zeta. split_and!; try (by vm_compute);
    repeat (apply in_tree_memberRef; [|by_compute]); apply in_tree_rootRef.
Qed.
