(* ===== verification/Builder.v ===== *)
(** * The page content builder: paragraphs, cells and sections

    The methods of [HugoDocumenter] ([src/src/yaml/ISDPYamlFile.ts]) that
    build document nodes and write no page: the excerpt paragraphs (lines
    1084-1134), the table cells (1136-1275), the warnings (1314-1336), the
    section helpers (1338-1358), the heritage, remarks and throws sections
    (477-610), the parameter and enum tables (915-941, 1026-1082) and the
    breadcrumb (1277-1312).

    A [DocSection] or [DocParagraph] under construction is the list of its
    nodes; a method that appends to [output] takes the list and returns the
    new one.  A constructor or an [appendNode] that throws is an [Err].

    The theorems are about the operations under [the_configuration]: the
    documents the documenter accepts ([children_ok], [node_ok], [docs_ok]),
    for every operation that it succeeds on them with well-formed nodes
    ([steps_in], [builds]), and for some what exactly they build. *)

From S2P Require Import Prelude DocNodes ApiModel Utilities Resolver.

(** ** Text *)

Definition is_newline (c : ascii) : bool :=
  bool_decide (c = "010"%char) || bool_decide (c = "013"%char).

(** [text.replace(/[\r\n]+/g, ' ')] (line 1110): every run of line breaks
    becomes one space.  [inRun] says that the character before was a line
    break. *)
Fixpoint unwrap (inRun : bool) (s : string) : string :=
  match s with
  | EmptyString => EmptyString
  | String c s =>
      if is_newline c
      then (if inRun then unwrap true s else String " "%char (unwrap true s))
      else String c (unwrap false s)
  end.

(** The white space [String.prototype.trim] removes, among the characters
    of one byte. *)
Definition is_space (c : ascii) : bool :=
  bool_decide (c ∈ ["009"; "010"; "011"; "012"; "013"; " "; "160"]%char).

(** [!text.trim()] (line 1089): nothing is left after trimming. *)
Definition is_blank (s : string) : bool := forallb is_space (chars s).

Section builder.
Context `{Naming} (configuration : TSDocConfiguration) (_apiModel : ApiModel).

(** [new DocHeading({ configuration, title })]: a heading of level 1. *)
Definition newDocHeading (title : string) : DocNode := DocHeading title 1.

(** [new DocLinkTag({ tagName: '@link', linkText, urlDestination })]. *)
Definition newDocLinkTag (linkText urlDestination : string) : DocNode :=
  DocLinkTag linkText None (Some urlDestination).

(** A paragraph with one bold or italic span of plain text: the label the
    source builds in many places. *)
Definition labelParagraph (bold italic : bool) (text : string) : result DocNode :=
  span ← newDocEmphasisSpan configuration bold italic [DocPlainText text];
  newDocParagraph configuration [span].

(** ** Excerpts *)

(** Lines 1104-1134; [docNodeContainer] is the list [nodes] of a container
    of kind [parentKind]. *)
Definition _appendExcerptTokenWithHyperlinks (parentKind : string) (nodes : list DocNode)
    (token : ExcerptToken) : result (list DocNode) :=
  let unwrappedTokenText := unwrap false (text token) in
  let resolvedApiItem :=
    if decide (tokenKind token = Reference)
    then canonicalReference token ≫= resolveDeclarationReference _apiModel
    else None in
  match resolvedApiItem with
  | Some resolvedApiItem =>
      appendNode configuration parentKind nodes
        (newDocLinkTag unwrappedTokenText (_getLinkFilenameForApiItem resolvedApiItem))
  | None => appendNode configuration parentKind nodes (DocPlainText unwrappedTokenText)
  end.

(** Lines 1098-1102. *)
Definition _appendExcerptWithHyperlinks (parentKind : string) (nodes : list DocNode)
    (excerpt : Excerpt) : result (list DocNode) :=
  foldM (_appendExcerptTokenWithHyperlinks parentKind) nodes (spannedTokens excerpt).

(** Lines 1084-1096. *)
Definition _createParagraphForTypeExcerpt (excerpt : Excerpt) : result DocNode :=
  DocParagraph <$>
    (if is_blank (Excerpt_text excerpt)
     then appendNode configuration "Paragraph" [] (DocPlainText "(not declared)")
     else _appendExcerptWithHyperlinks "Paragraph" [] excerpt).

(** ** Sections *)

(** Lines 1338-1342. *)
Definition _appendSection (output docSection : list DocNode) : result (list DocNode) :=
  foldM (appendNode configuration "Section") output docSection.

(** One turn of the loop of [_appendAndMergeSection] (lines 1346-1357); the
    state is [firstNode] and the nodes of [output]. *)
Definition _appendAndMergeSection_step (st : bool * list DocNode) (node : DocNode) :
    result (bool * list DocNode) :=
  let '(firstNode, output) := st in
  if firstNode && bool_decide (kind node = "Paragraph")
  then pair false <$> appendNodesInParagraph configuration output (getChildNodes node)
  else pair false <$> appendNode configuration "Section" output node.

(** Lines 1344-1358. *)
Definition _appendAndMergeSection (output docSection : list DocNode) :
    result (list DocNode) :=
  snd <$> foldM _appendAndMergeSection_step (true, output) docSection.

(** Lines 1314-1324 and 1326-1336. *)
Definition _writeAlphaWarning (output : list DocNode) : result (list DocNode) :=
  let betaWarning :=
    "This API is provided as an alpha preview for developers and may change"
    +:+ " based on feedback that we receive.  Do not use this API in a production environment." in
  p ← newDocParagraph configuration [DocPlainText betaWarning];
  box ← newDocNoteBox configuration [p];
  appendNode configuration "Section" output box.

Definition _writeBetaWarning (output : list DocNode) : result (list DocNode) :=
  let betaWarning :=
    "This API is provided as a beta preview for developers and may change"
    +:+ " based on feedback that we receive.  Do not use this API in a production environment." in
  p ← newDocParagraph configuration [DocPlainText betaWarning];
  box ← newDocNoteBox configuration [p];
  appendNode configuration "Section" output box.

(** ** Table cells *)

(** Lines 1136-1154. *)
Definition _createTitleCell (apiItem : ApiItemRef) : result DocNode :=
  let linkText := getConciseSignature apiItem in
  let linkText :=
    if decide (Api.isOptional apiItem = Some true) then linkText +:+ "?" else linkText in
  p ← newDocParagraph configuration
         [newDocLinkTag linkText (_getLinkFilenameForApiItem apiItem)];
  newDocTableCell configuration [p].

(** The two italic or bold notes of a description (lines 1170-1178 and
    1183-1186): a span and a space, in the last paragraph of [section]. *)
Definition appendNote (section : list DocNode) (bold : bool) (text : string) :
    result (list DocNode) :=
  span ← newDocEmphasisSpan configuration bold true [DocPlainText text];
  appendNodesInParagraph configuration section [span; DocPlainText " "].

(** Lines 1163-1211. *)
Definition _createDescriptionCell (apiItem : ApiItemRef) (isInherited : bool) :
    result DocNode :=
  let section := [] in
  section ←
    match Api.releaseTag apiItem with
    | Some Alpha => appendNote section true "(ALPHA)"
    | Some Beta => appendNote section true "(BETA)"
    | _ => Ok section
    end;
  section ←
    (if decide (Api.isOptional apiItem = Some true)
     then appendNote section false "(Optional)"
     else Ok section);
  section ←
    match Api.tsdocComment apiItem with
    | Some tsdocComment => _appendAndMergeSection section (summarySection tsdocComment)
    | None => Ok section
    end;
  section ←
    match isInherited, parent apiItem with
    | true, Some parent =>
        p ← newDocParagraph configuration
               [DocPlainText "(Inherited from ";
                newDocLinkTag (Api.displayName parent) (_getLinkFilenameForApiItem parent);
                DocPlainText ")"];
        appendNode configuration "Section" section p
    | _, _ => Ok section
    end;
  newDocTableCell configuration section.

(** One modifier of [_createModifiersCell]: a paragraph with a code span
    when the flag is set. *)
Definition appendModifier (section : list DocNode) (flag : option bool) (code : string) :
    result (list DocNode) :=
  if decide (flag = Some true)
  then p ← newDocParagraph configuration [DocCodeSpan code];
       appendNode configuration "Section" section p
  else Ok section.

(** Lines 1213-1249. *)
Definition _createModifiersCell (apiItem : ApiItemRef) : result DocNode :=
  let section := [] in
  section ← appendModifier section (Api.isProtected apiItem) "protected";
  section ← appendModifier section (Api.isStatic apiItem) "static";
  section ← appendModifier section (Api.isAbstract apiItem) "abstract";
  section ← appendModifier section (Api.isReadonly apiItem) "readonly";
  newDocTableCell configuration section.

(** Lines 1251-1261. *)
Definition _createPropertyTypeCell (apiItem : ApiItemRef) : result DocNode :=
  let section := [] in
  section ←
    match Api.propertyTypeExcerpt apiItem with
    | Some propertyTypeExcerpt =>
        p ← _createParagraphForTypeExcerpt propertyTypeExcerpt;
        appendNode configuration "Section" section p
    | None => Ok section
    end;
  newDocTableCell configuration section.

(** Lines 1263-1275. *)
Definition _createInitializerCell (apiItem : ApiItemRef) : result DocNode :=
  let section := [] in
  section ←
    match Api.initializerExcerpt apiItem with
    | Some initializerExcerpt =>
        appendNodeInParagraph configuration section
          (DocCodeSpan (Excerpt_text initializerExcerpt))
    | None => Ok section
    end;
  newDocTableCell configuration section.

(** ** Tables a page holds *)

(** The end of every table writer ([if (table.rows.length > 0) ...]): a
    heading and the table, when the table has a row. *)
Definition appendTable (output : list DocNode) (title : string) (table : DocNode) :
    result (list DocNode) :=
  if decide (0 < length (rows table))
  then output ← appendNode configuration "Section" output (newDocHeading title);
       appendNode configuration "Section" output table
  else Ok output.

(** A cell with one paragraph of plain text (lines 926-930 and 1051-1053). *)
Definition textCell (text : string) : result DocNode :=
  p ← newDocParagraph configuration [DocPlainText text];
  newDocTableCell configuration [p].

(** The row of a parameter (lines 1034-1057). *)
Definition parameterRow (parametersTable : DocNode) (apiParameter : ApiParameter) :
    result DocNode :=
  let parameterDescription := [] in
  parameterDescription ←
    (if parameterIsOptional apiParameter
     then appendNote parameterDescription false "(Optional)"
     else Ok parameterDescription);
  parameterDescription ←
    match tsdocParamBlock apiParameter with
    | Some tsdocParamBlock =>
        _appendAndMergeSection parameterDescription (content tsdocParamBlock)
    | None => Ok parameterDescription
    end;
  nameCell ← textCell (parameterName apiParameter);
  typeCell ← (p ← _createParagraphForTypeExcerpt (parameterTypeExcerpt apiParameter);
              newDocTableCell configuration [p]);
  descriptionCell ← newDocTableCell configuration parameterDescription;
  Ok (addRow parametersTable (newDocTableRow [nameCell; typeCell; descriptionCell])).

(** Lines 1026-1082. *)
Definition _writeParameterTables (output : list DocNode) (apiItem : ApiItemRef) :
    result (list DocNode) :=
  parametersTable ← newDocTable configuration ["Parameter"; "Type"; "Description"];
  parametersTable ← foldM parameterRow parametersTable (Api.parameters apiItem);
  output ← appendTable output "Parameters" parametersTable;
  match Api.returnTypeExcerpt apiItem with
  | Some returnTypeExcerpt =>
      empty ← newDocParagraph configuration [];
      output ← appendNode configuration "Section" output empty;
      label ← labelParagraph true false "Returns:";
      output ← appendNode configuration "Section" output label;
      p ← _createParagraphForTypeExcerpt returnTypeExcerpt;
      output ← appendNode configuration "Section" output p;
      match Api.tsdocComment apiItem ≫= returnsBlock with
      | Some returnsBlock => _appendSection output (content returnsBlock)
      | None => Ok output
      end
  | None => Ok output
  end.

(** The row of an enum member (lines 924-934). *)
Definition enumMemberRow (enumMembersTable : DocNode) (apiEnumMember : ApiItemRef) :
    result DocNode :=
  nameCell ← textCell (getConciseSignature apiEnumMember);
  initializerCell ← _createInitializerCell apiEnumMember;
  descriptionCell ← _createDescriptionCell apiEnumMember false;
  Ok (addRow enumMembersTable
        (newDocTableRow [nameCell; initializerCell; descriptionCell])).

(** Lines 915-941. *)
Definition _writeEnumTables (output : list DocNode) (apiEnum : ApiItemRef) :
    result (list DocNode) :=
  enumMembersTable ← newDocTable configuration ["Member"; "Value"; "Description"];
  enumMembersTable ← foldM enumMemberRow enumMembersTable (memberRefs apiEnum);
  appendTable output "Enumeration Members" enumMembersTable.

(** ** Remarks, examples and exceptions *)

Definition blocksWithTag (tag : string) (tsdocComment : DocComment) : list DocBlock :=
  filter (λ x, tagNameWithUpperCase x = tag) (customBlocks tsdocComment).

(** One turn of the loop over the example blocks (lines 575-583); the state
    is [exampleNumber] and the nodes of [output]. *)
Definition exampleStep (count : nat) (st : nat * list DocNode) (exampleBlock : DocBlock) :
    result (nat * list DocNode) :=
  let '(exampleNumber, output) := st in
  let heading :=
    if decide (1 < count) then "Example " +:+ pretty exampleNumber else "Example" in
  output ← appendNode configuration "Section" output (newDocHeading heading);
  output ← _appendSection output (content exampleBlock);
  Ok (S exampleNumber, output).

(** Lines 556-586. *)
Definition _writeRemarksSection (output : list DocNode) (apiItem : ApiItemRef) :
    result (list DocNode) :=
  match Api.tsdocComment apiItem with
  | Some tsdocComment =>
      output ←
        match remarksBlock tsdocComment with
        | Some remarksBlock =>
            output ← appendNode configuration "Section" output (newDocHeading "Remarks");
            _appendSection output (content remarksBlock)
        | None => Ok output
        end;
      let exampleBlocks := blocksWithTag StandardTags_example tsdocComment in
      snd <$> foldM (exampleStep (length exampleBlocks)) (1, output) exampleBlocks
  | None => Ok output
  end.

(** Lines 588-610. *)
Definition _writeThrowsSection (output : list DocNode) (apiItem : ApiItemRef) :
    result (list DocNode) :=
  match Api.tsdocComment apiItem with
  | Some tsdocComment =>
      let throwsBlocks := blocksWithTag StandardTags_throws tsdocComment in
      if decide (0 < length throwsBlocks)
      then output ← appendNode configuration "Section" output (newDocHeading "Exceptions");
           foldM (λ output throwsBlock, _appendSection output (content throwsBlock))
             output throwsBlocks
      else Ok output
  | None => Ok output
  end.

(** ** Heritage *)

(** The nodes of a paragraph that starts with a bold label (lines 482-484,
    489-493, 508-510, 531-535). *)
Definition labelled (label : string) : result (list DocNode) :=
  span ← newDocEmphasisSpan configuration true false [DocPlainText label];
  appendNodes configuration "Paragraph" [] [span].

(** The separator of the comma loops (lines 496-498, 513-515, 544-546). *)
Definition appendComma (needsComma : bool) (paragraph : list DocNode) :
    result (list DocNode) :=
  if needsComma
  then appendNode configuration "Paragraph" paragraph (DocPlainText ", ")
  else Ok paragraph.

(** One turn of the loops over heritage types (lines 495-501, 512-518); the
    state is [needsComma] and the nodes of the paragraph. *)
Definition heritageStep (st : bool * list DocNode) (excerpt : Excerpt) :
    result (bool * list DocNode) :=
  let '(needsComma, paragraph) := st in
  paragraph ← appendComma needsComma paragraph;
  paragraph ← _appendExcerptWithHyperlinks "Paragraph" paragraph excerpt;
  Ok (true, paragraph).

(** A labelled paragraph listing [types], appended to [output] (lines
    489-502 and 508-519). *)
Definition appendHeritageList (output : list DocNode) (label : string)
    (types : list Excerpt) : result (list DocNode) :=
  paragraph ← labelled label;
  st ← foldM heritageStep (false, paragraph) types;
  appendNode configuration "Section" output (DocParagraph st.2).

(** The tokens of a type alias that resolve to an item (lines 524-529). *)
Definition resolvedReferences (tokens : list ExcerptToken) : list ExcerptToken :=
  filter (λ token, tokenKind token = Reference ∧
                   is_Some (canonicalReference token ≫= resolveDeclarationReference _apiModel))
    tokens.

(** One turn of the loop over the references (lines 538-550); the state is
    [needsComma], [visited] and the nodes of the paragraph. *)
Definition referenceStep (st : bool * gset string * list DocNode) (ref : ExcerptToken) :
    result (bool * gset string * list DocNode) :=
  let '(needsComma, visited, paragraph) := st in
  if decide (text ref ∈ visited) then Ok st
  else
    let visited := visited ∪ {[text ref]} in
    paragraph ← appendComma needsComma paragraph;
    paragraph ← _appendExcerptTokenWithHyperlinks "Paragraph" paragraph ref;
    Ok (true, visited, paragraph).

(** Lines 477-554. *)
Definition _writeHeritageTypes (output : list DocNode) (apiItem : ApiItemRef) :
    result (list DocNode) :=
  output ←
    (if decide (Api.kind apiItem = Class) then
       output ←
         match Api.extendsType apiItem with
         | Some extendsType =>
             extendsParagraph ← labelled "Extends: ";
             extendsParagraph ←
               _appendExcerptWithHyperlinks "Paragraph" extendsParagraph extendsType;
             appendNode configuration "Section" output (DocParagraph extendsParagraph)
         | None => Ok output
         end;
       if decide (0 < length (Api.implementsTypes apiItem))
       then appendHeritageList output "Implements: " (Api.implementsTypes apiItem)
       else Ok output
     else Ok output);
  output ←
    (if decide (Api.kind apiItem = Interface ∧ 0 < length (Api.extendsTypes apiItem))
     then appendHeritageList output "Extends: " (Api.extendsTypes apiItem)
     else Ok output);
  if decide (Api.kind apiItem = TypeAlias) then
    let refs := resolvedReferences (default [] (Api.excerptTokens apiItem)) in
    if decide (0 < length refs) then
      referencesParagraph ← labelled "References: ";
      st ← foldM referenceStep (false, ∅, referencesParagraph) refs;
      appendNode configuration "Section" output (DocParagraph st.2)
    else Ok output
  else Ok output.

(** ** The breadcrumb *)

(** One turn of the loop of [_writeBreadcrumb] (lines 1289-1311). *)
Definition breadcrumbStep (output : list DocNode) (hierarchyItem : ApiItemRef) :
    result (list DocNode) :=
  match Api.kind hierarchyItem with
  | Model | EntryPoint => Ok output
  | _ =>
      appendNodesInParagraph configuration output
        [DocPlainText " > ";
         newDocLinkTag (Api.displayName hierarchyItem)
           (_getLinkFilenameForApiItem hierarchyItem)]
  end.

(** Lines 1277-1312; no method of the class calls it. *)
Definition _writeBreadcrumb (output : list DocNode) (apiItem : ApiItemRef) :
    result (list DocNode) :=
  output ← appendNodeInParagraph configuration output
    (newDocLinkTag "Home" (_getLinkFilenameForApiItem (rootRef (root _apiModel))));
  foldM breadcrumbStep output (hierarchyRefs apiItem).

End builder.

(** ** What construction gives when it succeeds *)

(** The nodes a paragraph holds and the nodes a section holds under the
    configuration of the documenter. *)
Definition inline (n : DocNode) : bool := allowed_spec "Paragraph" (kind n).
Definition block (n : DocNode) : bool := allowed_spec "Section" (kind n).

(** [appendNodeInParagraph] when it succeeds: the node goes into the last
    paragraph, or into a new paragraph when the last node is none. *)
Definition push_inline (nodes : list DocNode) (n : DocNode) : list DocNode :=
  match last nodes with
  | Some (DocParagraph children) => removelast nodes ++ [DocParagraph (children ++ [n])]
  | _ => nodes ++ [DocParagraph [n]]
  end.

(** A header cell, and a table without rows. *)
Definition headerCell (title : string) : DocNode :=
  DocTableCell (DocSection [DocParagraph [DocPlainText title]]).
Definition emptyTable (headerTitles : list string) : DocNode :=
  DocTable (DocTableRow (headerCell <$> headerTitles)) [].

(** ** Documents the documenter accepts *)

(** The nodes of a section of a comment: well-formed, and allowed in a
    section. *)
Definition section_ok (nodes : list DocNode) : bool :=
  wf_children the_configuration "Section" nodes.

Definition block_ok (b : DocBlock) : bool := section_ok (content b).

Definition comment_ok (c : DocComment) : bool :=
  section_ok (summarySection c)
  && from_option block_ok true (remarksBlock c)
  && from_option block_ok true (deprecatedBlock c)
  && from_option block_ok true (returnsBlock c)
  && forallb block_ok (customBlocks c).

Definition parameter_ok (p : ApiParameter) : bool :=
  from_option block_ok true (tsdocParamBlock p).

(** The comment of an item and of its parameters. *)
Definition item_ok (d : Api.Data) : bool :=
  from_option comment_ok true (Api.tsdocComment d) && forallb parameter_ok (Api.parameters d).

(** Every item of a tree has comments the documenter accepts. *)
Fixpoint docs_ok (i : ApiItem) : bool :=
  match i with
  | mkApiItem d ms =>
      item_ok d
      && (fix go (l : list ApiItem) : bool :=
            match l with
            | [] => true
            | x :: l => docs_ok x && go l
            end) ms
  end.

(** The nodes a container of kind [p] may hold. *)
Definition children_ok (p : string) (nodes : list DocNode) : Prop :=
  wf_children the_configuration p nodes = true.

(** A well-formed node of kind [k]. *)
Definition node_ok (k : string) (n : DocNode) : Prop :=
  kind n = k ∧ wf_node the_configuration n = true.

(** An operation on the nodes of a container of kind [p] that succeeds on
    every well-formed list of children and leaves it well-formed. *)
Definition steps_in (p : string) (f : list DocNode → result (list DocNode)) : Prop :=
  ∀ nodes, children_ok p nodes → ok_with (children_ok p) (f nodes).

(** Such an operation on the nodes of a section. *)
Definition steps (f : list DocNode → result (list DocNode)) : Prop := steps_in "Section" f.

(** A construction that succeeds with a well-formed node of kind [k]. *)
Definition builds (k : string) (r : result DocNode) : Prop := ok_with (node_ok k) r.

(** A table a page can show: a well-formed [DocTable]. *)
Definition table_ok (table : DocNode) : Prop := node_ok "Table" table.

(** ** What the operations build *)

(** A string without a line break, and a string of line breaks. *)
Definition newline_free (s : string) : Prop := Forall (λ c, is_newline c = false) (chars s).
Definition newlines (s : string) : Prop := Forall (λ c, is_newline c = true) (chars s).

(** The modifiers of a member, in the order of the cell. *)
Definition modifiers (d : Api.Data) : list string :=
  (if decide (Api.isProtected d = Some true) then ["protected"] else []) ++
  (if decide (Api.isStatic d = Some true) then ["static"] else []) ++
  (if decide (Api.isAbstract d = Some true) then ["abstract"] else []) ++
  (if decide (Api.isReadonly d = Some true) then ["readonly"] else []).

(** The heading of the [i]-th example of [count]. *)
Definition example_heading (count i : nat) : string :=
  if decide (1 < count) then "Example " +:+ pretty i else "Example".

(** The examples of a page: each under its heading, numbered from
    [first]. *)
Fixpoint examples_from (count first : nat) (exampleBlocks : list DocBlock) : list DocNode :=
  match exampleBlocks with
  | [] => []
  | b :: bs =>
      DocHeading (example_heading count first) 1 :: content b
      ++ examples_from count (S first) bs
  end.

(** The remarks of a page. *)
Definition remarks_of (c : DocComment) : list DocNode :=
  from_option (λ b, DocHeading "Remarks" 1 :: content b) [] (remarksBlock c)
  ++ examples_from (length (blocksWithTag StandardTags_example c)) 1
       (blocksWithTag StandardTags_example c).

(** * Theorems *)

(** The tokens of [refs] that are the first with their text, in order. *)
Fixpoint first_by_text (refs : list ExcerptToken) : list ExcerptToken :=
  match refs with
  | [] => []
  | ref :: refs => ref :: filter (λ r, text r ≠ text ref) (first_by_text refs)
  end.

(** [nodes] with [sep] between every two of them. *)
Definition separated (sep : DocNode) (nodes : list DocNode) : list DocNode :=
  match nodes with
  | [] => []
  | n :: nodes => n :: (nodes ≫= λ n, [sep; n])
  end.

(** What a page shows for a reference: a link to the item it resolves to,
    and its text when it resolves to none; line breaks are replaced. *)
Definition reference_node `{Naming} (_apiModel : ApiModel) (ref : ExcerptToken) : DocNode :=
  match canonicalReference ref ≫= resolveDeclarationReference _apiModel with
  | Some resolvedApiItem =>
      DocLinkTag (unwrap false (text ref)) None
        (Some (_getLinkFilenameForApiItem resolvedApiItem))
  | None => DocPlainText (unwrap false (text ref))
  end.

(** The references of a type alias on its page: nothing when no token of
    its declaration resolves to an item, and otherwise one paragraph with
    the label and a link for every text, separated by commas. *)
Definition references_of `{Naming} (_apiModel : ApiModel) (d : Api.Data) : list DocNode :=
  let refs := resolvedReferences _apiModel (default [] (Api.excerptTokens d)) in
  if decide (refs = []) then []
  else [DocParagraph
          (DocEmphasisSpan true false [DocPlainText "References: "]
           :: separated (DocPlainText ", ")
                (reference_node _apiModel <$> first_by_text refs))].

(** ** Construction under the configuration of the documenter *)

Section the_configuration_facts.
Implicit Types (n : DocNode) (ns nodes : list DocNode).

Lemma appendNode_block nodes n :
  block n = true → appendNode the_configuration "Section" nodes n = Ok (nodes ++ [n]).
Proof. unfold block. intros Hn. rewrite appendNode_the_configuration. by rewrite Hn. Qed.

Lemma appendNode_inline nodes n :
  inline n = true → appendNode the_configuration "Paragraph" nodes n = Ok (nodes ++ [n]).
Proof. unfold inline. intros Hn. rewrite appendNode_the_configuration. by rewrite Hn. Qed.

Lemma appendNodes_allowed (p : string) nodes ns :
  forallb (λ n, allowed_spec p (kind n)) ns = true →
  appendNodes the_configuration p nodes ns = Ok (nodes ++ ns).
Proof.
  intros Hns. apply appendNodes_Ok. split; [done|].
  apply Forall_forall. intros n Hn. rewrite isAllowedChild_the_configuration.
  rewrite forallb_forall in Hns. by apply Hns, list_elem_of_In.
Qed.

Lemma newDocParagraph_inline ns :
  forallb inline ns = true → newDocParagraph the_configuration ns = Ok (DocParagraph ns).
Proof. intros Hns. unfold newDocParagraph. by rewrite (appendNodes_allowed "Paragraph"). Qed.

Lemma newDocSection_block ns :
  forallb block ns = true → newDocSection the_configuration ns = Ok (DocSection ns).
Proof. intros Hns. unfold newDocSection. by rewrite (appendNodes_allowed "Section"). Qed.

Lemma newDocTableCell_block ns :
  forallb block ns = true →
  newDocTableCell the_configuration ns = Ok (DocTableCell (DocSection ns)).
Proof. intros Hns. unfold newDocTableCell. by rewrite newDocSection_block. Qed.

Lemma newDocNoteBox_block ns :
  forallb block ns = true →
  newDocNoteBox the_configuration ns = Ok (DocNoteBox (DocSection ns)).
Proof. intros Hns. unfold newDocNoteBox. by rewrite newDocSection_block. Qed.

Lemma newDocEmphasisSpan_text (bold italic : bool) (text : string) :
  newDocEmphasisSpan the_configuration bold italic [DocPlainText text] =
  Ok (DocEmphasisSpan bold italic [DocPlainText text]).
Proof. unfold newDocEmphasisSpan. by rewrite (appendNodes_allowed "EmphasisSpan"). Qed.

Lemma appendNodeInParagraph_inline nodes n :
  inline n = true →
  appendNodeInParagraph the_configuration nodes n = Ok (push_inline nodes n).
Proof.
  intros Hn. unfold appendNodeInParagraph, push_inline.
  destruct (last nodes) as [[]|]; rewrite ?appendNode_inline by done; try done;
    rewrite appendNode_block by done; simpl; rewrite ?appendNode_inline by done; simpl;
    by rewrite removelast_last.
Qed.

Lemma appendNodesInParagraph_inline nodes ns :
  forallb inline ns = true →
  appendNodesInParagraph the_configuration nodes ns = Ok (foldl push_inline nodes ns).
Proof.
  unfold appendNodesInParagraph. revert nodes.
  induction ns as [|n ns IH]; intros nodes Hns; [done|].
  apply andb_true_iff in Hns as [Hn Hns]. simpl.
  rewrite appendNodeInParagraph_inline by done. by apply IH.
Qed.

Lemma newPlainTextCell_the (title : string) :
  newPlainTextCell the_configuration title = Ok (headerCell title).
Proof. unfold newPlainTextCell. by rewrite appendNodeInParagraph_inline. Qed.

Lemma newDocTable_the (headerTitles : list string) :
  newDocTable the_configuration headerTitles = Ok (emptyTable headerTitles).
Proof.
  unfold newDocTable, emptyTable.
  assert (mapM (newPlainTextCell the_configuration) headerTitles =
          Ok (headerCell <$> headerTitles)) as ->; [|done].
  induction headerTitles as [|t ts IH]; [done|].
  change (mapM ?f (t :: ts)) with (y ← f t; k ← mapM f ts; mret (y :: k)).
  by rewrite newPlainTextCell_the, IH.
Qed.

End the_configuration_facts.

(** ** Operations preserve well-formed sections *)

Section steps_facts.
Implicit Types (n : DocNode) (ns nodes output : list DocNode).
Implicit Types (f g : list DocNode → result (list DocNode)).

Lemma section_ok_app ns ns' : section_ok (ns ++ ns') = section_ok ns && section_ok ns'.
Proof. apply wf_children_app. Qed.

Lemma section_ok_singleton n :
  section_ok [n] = block n && wf_node the_configuration n.
Proof.
  unfold section_ok, wf_children, block. simpl.
  by rewrite isAllowedChild_the_configuration, andb_true_r.
Qed.

Lemma steps_Ok (p : string) : steps_in p Ok.
Proof. intros output Hok. by exists output. Qed.

Lemma steps_bind (p : string) f g :
  steps_in p f → steps_in p g → steps_in p (λ output, f output ≫= g).
Proof.
  intros Hf Hg output Hok. destruct (Hf output Hok) as (o1 & -> & Hok1). by apply Hg.
Qed.

Lemma steps_ext (p : string) f g :
  (∀ output, f output = g output) → steps_in p g → steps_in p f.
Proof. intros Heq Hg output Hok. rewrite Heq. by apply Hg. Qed.

Lemma steps_appendNode_in (p : string) n :
  allowed_spec p (kind n) = true → wf_node the_configuration n = true →
  steps_in p (λ output, appendNode the_configuration p output n).
Proof.
  intros Hb Hwf output Hok. rewrite appendNode_the_configuration, Hb.
  eexists. split; [done|]. unfold children_ok in *.
  rewrite wf_children_app, Hok. unfold wf_children. simpl.
  by rewrite isAllowedChild_the_configuration, Hb, Hwf.
Qed.

Lemma steps_appendNode n :
  block n = true → wf_node the_configuration n = true →
  steps (λ output, appendNode the_configuration "Section" output n).
Proof. apply steps_appendNode_in. Qed.

(** A node is built, then appended. *)
Lemma steps_build (k : string) (r : result DocNode) :
  allowed_spec "Section" k = true → builds k r →
  steps (λ output, r ≫= appendNode the_configuration "Section" output).
Proof.
  intros Hk (n & -> & <- & Hwf). by apply steps_appendNode.
Qed.

Lemma steps_foldM {A} (p : string) (f : list DocNode → A → result (list DocNode))
    (l : list A) :
  (∀ x, x ∈ l → steps_in p (λ output, f output x)) →
  steps_in p (λ output, foldM f output l).
Proof.
  induction l as [|x l IH]; intros Hf; [apply steps_Ok|].
  apply (steps_bind p (λ output, f output x)); [apply Hf; left|].
  apply IH. intros y Hy. apply Hf. by right.
Qed.

Lemma steps__appendSection nodes :
  children_ok "Section" nodes →
  steps (λ output, _appendSection the_configuration output nodes).
Proof.
  intros Hns. unfold _appendSection. apply steps_foldM. intros n Hn.
  unfold children_ok, wf_children in Hns. rewrite forallb_forall in Hns.
  apply list_elem_of_In, Hns, andb_true_iff in Hn as [Hb Hwf].
  apply steps_appendNode; [|done]. by rewrite isAllowedChild_the_configuration in Hb.
Qed.

Lemma steps_appendNodeInParagraph n :
  inline n = true → wf_node the_configuration n = true →
  steps (λ output, appendNodeInParagraph the_configuration output n).
Proof.
  intros Hi Hwf output Hok. rewrite appendNodeInParagraph_inline by done.
  eexists. split; [done|].
  by eapply appendNodeInParagraph_wf, appendNodeInParagraph_inline.
Qed.

Lemma steps_appendNodesInParagraph ns :
  wf_children the_configuration "Paragraph" ns = true →
  steps (λ output, appendNodesInParagraph the_configuration output ns).
Proof.
  intros Hns. unfold appendNodesInParagraph. apply steps_foldM. intros n Hn.
  unfold wf_children in Hns. rewrite forallb_forall in Hns.
  apply list_elem_of_In, Hns, andb_true_iff in Hn as [Hb Hwf].
  apply steps_appendNodeInParagraph; [|done].
  by rewrite isAllowedChild_the_configuration in Hb.
Qed.

End steps_facts.

(** ** Sections of comments *)

Section sections_facts.
Context (cfg : TSDocConfiguration).
Implicit Types (n : DocNode) (ns nodes output : list DocNode).

(** After the first turn the loop of [_appendAndMergeSection] appends. *)
Lemma _appendAndMergeSection_rest output nodes :
  foldM (_appendAndMergeSection_step cfg) (false, output) nodes =
  pair false <$> _appendSection cfg output nodes.
Proof.
  revert output. induction nodes as [|n nodes IH]; intros output; [done|].
  unfold _appendSection. simpl.
  destruct (appendNode cfg "Section" output n) as [output'|e]; [|done]. apply IH.
Qed.

Lemma _appendAndMergeSection_first (r : result (list DocNode)) (rest : list DocNode) :
  snd <$> ((pair false <$> r) ≫= λ st, foldM (_appendAndMergeSection_step cfg) st rest) =
  r ≫= λ output, _appendSection cfg output rest.
Proof.
  destruct r as [o|e]; [|done]. simpl. rewrite _appendAndMergeSection_rest.
  by destruct (_appendSection cfg o rest).
Qed.

(** C16: [_appendAndMergeSection] merges the first node of a section when
    it is a paragraph and appends every other node: the children of a
    leading paragraph go into the last paragraph of the output (or into a
    new one), and the nodes after it, paragraphs included, are appended as
    they are. *)
Theorem _appendAndMergeSection_spec output nodes :
  _appendAndMergeSection cfg output nodes =
  match nodes with
  | DocParagraph children :: rest =>
      output ← appendNodesInParagraph cfg output children;
      _appendSection cfg output rest
  | _ => _appendSection cfg output nodes
  end.
Proof.
  unfold _appendAndMergeSection. destruct nodes as [|n rest]; [done|].
  destruct n; apply _appendAndMergeSection_first.
Qed.

End sections_facts.

(** ** Comments the documenter accepts *)

Section docs_facts.
Implicit Types (d : Api.Data) (c : DocComment) (b : DocBlock).

Lemma comment_ok_inv c :
  comment_ok c = true →
  children_ok "Section" (summarySection c) ∧
  (∀ b, remarksBlock c = Some b → children_ok "Section" (content b)) ∧
  (∀ b, deprecatedBlock c = Some b → children_ok "Section" (content b)) ∧
  (∀ b, returnsBlock c = Some b → children_ok "Section" (content b)) ∧
  (∀ b, b ∈ customBlocks c → children_ok "Section" (content b)).
Proof.
  unfold comment_ok. rewrite !andb_true_iff, forallb_forall.
  intros [[[[Hs Hr] Hd] Hret] Hc]. split_and!; [done|..].
  - by intros b Hb; rewrite Hb in Hr.
  - by intros b Hb; rewrite Hb in Hd.
  - by intros b Hb; rewrite Hb in Hret.
  - intros b Hb%list_elem_of_In. by apply Hc.
Qed.

Lemma item_ok_comment d c :
  item_ok d = true → Api.tsdocComment d = Some c → comment_ok c = true.
Proof. unfold item_ok. intros [Hc _]%andb_true_iff Heq. by rewrite Heq in Hc. Qed.

Lemma item_ok_parameter d (p : ApiParameter) b :
  item_ok d = true → p ∈ Api.parameters d → tsdocParamBlock p = Some b →
  children_ok "Section" (content b).
Proof.
  unfold item_ok. rewrite andb_true_iff, forallb_forall.
  intros [_ Hp] Hin%list_elem_of_In Hb. apply Hp in Hin. unfold parameter_ok in Hin.
  by rewrite Hb in Hin.
Qed.

Lemma blocksWithTag_ok (tag : string) c b :
  comment_ok c = true → b ∈ blocksWithTag tag c → children_ok "Section" (content b).
Proof.
  intros (_ & _ & _ & _ & Hc)%comment_ok_inv [_ Hb]%list_elem_of_filter. by apply Hc.
Qed.

Lemma docs_ok_unfold (i : ApiItem) :
  docs_ok i = item_ok i && forallb docs_ok (members i).
Proof. by destruct i. Qed.

Lemma docs_ok_member (i m : ApiItem) : docs_ok i = true → m ∈ members i → docs_ok m = true.
Proof.
  rewrite docs_ok_unfold, andb_true_iff, forallb_forall.
  intros [_ Hms] Hm%list_elem_of_In. by apply Hms.
Qed.

Lemma docs_ok_item (i : ApiItem) : docs_ok i = true → item_ok i = true.
Proof. rewrite docs_ok_unfold. by intros [? _]%andb_true_iff. Qed.

End docs_facts.

(** ** The operations of the builder on documents the documenter accepts *)

Section builder_steps.
Context `{Naming} (_apiModel : ApiModel).
Implicit Types (n : DocNode) (ns nodes output : list DocNode) (apiItem : ApiItemRef).

Local Notation "'cfg'" := the_configuration.

Lemma builds_Ok (k : string) n :
  kind n = k → wf_node cfg n = true → builds k (Ok n).
Proof. intros. by exists n. Qed.

Lemma builds_cell nodes :
  section_ok nodes = true → builds "TableCell" (newDocTableCell cfg nodes).
Proof.
  intros Hok. unfold section_ok in Hok.
  pose proof Hok as [Hall _]%wf_children_Forall. exists (DocTableCell (DocSection nodes)).
  split; [by apply newDocTableCell_Ok|]. split; [done|]. by rewrite wf_node_TableCell.
Qed.

(** A cell made from a section built step by step. *)
Lemma builds_cell_steps (r : result (list DocNode)) :
  ok_with (children_ok "Section") r → builds "TableCell" (r ≫= newDocTableCell cfg).
Proof. intros Hr. apply (ok_bind _ _ _ _ Hr), builds_cell. Qed.

Lemma steps_run f : steps f → ok_with (children_ok "Section") (f []).
Proof. intros Hf. by apply Hf. Qed.

Lemma builds_labelParagraph (bold italic : bool) (text : string) :
  builds "Paragraph" (labelParagraph cfg bold italic text).
Proof.
  unfold labelParagraph. rewrite newDocEmphasisSpan_text. simpl.
  rewrite newDocParagraph_inline by done. apply builds_Ok; [done|by vm_compute].
Qed.

Lemma steps__writeAlphaWarning : steps (_writeAlphaWarning cfg).
Proof.
  unfold _writeAlphaWarning. rewrite newDocParagraph_inline by done. simpl.
  rewrite newDocNoteBox_block by done. simpl. apply steps_appendNode; by vm_compute.
Qed.

Lemma steps__writeBetaWarning : steps (_writeBetaWarning cfg).
Proof.
  unfold _writeBetaWarning. rewrite newDocParagraph_inline by done. simpl.
  rewrite newDocNoteBox_block by done. simpl. apply steps_appendNode; by vm_compute.
Qed.

Lemma steps__appendAndMergeSection nodes :
  children_ok "Section" nodes →
  steps (λ output, _appendAndMergeSection cfg output nodes).
Proof.
  intros Hok. destruct nodes as [|n rest]; [apply steps_Ok|].
  assert (steps (λ output, _appendSection cfg output (n :: rest))) as Happ
    by by apply steps__appendSection.
  unfold children_ok in Hok. fold (section_ok (n :: rest)) in Hok.
  apply (steps_ext _ _ (λ output,
    match n with
    | DocParagraph children =>
        appendNodesInParagraph cfg output children ≫= λ output,
        _appendSection cfg output rest
    | _ => _appendSection cfg output (n :: rest)
    end)).
  { intros output. unfold _appendAndMergeSection. destruct n;
      apply (_appendAndMergeSection_first cfg). }
  change (n :: rest) with ([n] ++ rest) in Hok.
  rewrite section_ok_app, section_ok_singleton in Hok.
  apply andb_true_iff in Hok as [[_ Hn]%andb_true_iff Hrest].
  destruct n; try done.
  rewrite wf_node_Paragraph in Hn.
  apply (steps_bind _ (λ output, appendNodesInParagraph cfg output _));
    [by apply steps_appendNodesInParagraph|by apply steps__appendSection].
Qed.

(** An excerpt token gives a link or plain text, both at home in a
    paragraph. *)
Lemma steps__appendExcerptTokenWithHyperlinks (token : ExcerptToken) :
  steps_in "Paragraph"
    (λ nodes, _appendExcerptTokenWithHyperlinks cfg _apiModel "Paragraph" nodes token).
Proof.
  unfold _appendExcerptTokenWithHyperlinks.
  destruct (if decide (tokenKind token = Reference)
            then canonicalReference token ≫= resolveDeclarationReference _apiModel
            else None); by apply steps_appendNode_in.
Qed.

Lemma steps__appendExcerptWithHyperlinks (excerpt : Excerpt) :
  steps_in "Paragraph"
    (λ nodes, _appendExcerptWithHyperlinks cfg _apiModel "Paragraph" nodes excerpt).
Proof.
  unfold _appendExcerptWithHyperlinks. apply steps_foldM. intros token _.
  apply steps__appendExcerptTokenWithHyperlinks.
Qed.

(** A paragraph made from children built step by step. *)
Lemma builds_paragraph_steps (r : result (list DocNode)) :
  ok_with (children_ok "Paragraph") r → builds "Paragraph" (DocParagraph <$> r).
Proof.
  intros Hr. apply (ok_fmap _ _ _ _ Hr). intros nodes Hok. split; [done|].
  by rewrite wf_node_Paragraph.
Qed.

Lemma builds__createParagraphForTypeExcerpt (excerpt : Excerpt) :
  builds "Paragraph" (_createParagraphForTypeExcerpt cfg _apiModel excerpt).
Proof.
  unfold _createParagraphForTypeExcerpt. apply builds_paragraph_steps.
  destruct (is_blank _).
  - by apply (steps_appendNode_in "Paragraph" (DocPlainText "(not declared)")).
  - by apply steps__appendExcerptWithHyperlinks.
Qed.

(** ** Cells *)

Lemma steps_appendNote (bold : bool) (text : string) :
  steps (λ section, appendNote cfg section bold text).
Proof.
  unfold appendNote. rewrite newDocEmphasisSpan_text. simpl.
  by apply steps_appendNodesInParagraph.
Qed.

Lemma children_ok_link (linkText url : string) :
  children_ok "Section" [DocParagraph [newDocLinkTag linkText url]].
Proof. by vm_compute. Qed.

Lemma builds__createTitleCell apiItem : builds "TableCell" (_createTitleCell cfg apiItem).
Proof.
  unfold _createTitleCell. rewrite newDocParagraph_inline by done. simpl.
  apply builds_cell, children_ok_link.
Qed.

Lemma builds_textCell (text : string) : builds "TableCell" (textCell cfg text).
Proof.
  unfold textCell. rewrite newDocParagraph_inline by done. simpl.
  by apply builds_cell.
Qed.

(** The paragraph of an inherited member. *)
Lemma children_ok_inherited (name url : string) :
  node_ok "Paragraph"
    (DocParagraph [DocPlainText "(Inherited from "; newDocLinkTag name url; DocPlainText ")"]).
Proof. by vm_compute. Qed.

Lemma builds__createDescriptionCell apiItem (isInherited : bool) :
  item_ok apiItem = true →
  builds "TableCell" (_createDescriptionCell cfg apiItem isInherited).
Proof.
  intros [Hdoc _]%andb_true_iff. unfold _createDescriptionCell.
  apply (ok_bind (children_ok "Section")).
  { destruct (Api.releaseTag apiItem) as [[]|];
      [by apply ok_Ok|by apply ok_Ok|by apply steps_appendNote|by apply steps_appendNote
      |by apply ok_Ok..]. }
  intros s1 H1. apply (ok_bind (children_ok "Section")).
  { case_decide; [by apply steps_appendNote|by apply ok_Ok]. }
  intros s2 H2. apply (ok_bind (children_ok "Section")).
  { destruct (Api.tsdocComment apiItem) as [c|]; [|by apply ok_Ok].
    apply steps__appendAndMergeSection; [|done].
    simpl in Hdoc. unfold comment_ok in Hdoc. by repeat apply andb_true_iff in Hdoc as [Hdoc _]. }
  intros s3 H3. apply builds_cell_steps.
  destruct isInherited, (parent apiItem) as [a|]; [|by apply ok_Ok..].
  rewrite newDocParagraph_inline by done. simpl.
  destruct (children_ok_inherited (Api.displayName a) (_getLinkFilenameForApiItem a))
    as [Hk Hwf].
  by apply steps_appendNode.
Qed.

Lemma steps_appendModifier (flag : option bool) (code : string) :
  steps (λ section, appendModifier cfg section flag code).
Proof.
  unfold appendModifier. case_decide; [|apply steps_Ok].
  rewrite newDocParagraph_inline by done. simpl. by apply steps_appendNode.
Qed.

Lemma builds__createModifiersCell apiItem :
  builds "TableCell" (_createModifiersCell cfg apiItem).
Proof.
  unfold _createModifiersCell.
  do 4 (eapply ok_bind; [by apply steps_appendModifier|intros ? ?]).
  by apply builds_cell.
Qed.

Lemma builds__createPropertyTypeCell apiItem :
  builds "TableCell" (_createPropertyTypeCell cfg _apiModel apiItem).
Proof.
  unfold _createPropertyTypeCell. apply builds_cell_steps.
  destruct (Api.propertyTypeExcerpt apiItem) as [e|]; [|by apply ok_Ok].
  apply (steps_build "Paragraph"); [done|apply builds__createParagraphForTypeExcerpt|done].
Qed.

Lemma builds__createInitializerCell apiItem :
  builds "TableCell" (_createInitializerCell cfg apiItem).
Proof.
  unfold _createInitializerCell. apply builds_cell_steps.
  destruct (Api.initializerExcerpt apiItem) as [e|]; [|by apply ok_Ok].
  by apply steps_appendNodeInParagraph.
Qed.

(** ** Tables *)

Lemma table_ok_emptyTable (headerTitles : list string) : table_ok (emptyTable headerTitles).
Proof.
  split; [done|]. unfold emptyTable. rewrite wf_node_Table, wf_node_TableRow. simpl.
  rewrite !andb_true_r. apply andb_true_iff.
  split; apply forallb_forall; by intros c (t & <- & _)%in_map_iff.
Qed.

Lemma ok_newDocTable (headerTitles : list string) :
  ok_with table_ok (newDocTable cfg headerTitles).
Proof. rewrite newDocTable_the. apply ok_Ok, table_ok_emptyTable. Qed.

Lemma node_ok_row (cells : list DocNode) :
  Forall (node_ok "TableCell") cells → node_ok "TableRow" (newDocTableRow cells).
Proof.
  intros Hcells. split; [done|]. unfold newDocTableRow. rewrite wf_node_TableRow.
  apply andb_true_iff. split; apply forallb_forall; intros c Hc%list_elem_of_In;
    apply (proj1 (Forall_forall _ _) Hcells) in Hc as [Hk Hwf]; [by apply bool_decide_eq_true|done].
Qed.

Lemma table_ok_addRow (table row : DocNode) :
  table_ok table → node_ok "TableRow" row → table_ok (addRow table row).
Proof.
  intros [Hk Hwf] [Hrk Hrwf]. destruct table; try done. split; [done|]. simpl addRow.
  rewrite wf_node_Table in Hwf |- *. rewrite !forallb_app. simpl.
  apply andb_true_iff in Hwf as [[Hh ->]%andb_true_iff ->].
  by rewrite Hh, Hrwf, bool_decide_true.
Qed.

Lemma steps_appendTable (title : string) (table : DocNode) :
  table_ok table → steps (λ output, appendTable cfg output title table).
Proof.
  intros [Hk Hwf]. unfold appendTable. case_decide; [|apply steps_Ok].
  apply (steps_bind _ (λ output, appendNode cfg "Section" output _));
    apply steps_appendNode; try done. unfold block. by rewrite Hk.
Qed.

Lemma children_ok_singleton (k : string) n :
  allowed_spec "Section" k = true → node_ok k n → children_ok "Section" [n].
Proof.
  intros Hk [<- Hwf]. unfold children_ok. fold (section_ok [n]).
  rewrite section_ok_singleton. unfold block. by rewrite Hk, Hwf.
Qed.

Lemma steps_appendNode_ok (k : string) n :
  allowed_spec "Section" k = true → node_ok k n →
  steps (λ output, appendNode cfg "Section" output n).
Proof. intros Hk [<- Hwf]. by apply steps_appendNode. Qed.

Lemma ok_parameterRow (d : Api.Data) (parametersTable : DocNode)
    (apiParameter : ApiParameter) :
  item_ok d = true → apiParameter ∈ Api.parameters d → table_ok parametersTable →
  ok_with table_ok (parameterRow cfg _apiModel parametersTable apiParameter).
Proof.
  intros Hd Hp Ht. unfold parameterRow.
  apply (ok_bind (children_ok "Section")).
  { destruct (parameterIsOptional _); [by apply steps_appendNote|by apply ok_Ok]. }
  intros d1 H1. apply (ok_bind (children_ok "Section")).
  { destruct (tsdocParamBlock apiParameter) as [b|] eqn:Hb; [|by apply ok_Ok].
    apply steps__appendAndMergeSection; [|done]. by eapply item_ok_parameter. }
  intros d2 H2. apply (ok_bind (node_ok "TableCell")); [apply builds_textCell|].
  intros c1 Hc1. apply (ok_bind (node_ok "TableCell")).
  { apply (ok_bind (node_ok "Paragraph")); [apply builds__createParagraphForTypeExcerpt|].
    intros p Hp'. by apply builds_cell, (children_ok_singleton "Paragraph"). }
  intros c2 Hc2. apply (ok_bind (node_ok "TableCell")); [by apply builds_cell|].
  intros c3 Hc3. apply ok_Ok, table_ok_addRow; [done|]. apply node_ok_row.
  repeat (apply Forall_cons_2; [done|]). apply Forall_nil_2.
Qed.

(** The type of the value a callable returns, after the parameters. *)
Lemma steps_returns (d : Api.Data) (returnTypeExcerpt : Excerpt) :
  item_ok d = true →
  steps (λ output,
    empty ← newDocParagraph cfg [];
    output ← appendNode cfg "Section" output empty;
    label ← labelParagraph cfg true false "Returns:";
    output ← appendNode cfg "Section" output label;
    p ← _createParagraphForTypeExcerpt cfg _apiModel returnTypeExcerpt;
    output ← appendNode cfg "Section" output p;
    match Api.tsdocComment d ≫= returnsBlock with
    | Some returnsBlock => _appendSection cfg output (content returnsBlock)
    | None => Ok output
    end).
Proof.
  intros Hd output Hout. rewrite newDocParagraph_inline by done. simpl.
  apply (ok_bind (children_ok "Section")); [by apply steps_appendNode|]. intros o1 Ho1.
  apply (ok_bind (node_ok "Paragraph")); [apply builds_labelParagraph|]. intros l Hl.
  apply (ok_bind (children_ok "Section")); [by apply (steps_appendNode_ok "Paragraph")|].
  intros o2 Ho2.
  apply (ok_bind (node_ok "Paragraph")); [apply builds__createParagraphForTypeExcerpt|].
  intros p Hp.
  apply (ok_bind (children_ok "Section")); [by apply (steps_appendNode_ok "Paragraph")|].
  intros o3 Ho3. destruct (Api.tsdocComment d) as [c|] eqn:Hc; [|by apply ok_Ok]. simpl.
  destruct (returnsBlock c) as [b|] eqn:Hb; [|by apply ok_Ok].
  apply steps__appendSection; [|done].
  by eapply item_ok_comment, comment_ok_inv in Hd as (_ & _ & _ & Hr & _); [apply Hr|].
Qed.

Lemma steps__writeParameterTables apiItem :
  item_ok apiItem = true →
  steps (λ output, _writeParameterTables cfg _apiModel output apiItem).
Proof.
  intros Hd output Hout. unfold _writeParameterTables.
  apply (ok_bind table_ok); [apply ok_newDocTable|]. intros t0 Ht0.
  apply (ok_bind table_ok).
  { apply ok_foldM; [done|]. intros t x Hx Ht. by apply (ok_parameterRow apiItem). }
  intros t1 Ht1. apply (ok_bind (children_ok "Section")); [by apply steps_appendTable|].
  intros o1 Ho1. destruct (Api.returnTypeExcerpt apiItem) as [e|]; [|by apply ok_Ok].
  by apply (steps_returns apiItem).
Qed.

Lemma ok_enumMemberRow (enumMembersTable : DocNode) (apiEnumMember : ApiItemRef) :
  item_ok apiEnumMember = true → table_ok enumMembersTable →
  ok_with table_ok (enumMemberRow cfg enumMembersTable apiEnumMember).
Proof.
  intros Hd Ht. unfold enumMemberRow.
  apply (ok_bind (node_ok "TableCell")); [apply builds_textCell|]. intros c1 Hc1.
  apply (ok_bind (node_ok "TableCell")); [apply builds__createInitializerCell|].
  intros c2 Hc2.
  apply (ok_bind (node_ok "TableCell")); [by apply builds__createDescriptionCell|].
  intros c3 Hc3. apply ok_Ok, table_ok_addRow; [done|]. apply node_ok_row.
  repeat (apply Forall_cons_2; [done|]). apply Forall_nil_2.
Qed.

Lemma steps__writeEnumTables (apiEnum : ApiItemRef) :
  docs_ok apiEnum = true → steps (λ output, _writeEnumTables cfg output apiEnum).
Proof.
  intros Hd output Hout. unfold _writeEnumTables.
  apply (ok_bind table_ok); [apply ok_newDocTable|]. intros t0 Ht0.
  apply (ok_bind table_ok); [|by intros; apply steps_appendTable].
  apply ok_foldM; [done|]. intros t x (m & -> & Hm)%list_elem_of_fmap Ht.
  apply ok_enumMemberRow; [|done]. eapply docs_ok_item, docs_ok_member; eauto.
Qed.

(** ** Remarks, examples and exceptions *)

Lemma ok_exampleStep (count : nat) (st : nat * list DocNode) (exampleBlock : DocBlock) :
  children_ok "Section" (content exampleBlock) → children_ok "Section" st.2 →
  ok_with (λ st : nat * list DocNode, children_ok "Section" st.2)
    (exampleStep cfg count st exampleBlock).
Proof.
  intros Hb Hst. destruct st as [exampleNumber output]. unfold exampleStep.
  apply (ok_bind (children_ok "Section")); [by apply steps_appendNode|]. intros o1 Ho1.
  apply (ok_bind (children_ok "Section")); [by apply steps__appendSection|].
  intros o2 Ho2. by apply ok_Ok.
Qed.

Lemma steps__writeRemarksSection apiItem :
  item_ok apiItem = true → steps (λ output, _writeRemarksSection cfg output apiItem).
Proof.
  intros Hd output Hout. unfold _writeRemarksSection.
  destruct (Api.tsdocComment apiItem) as [c|] eqn:Hc; [|by apply ok_Ok].
  apply item_ok_comment with (c := c) in Hd; [|done].
  pose proof (comment_ok_inv c Hd) as (_ & Hr & _).
  apply (ok_bind (children_ok "Section")).
  { destruct (remarksBlock c) as [b|]; [|by apply ok_Ok].
    apply (ok_bind (children_ok "Section")); [by apply steps_appendNode|].
    intros o1 Ho1. apply steps__appendSection; eauto. }
  intros o1 Ho1.
  apply (ok_fmap (λ st : nat * list DocNode, children_ok "Section" st.2)); [|done].
  apply ok_foldM; [done|]. intros st b Hb Hst. apply ok_exampleStep; [|done].
  by eapply blocksWithTag_ok.
Qed.

Lemma steps__writeThrowsSection apiItem :
  item_ok apiItem = true → steps (λ output, _writeThrowsSection cfg output apiItem).
Proof.
  intros Hd output Hout. unfold _writeThrowsSection.
  destruct (Api.tsdocComment apiItem) as [c|] eqn:Hc; [|by apply ok_Ok].
  apply item_ok_comment with (c := c) in Hd; [|done].
  case_decide; [|by apply ok_Ok].
  apply (ok_bind (children_ok "Section")); [by apply steps_appendNode|]. intros o1 Ho1.
  apply ok_foldM; [done|]. intros o b Hb Ho. apply steps__appendSection; [|done].
  by eapply blocksWithTag_ok.
Qed.

(** ** Heritage *)

Lemma ok_labelled (label : string) : ok_with (children_ok "Paragraph") (labelled cfg label).
Proof.
  unfold labelled. rewrite newDocEmphasisSpan_text. simpl.
  rewrite appendNodes_allowed by done. by apply ok_Ok.
Qed.

Lemma steps_appendComma (needsComma : bool) :
  steps_in "Paragraph" (appendComma cfg needsComma).
Proof. destruct needsComma; [by apply steps_appendNode_in|apply steps_Ok]. Qed.

Lemma ok_heritageStep (st : bool * list DocNode) (excerpt : Excerpt) :
  children_ok "Paragraph" st.2 →
  ok_with (λ st : bool * list DocNode, children_ok "Paragraph" st.2)
    (heritageStep cfg _apiModel st excerpt).
Proof.
  intros Hst. destruct st as [needsComma paragraph]. unfold heritageStep.
  apply (ok_bind (children_ok "Paragraph")); [by apply steps_appendComma|]. intros p1 Hp1.
  apply (ok_bind (children_ok "Paragraph"));
    [by apply steps__appendExcerptWithHyperlinks|].
  intros p2 Hp2. by apply ok_Ok.
Qed.

(** A paragraph built step by step, appended. *)
Lemma steps_appendParagraph (paragraph : list DocNode) :
  children_ok "Paragraph" paragraph →
  steps (λ output, appendNode cfg "Section" output (DocParagraph paragraph)).
Proof. intros Hp. apply steps_appendNode; [done|]. by rewrite wf_node_Paragraph. Qed.

Lemma steps_appendHeritageList (label : string) (types : list Excerpt) :
  steps (λ output, appendHeritageList cfg _apiModel output label types).
Proof.
  intros output Hout. unfold appendHeritageList.
  apply (ok_bind (children_ok "Paragraph")); [apply ok_labelled|]. intros p Hp.
  apply (ok_bind (λ st : bool * list DocNode, children_ok "Paragraph" st.2)).
  { apply ok_foldM; [done|]. intros st e _ Hst. by apply ok_heritageStep. }
  intros st Hst. by apply steps_appendParagraph.
Qed.

Lemma ok_referenceStep (st : bool * gset string * list DocNode) (ref : ExcerptToken) :
  children_ok "Paragraph" st.2 →
  ok_with (λ st : bool * gset string * list DocNode, children_ok "Paragraph" st.2)
    (referenceStep cfg _apiModel st ref).
Proof.
  intros Hst. destruct st as [[needsComma visited] paragraph]. unfold referenceStep.
  case_decide; [by apply ok_Ok|].
  apply (ok_bind (children_ok "Paragraph")); [by apply steps_appendComma|]. intros p1 Hp1.
  apply (ok_bind (children_ok "Paragraph"));
    [by apply steps__appendExcerptTokenWithHyperlinks|].
  intros p2 Hp2. by apply ok_Ok.
Qed.

Lemma steps_extends (extendsType : Excerpt) :
  steps (λ output,
    extendsParagraph ← labelled cfg "Extends: ";
    extendsParagraph ←
      _appendExcerptWithHyperlinks cfg _apiModel "Paragraph" extendsParagraph extendsType;
    appendNode cfg "Section" output (DocParagraph extendsParagraph)).
Proof.
  intros output Hout.
  apply (ok_bind (children_ok "Paragraph")); [apply ok_labelled|]. intros p Hp.
  apply (ok_bind (children_ok "Paragraph"));
    [by apply steps__appendExcerptWithHyperlinks|].
  intros p' Hp'. by apply steps_appendParagraph.
Qed.

Lemma steps_references (refs : list ExcerptToken) :
  steps (λ output,
    referencesParagraph ← labelled cfg "References: ";
    st ← foldM (referenceStep cfg _apiModel) (false, ∅, referencesParagraph) refs;
    appendNode cfg "Section" output (DocParagraph st.2)).
Proof.
  intros output Hout.
  apply (ok_bind (children_ok "Paragraph")); [apply ok_labelled|]. intros p Hp.
  apply (ok_bind (λ st : bool * gset string * list DocNode, children_ok "Paragraph" st.2)).
  { apply ok_foldM; [done|]. intros st e _ Hst. by apply ok_referenceStep. }
  intros st Hst. by apply steps_appendParagraph.
Qed.

Lemma steps__writeHeritageTypes apiItem :
  steps (λ output, _writeHeritageTypes cfg _apiModel output apiItem).
Proof.
  intros output Hout. unfold _writeHeritageTypes.
  apply (ok_bind (children_ok "Section")).
  { case_decide; [|by apply ok_Ok]. apply (ok_bind (children_ok "Section")).
    - destruct (Api.extendsType apiItem); [by apply steps_extends|by apply ok_Ok].
    - intros o Ho. case_decide; [by apply steps_appendHeritageList|by apply ok_Ok]. }
  intros o1 Ho1. apply (ok_bind (children_ok "Section")).
  { case_decide; [by apply steps_appendHeritageList|by apply ok_Ok]. }
  intros o2 Ho2. repeat case_decide; try by apply ok_Ok. by apply steps_references.
Qed.

Lemma builds_noteBox nodes :
  children_ok "Section" nodes → builds "NoteBox" (newDocNoteBox cfg nodes).
Proof.
  intros Hok. pose proof Hok as [Hall _]%wf_children_Forall.
  exists (DocNoteBox (DocSection nodes)).
  split; [by apply newDocNoteBox_Ok|]. split; [done|]. by rewrite wf_node_NoteBox.
Qed.

Lemma steps_appendNodes nodes :
  children_ok "Section" nodes → steps (λ output, appendNodes cfg "Section" output nodes).
Proof.
  intros Hok output Hout. pose proof Hok as [Hall _]%wf_children_Forall.
  exists (output ++ nodes). split; [by apply appendNodes_Ok|].
  unfold children_ok in *. by rewrite wf_children_app, Hout.
Qed.

End builder_steps.

(** ** What the operations build *)

Section unwrap_facts.
Implicit Types (s r t : string) (c : ascii).

Lemma unwrap_app_newline_free (b : bool) s t :
  newline_free s → s ≠ "" → unwrap b (s +:+ t) = s +:+ unwrap false t.
Proof.
  unfold newline_free. revert b. induction s as [|c s IH]; intros b Hs Hne; [done|].
  apply Forall_cons in Hs as [Hc Hs].
  change (String c s +:+ ?x) with (String c (s +:+ x)). simpl. rewrite Hc. f_equal.
  destruct s as [|c' s']; [done|]. by apply IH.
Qed.

Lemma unwrap_newlines s t : newlines s → unwrap true (s +:+ t) = unwrap true t.
Proof.
  unfold newlines. induction s as [|c s IH]; intros Hs; [done|].
  apply Forall_cons in Hs as [Hc Hs].
  change (String c s +:+ ?x) with (String c (s +:+ x)). simpl. rewrite Hc. by apply IH.
Qed.

Lemma unwrap_after_run t :
  (∀ c t', t = String c t' → is_newline c = false) → unwrap true t = unwrap false t.
Proof. destruct t as [|c t']; [done|]. intros Hc. simpl. by rewrite (Hc c t'). Qed.

(** C20: a text without line breaks is left as it is by the replacement
    of [_appendExcerptTokenWithHyperlinks]. *)
Theorem unwrap_newline_free s : newline_free s → unwrap false s = s.
Proof.
  unfold newline_free. induction s as [|c s IH]; intros Hs; [done|].
  apply Forall_cons in Hs as [Hc Hs]. simpl. by rewrite Hc, IH.
Qed.

(** C19: every run of line breaks becomes one space: a text that starts
    with a part [s] without line breaks, followed by a run [r] of one or
    more line breaks and a rest [t] that starts with none, is unwrapped to
    [s], one space, and the rest unwrapped. *)
Theorem unwrap_run s r t :
  newline_free s → newlines r → r ≠ "" →
  (∀ c t', t = String c t' → is_newline c = false) →
  unwrap false (s +:+ r +:+ t) = s +:+ " " +:+ unwrap false t.
Proof.
  intros Hs Hr Hne Ht.
  assert (unwrap false (r +:+ t) = " " +:+ unwrap false t) as Hrun.
  { destruct r as [|c r']; [done|]. apply Forall_cons in Hr as [Hc Hr].
    change (String c r' +:+ ?x) with (String c (r' +:+ x)). simpl. rewrite Hc.
    change (" " +:+ ?x) with (String " " x). f_equal.
    rewrite unwrap_newlines by done. by apply unwrap_after_run. }
  destruct s as [|c s']; [done|]. by rewrite unwrap_app_newline_free, Hrun.
Qed.

End unwrap_facts.

Lemma unwrap_run_witness :
  unwrap false ("Map<K," +:+ String "013" (String "010" "") +:+ "  V>") = "Map<K,   V>".
Proof.
  apply (unwrap_run "Map<K," (String "013" (String "010" "")) "  V>").
  - by repeat constructor.
  - by repeat constructor.
  - done.
  - by intros c t' [= <- _].
Defined.

Lemma unwrap_newline_free_witness : unwrap false "Promise<void>" = "Promise<void>".
Proof. apply unwrap_newline_free. by repeat constructor. Defined.

Section specs.
Context `{Naming}.
Implicit Types (n : DocNode) (nodes output : list DocNode) (apiItem : ApiItemRef).

Local Notation "'cfg'" := the_configuration.

Lemma _appendSection_the output nodes :
  children_ok "Section" nodes → _appendSection cfg output nodes = Ok (output ++ nodes).
Proof.
  intros [Hall _]%wf_children_Forall. by apply (appendNodes_Ok cfg "Section").
Qed.

Lemma appendModifier_the output (flag : option bool) (code : string) :
  appendModifier cfg output flag code =
  Ok (output ++ if decide (flag = Some true) then [DocParagraph [DocCodeSpan code]] else []).
Proof.
  unfold appendModifier. case_decide; [|by rewrite app_nil_r].
  rewrite newDocParagraph_inline by done. simpl. by rewrite appendNode_block.
Qed.

(** C21: the cell of the modifiers of a member holds one paragraph with a
    code span for each modifier the member has, in the order protected,
    static, abstract, readonly, and nothing else. *)
Theorem _createModifiersCell_spec apiItem :
  _createModifiersCell cfg apiItem =
  Ok (DocTableCell (DocSection ((λ code, DocParagraph [DocCodeSpan code])
                                  <$> modifiers apiItem))).
Proof.
  unfold _createModifiersCell, modifiers. rewrite !appendModifier_the. simpl.
  rewrite !appendModifier_the. simpl. rewrite !appendModifier_the. simpl.
  rewrite !appendModifier_the. simpl. rewrite newDocTableCell_block.
  - by repeat case_decide.
  - by repeat case_decide.
Qed.

(** C22: a table is shown only when it has a row: [appendTable] appends a
    heading with the title and the table after it when the table has rows,
    and nothing when it has none. *)
Theorem appendTable_spec output (title : string) (table : DocNode) :
  kind table = "Table" →
  appendTable cfg output title table =
  Ok (if decide (rows table = []) then output else output ++ [DocHeading title 1; table]).
Proof.
  intros Hk. unfold appendTable. destruct (rows table) as [|r rs] eqn:Hr.
  - rewrite decide_False by (simpl; lia). by rewrite decide_True.
  - rewrite decide_True by (simpl; lia). rewrite decide_False by done.
    rewrite appendNode_block by done. simpl. rewrite appendNode_block; [|by unfold block; rewrite Hk].
    by rewrite <- app_assoc.
Qed.

Lemma exampleStep_fold (count first : nat) output (exampleBlocks : list DocBlock) :
  Forall (λ b, children_ok "Section" (content b)) exampleBlocks →
  snd <$> foldM (exampleStep cfg count) (first, output) exampleBlocks =
  Ok (output ++ examples_from count first exampleBlocks).
Proof.
  revert first output. induction exampleBlocks as [|b bs IH]; intros first output Hbs.
  - simpl. by rewrite app_nil_r.
  - apply Forall_cons in Hbs as [Hb Hbs]. simpl. unfold example_heading.
    rewrite appendNode_block by done. simpl. rewrite _appendSection_the by done. simpl.
    rewrite IH by done. by rewrite <- !app_assoc.
Qed.

(** C17: the remarks of a page: the heading Remarks and the remarks block
    when the comment has one, then every example block under a heading of
    its own, Example when there is one example and Example 1, Example 2,
    ... in order when there are more. *)
Theorem _writeRemarksSection_spec output apiItem (tsdocComment : DocComment) :
  Api.tsdocComment apiItem = Some tsdocComment → comment_ok tsdocComment = true →
  _writeRemarksSection cfg output apiItem = Ok (output ++ remarks_of tsdocComment).
Proof.
  intros Hc Hok. unfold _writeRemarksSection, remarks_of. rewrite Hc.
  pose proof (comment_ok_inv _ Hok) as (_ & Hr & _).
  assert (Forall (λ b, children_ok "Section" (content b))
            (blocksWithTag StandardTags_example tsdocComment)) as Hex.
  { apply Forall_forall. intros b Hb. by eapply blocksWithTag_ok. }
  destruct (remarksBlock tsdocComment) as [b|]; simpl.
  - rewrite appendNode_block by done. simpl. rewrite _appendSection_the by auto. simpl.
    rewrite exampleStep_fold by done. by rewrite <- !app_assoc.
  - by rewrite exampleStep_fold.
Qed.

End specs.

(** ** The references of a type alias *)

Section references.
Context `{Naming} (_apiModel : ApiModel).
Implicit Types (ref : ExcerptToken) (refs : list ExcerptToken) (visited : gset string).
Implicit Types (paragraph output : list DocNode) (apiItem : ApiItemRef).

Local Notation "'cfg'" := the_configuration.
Local Notation "'unvisited' visited" := (filter (λ r : ExcerptToken, text r ∉ visited))
  (at level 10, visited at level 9).
Local Notation "'comma'" := (DocPlainText ", ").

(** [first_by_text] keeps tokens of the list, one for every text. *)
Lemma first_by_text_sublist refs : first_by_text refs `sublist_of` refs.
Proof.
  induction refs as [|ref refs IH]; [done|]. simpl. apply sublist_skip.
  etrans; [apply sublist_filter|done].
Qed.

Lemma first_by_text_NoDup refs : NoDup (text <$> first_by_text refs).
Proof.
  induction refs as [|ref refs IH]; [apply NoDup_nil_2|]. simpl. apply NoDup_cons. split.
  - by intros (r & Heq & [Hne _]%list_elem_of_filter)%list_elem_of_fmap.
  - eapply sublist_NoDup; [exact IH|]. apply fmap_sublist, sublist_filter.
Qed.

Lemma first_by_text_complete ref refs :
  ref ∈ refs → text ref ∈ text <$> first_by_text refs.
Proof.
  induction refs as [|ref' refs IH]; [by intros ?%elem_of_nil|].
  simpl. destruct (decide (text ref = text ref')) as [->|Hne]; [left|].
  intros [->|Hr]%elem_of_cons; [done|]. right.
  apply IH, list_elem_of_fmap in Hr as (r & Heq & Hr).
  apply list_elem_of_fmap. exists r. split; [done|].
  apply list_elem_of_filter. split; [congruence|done].
Qed.

Lemma unvisited_cons_visited visited ref refs :
  text ref ∈ visited →
  unvisited visited (first_by_text (ref :: refs)) = unvisited visited (first_by_text refs).
Proof.
  intros Hv. simpl. rewrite filter_cons, decide_False by auto.
  rewrite list_filter_filter. apply list_filter_iff. intros r.
  split; [tauto|]. intros Hr. split; [done|]. intros Heq. by rewrite Heq in Hr.
Qed.

Lemma unvisited_cons_new visited ref refs :
  text ref ∉ visited →
  unvisited visited (first_by_text (ref :: refs)) =
  ref :: unvisited (visited ∪ {[text ref]}) (first_by_text refs).
Proof.
  intros Hv. simpl. rewrite filter_cons, decide_True by done. f_equal.
  rewrite list_filter_filter. apply list_filter_iff. intros r.
  rewrite not_elem_of_union, not_elem_of_singleton. tauto.
Qed.

Lemma unvisited_empty visited refs : visited = ∅ → unvisited visited refs = refs.
Proof.
  intros ->. induction refs as [|ref refs IH]; [done|].
  by rewrite filter_cons_True, IH by apply not_elem_of_empty.
Qed.

Lemma labelled_the (label : string) :
  labelled cfg label = Ok [DocEmphasisSpan true false [DocPlainText label]].
Proof. unfold labelled. by rewrite newDocEmphasisSpan_text. Qed.

Lemma _appendExcerptTokenWithHyperlinks_reference paragraph ref :
  tokenKind ref = Reference →
  _appendExcerptTokenWithHyperlinks cfg _apiModel "Paragraph" paragraph ref =
  Ok (paragraph ++ [reference_node _apiModel ref]).
Proof.
  intros Hk. unfold _appendExcerptTokenWithHyperlinks, reference_node.
  rewrite decide_True by done.
  by destruct (canonicalReference ref ≫= _); rewrite appendNode_inline.
Qed.

(** One turn of the loop on a reference whose text was not seen. *)
Lemma referenceStep_new (needsComma : bool) visited paragraph ref :
  tokenKind ref = Reference → text ref ∉ visited →
  referenceStep cfg _apiModel (needsComma, visited, paragraph) ref =
  Ok (true, visited ∪ {[text ref]},
      paragraph ++ (if needsComma then [comma] else []) ++ [reference_node _apiModel ref]).
Proof.
  intros Hk Hv. unfold referenceStep, appendComma. rewrite decide_False by done.
  destruct needsComma; simpl; rewrite ?appendNode_inline by done; simpl;
    rewrite _appendExcerptTokenWithHyperlinks_reference by done; simpl;
    by rewrite <- ?app_assoc.
Qed.

(** One turn of the loop on a reference whose text was seen. *)
Lemma referenceStep_visited (needsComma : bool) visited paragraph ref :
  text ref ∈ visited →
  referenceStep cfg _apiModel (needsComma, visited, paragraph) ref =
  Ok (needsComma, visited, paragraph).
Proof. intros Hv. unfold referenceStep. by rewrite decide_True. Qed.

(** The loop after its first link: a comma before every new link. *)
Lemma referenceStep_fold_comma visited paragraph refs :
  Forall (λ ref, tokenKind ref = Reference) refs →
  ok_with (λ st : bool * gset string * list DocNode,
             st.2 = paragraph ++
                    ((reference_node _apiModel <$> unvisited visited (first_by_text refs))
                       ≫= λ n, [comma; n]))
    (foldM (referenceStep cfg _apiModel) (true, visited, paragraph) refs).
Proof.
  revert visited paragraph.
  induction refs as [|ref refs IH]; intros visited paragraph Hrefs.
  { apply ok_Ok. simpl. by rewrite app_nil_r. }
  apply Forall_cons in Hrefs as [Hk Hrefs].
  change (foldM ?f ?b (ref :: refs)) with (f b ref ≫= λ b', foldM f b' refs).
  destruct (decide (text ref ∈ visited)) as [Hv|Hv].
  - rewrite unvisited_cons_visited, referenceStep_visited by done. by apply IH.
  - rewrite unvisited_cons_new, referenceStep_new by done.
    eapply ok_weaken; [by apply IH|]. intros st ->. csimpl. by rewrite <- !app_assoc.
Qed.

(** The loop from its start: no comma before the first link. *)
Lemma referenceStep_fold visited paragraph refs :
  Forall (λ ref, tokenKind ref = Reference) refs →
  ok_with (λ st : bool * gset string * list DocNode,
             st.2 = paragraph ++
                    separated comma
                      (reference_node _apiModel <$> unvisited visited (first_by_text refs)))
    (foldM (referenceStep cfg _apiModel) (false, visited, paragraph) refs).
Proof.
  revert visited. induction refs as [|ref refs IH]; intros visited Hrefs.
  { apply ok_Ok. simpl. by rewrite app_nil_r. }
  apply Forall_cons in Hrefs as [Hk Hrefs].
  change (foldM ?f ?b (ref :: refs)) with (f b ref ≫= λ b', foldM f b' refs).
  destruct (decide (text ref ∈ visited)) as [Hv|Hv].
  - rewrite unvisited_cons_visited, referenceStep_visited by done. by apply IH.
  - rewrite unvisited_cons_new, referenceStep_new by done.
    eapply ok_weaken; [by apply referenceStep_fold_comma|].
    intros st ->. simpl. by rewrite <- !app_assoc.
Qed.

Lemma resolvedReferences_Reference (tokens : list ExcerptToken) :
  Forall (λ ref, tokenKind ref = Reference) (resolvedReferences _apiModel tokens).
Proof. apply Forall_forall. by intros ref [[? _] _]%list_elem_of_filter. Qed.

(** C18: the references of a type alias: its page lists, in one paragraph
    after the label References, a link for every token of its declaration
    that resolves to an item, once for every text, in the order of the
    first tokens with the text and with commas between the links; a type
    alias without such a token gets no paragraph. *)
Theorem _writeHeritageTypes_references output apiItem :
  Api.kind apiItem = TypeAlias →
  _writeHeritageTypes cfg _apiModel output apiItem =
  Ok (output ++ references_of _apiModel apiItem).
Proof.
  intros Hk. unfold _writeHeritageTypes, references_of.
  rewrite Hk, (decide_False (P := TypeAlias = Class)) by done. simpl.
  destruct (resolvedReferences _ _) as [|ref refs] eqn:Hrefs.
  { rewrite decide_False by (simpl; lia). by rewrite decide_True, app_nil_r. }
  rewrite decide_True by (simpl; lia). rewrite decide_False, labelled_the by done.
  change (Ok ?a ≫= ?f) with (f a). cbv beta.
  destruct (referenceStep_fold ∅ [DocEmphasisSpan true false [DocPlainText "References: "]]
              (ref :: refs)) as (st & -> & Hst).
  { rewrite <- Hrefs. apply resolvedReferences_Reference. }
  change (Ok ?a ≫= ?f) with (f a). cbv beta.
  by rewrite Hst, unvisited_empty, appendNode_block.
Qed.

End references.
