(* ===== verification/Run.v ===== *)
(** * Runs and the platform

    A run of the documenter is a value of [M]: the trace of what the run
    did to the console and the file system, in order, with its outcome.  An
    exception keeps the trace up to the throw: files written before an error
    stay written.  The emitter, the plugin loader and the path functions
    are not under [src/]; they are the fields of [Host], and
    [DocumenterConfig] is the configuration as far as the documenter reads
    it. *)

From S2P Require Import Prelude DocNodes ApiModel.

(** [DocumenterConfig], as far as the documenter reads it: the flag of the
    configuration file and the kind of line ending. *)
Inductive NewlineKind : Type := CrLf | Lf | OsDefault.

#[export] Instance NewlineKind_eq_dec : EqDecision NewlineKind.
Proof. solve_decision. Defined.

Record DocumenterConfig : Type := {
  showInheritedMembers : option bool;
  newlineKind : NewlineKind;
}.

(** ** Runs *)

(** What a run does to the world outside. *)
Inductive Event : Type :=
| Log (message : string)
| EnsureEmptyFolder (folder : string)
| EnsureFolder (folder : string)
| WriteFile (filename contents : string) (convertLineEndings : NewlineKind)
| OnFinished.

#[export] Instance Event_eq_dec : EqDecision Event.
Proof. solve_decision. Defined.

(** How a run ends: it returns, it throws, or the model ran out of fuel
    (which no builder operation can answer: they live in [result]). *)
Inductive outcome (A : Type) : Type :=
| Return (a : A)
| Throw (e : Error)
| OutOfFuel.
Arguments Return {A} a.
Arguments Throw {A} e.
Arguments OutOfFuel {A}.

#[export] Instance outcome_eq_dec `{EqDecision A} : EqDecision (outcome A).
Proof. solve_decision. Defined.

Definition M (A : Type) : Type := list Event * outcome A.

#[export] Instance M_ret : MRet M := λ A a, ([], Return a).
#[export] Instance M_bind : MBind M := λ A B f m,
  match m with
  | (t, Return a) => let '(t', o) := f a in (t ++ t', o)
  | (t, Throw e) => (t, Throw e)
  | (t, OutOfFuel) => (t, OutOfFuel)
  end.
#[export] Instance M_fmap : FMap M := λ A B f m,
  match m.2 with
  | Return a => (m.1, Return (f a))
  | Throw e => (m.1, Throw e)
  | OutOfFuel => (m.1, OutOfFuel)
  end.

(** A builder operation inside a run. *)
Definition lift {A} (r : result A) : M A :=
  match r with
  | Ok a => ([], Return a)
  | Err e => ([], Throw e)
  end.

Definition emit (e : Event) : M unit := ([e], Return ()).

(** A loop with state in a run. *)
Fixpoint foldRun {A B} (f : B → A → M B) (b : B) (l : list A) : M B :=
  match l with
  | [] => mret b
  | x :: l => b ← f b x; foldRun f b l
  end.

(** ** The platform *)

Record FrontMatter : Type := {
  title : string;
  menu_main_weight : option nat;
}.

(** [IMarkdownDocumenterFeatureOnBeforeWritePageArgs] to the new
    [pageContent]. *)
Record MarkdownDocumenterFeature : Type := {
  onBeforeWritePage : ApiItemRef → string → string → string;
}.

(** What the documenter calls and [src/] does not hold: the emitter, the
    plugin loader and [path]. *)
Record Host : Type := {
  emitWithFrontMatter :
    DocNode → FrontMatter → ApiItemRef → (ApiItemRef → string) → result string;
  pluginLoader_load : DocumenterConfig → option MarkdownDocumenterFeature;
  path_join : string → string → string;
  path_dirname : string → string;
}.

(** Two runs that are the same run, and not for lack of fuel. *)
Definition agree {A} (m1 m2 : M A) : Prop := m1 = m2 ∧ m1.2 ≠ OutOfFuel.

(** A run that returns a value with [Q]. *)
Definition returns {A} (Q : A → Prop) (m : M A) : Prop := ∃ t a, m = (t, Return a) ∧ Q a.

(** A set of traces that holds the empty trace and is closed under
    concatenation: what a property of the traces of all runs has to be. *)
Class Concatenable (P : list Event → Prop) : Prop := {
  concatenable_nil : P [];
  concatenable_app t t' : P t → P t' → P (t ++ t');
}.

(** A run whose trace is in [P], however it ends. *)
Definition traced (P : list Event → Prop) {A} (m : M A) : Prop := P m.1.

(** The files a trace writes, in order. *)
Definition written (t : list Event) : list string :=
  omap (λ e, match e with WriteFile filename _ _ => Some filename | _ => None end) t.

(** A run that, when it returns, returns a value with [Q] and has
    written [files], in this order. *)
Definition writes {A} (Q : A → Prop) (files : list string) (m : M A) : Prop :=
  ∀ t a, m = (t, Return a) → Q a ∧ written t = files.

(** * Theorems *)

Section run_facts.
Context {A B : Type}.
Implicit Types (m : M A) (f : A → M B) (t : list Event).

Lemma M_bind_Return t (a : A) f : (t, Return a) ≫= f = (t ++ (f a).1, (f a).2).
Proof. unfold mbind, M_bind. by destruct (f a). Qed.

Lemma M_bind_Throw t (e : Error) f : (t, Throw e) ≫= f = (t, Throw e).
Proof. done. Qed.

Lemma M_bind_OutOfFuel t f : (t, OutOfFuel) ≫= f = (t, OutOfFuel).
Proof. done. Qed.

Lemma mret_bind (a : A) f : mret a ≫= f = f a.
Proof. unfold mret, M_ret. rewrite M_bind_Return. by destruct (f a). Qed.

Lemma lift_Ok_bind (a : A) f : lift (Ok a) ≫= f = f a.
Proof. apply mret_bind. Qed.

Lemma lift_Err_bind (e : Error) f : lift (Err e) ≫= f = ([], Throw e).
Proof. done. Qed.

(** The trace of a run is a prefix of the trace of what follows it. *)
Lemma bind_trace_prefix m f : m.1 `prefix_of` (m ≫= f).1.
Proof.
  destruct m as [t [a|e|]]; [|done..]. rewrite M_bind_Return. by apply prefix_app_r.
Qed.

Lemma bind_Return_inv m f t (b : B) :
  m ≫= f = (t, Return b) ↔
  ∃ t1 a t2, m = (t1, Return a) ∧ f a = (t2, Return b) ∧ t = t1 ++ t2.
Proof.
  destruct m as [t1 [a|e|]]; [rewrite M_bind_Return|rewrite M_bind_Throw|rewrite M_bind_OutOfFuel].
  - destruct (f a) as [t2 o] eqn:Hf. simpl. split.
    + intros [= <- ->]. by exists t1, a, t2.
    + intros (? & ? & ? & [= <- <-] & Hf' & ->). rewrite Hf in Hf'. by injection Hf' as <- <-.
  - split; [done|]. by intros (? & ? & ? & [=] & _).
  - split; [done|]. by intros (? & ? & ? & [=] & _).
Qed.

Lemma agree_bind m1 m2 (f1 f2 : A → M B) :
  agree m1 m2 → (∀ a, agree (f1 a) (f2 a)) → agree (m1 ≫= f1) (m2 ≫= f2).
Proof.
  intros [<- Hm] Hf. destruct m1 as [t [a|e|]]; [|done..].
  destruct (Hf a) as [Heq Ha]. rewrite !M_bind_Return, <- Heq. done.
Qed.

End run_facts.

Lemma emit_bind {B} (e : Event) (f : unit → M B) : emit e ≫= f = (e :: (f ()).1, (f ()).2).
Proof. unfold emit. by rewrite M_bind_Return. Qed.

Lemma agree_refl {A} (m : M A) : m.2 ≠ OutOfFuel → agree m m.
Proof. done. Qed.

Lemma agree_lift {A} (r : result A) : agree (lift r) (lift r).
Proof. by destruct r. Qed.

Lemma agree_mret {A} (a : A) : agree (mret a) (mret a).
Proof. done. Qed.

Lemma agree_emit (e : Event) : agree (emit e) (emit e).
Proof. done. Qed.

Lemma agree_foldRun {A B} (f1 f2 : B → A → M B) (b : B) (l : list A) :
  (∀ b x, x ∈ l → agree (f1 b x) (f2 b x)) → agree (foldRun f1 b l) (foldRun f2 b l).
Proof.
  revert b. induction l as [|x l IH]; intros b Hf; simpl; [done|].
  apply agree_bind; [apply Hf; left|]. intros b'. apply IH.
  intros ???. apply Hf. by right.
Qed.

#[export] Hint Resolve agree_lift agree_mret agree_emit : docgen.

Lemma M_bind_assoc {A B C} (m : M A) (f : A → M B) (g : B → M C) :
  (m ≫= f) ≫= g = m ≫= (λ a, f a ≫= g).
Proof.
  destruct m as [t [a|e|]]; [|done..]. rewrite !M_bind_Return.
  destruct (f a) as [t' [b|e|]]; cbn [fst snd];
    rewrite ?M_bind_Return, ?M_bind_Throw, ?M_bind_OutOfFuel; cbn [fst snd]; [|done..].
  by rewrite app_assoc.
Qed.

Lemma foldRun_cons {A B} (f : B → A → M B) (b : B) (x : A) (l : list A) :
  foldRun f b (x :: l) = f b x ≫= λ b, foldRun f b l.
Proof. done. Qed.

Lemma foldRun_app {A B} (f : B → A → M B) (b : B) (l k : list A) :
  foldRun f b (l ++ k) = foldRun f b l ≫= λ b, foldRun f b k.
Proof.
  revert b. induction l as [|x l IH]; intros b.
  - change (foldRun f b k = mret b ≫= λ b, foldRun f b k). by rewrite mret_bind.
  - rewrite <- app_comm_cons, !foldRun_cons, M_bind_assoc.
    destruct (f b x) as [t [b'|e|]]; [|done..]. by rewrite !M_bind_Return, IH.
Qed.

Lemma lift_Return_inv {A} (r : result A) (t : list Event) (a : A) :
  lift r = (t, Return a) ↔ r = Ok a ∧ t = [].
Proof. destruct r; simpl; split; (intros [= <- <-] || intros [[= <-] ->]); done. Qed.

Lemma lift_trace {A} (r : result A) : (lift r).1 = [].
Proof. by destruct r. Qed.

Lemma lift_not_OutOfFuel {A} (r : result A) : (lift r).2 ≠ OutOfFuel.
Proof. by destruct r. Qed.

Lemma emit_seq_Return {B} (e : Event) (k : M B) (t : list Event) (b : B) :
  (emit e;; k) = (t, Return b) ↔ ∃ t', k = (t', Return b) ∧ t = e :: t'.
Proof.
  rewrite emit_bind. destruct k as [t' o]. simpl. split.
  - intros [= <- ->]. by exists t'.
  - by intros (? & [= <- <-] & ->).
Qed.

(** ** Runs that return *)

Section returns_facts.
Context {A B : Type}.
Implicit Types (Q : A → Prop) (R : B → Prop) (m : M A).

Lemma returns_mret Q (a : A) : Q a → returns Q (mret a).
Proof. intros. by exists [], a. Qed.

Lemma returns_lift Q (r : result A) : ok_with Q r → returns Q (lift r).
Proof. intros (a & -> & Ha). by exists [], a. Qed.

Lemma returns_bind Q R m (f : A → M B) :
  returns Q m → (∀ a, Q a → returns R (f a)) → returns R (m ≫= f).
Proof.
  intros (t & a & -> & Ha) Hf. destruct (Hf a Ha) as (t' & b & Hb & ?).
  exists (t ++ t'), b. by rewrite M_bind_Return, Hb.
Qed.

Lemma returns_weaken Q (Q' : A → Prop) m : returns Q m → (∀ a, Q a → Q' a) → returns Q' m.
Proof. intros (t & a & -> & Ha) HQ. exists t, a. auto. Qed.

End returns_facts.

(** A loop with an invariant. *)
Lemma returns_foldRun {A B} (R : B → Prop) (f : B → A → M B) (b : B) (l : list A) :
  R b → (∀ b x, x ∈ l → R b → returns R (f b x)) → returns R (foldRun f b l).
Proof.
  revert b. induction l as [|x l IH]; intros b Hb Hf; [by apply returns_mret|].
  apply (returns_bind R); [apply Hf; [left|done]|].
  intros b' Hb'. apply IH; [done|]. intros ????. apply Hf; [by right|done].
Qed.

Lemma returns_emit (Q : unit → Prop) (e : Event) : Q () → returns Q (emit e).
Proof. intros. by exists [e], (). Qed.

(** ** Traces of runs *)

Section traced_facts.
Context (P : list Event → Prop) `{!Concatenable P}.

Lemma traced_mret {A} (a : A) : traced P (mret a).
Proof. apply concatenable_nil. Qed.

Lemma traced_lift {A} (r : result A) : traced P (lift r).
Proof. unfold traced. rewrite lift_trace. apply concatenable_nil. Qed.

Lemma traced_bind {A B} (m : M A) (f : A → M B) :
  traced P m → (∀ a, traced P (f a)) → traced P (m ≫= f).
Proof.
  unfold traced. intros Hm Hf. destruct m as [t [a|e|]]; [|done..].
  rewrite M_bind_Return. by apply concatenable_app, Hf.
Qed.

Lemma traced_foldRun {A B} (f : B → A → M B) (b : B) (l : list A) :
  (∀ b x, traced P (f b x)) → traced P (foldRun f b l).
Proof.
  intros Hf. revert b. induction l as [|x l IH]; intros b; [apply traced_mret|].
  by apply traced_bind.
Qed.

End traced_facts.

(** ** The files a run writes *)

Lemma written_app (t t' : list Event) : written (t ++ t') = written t ++ written t'.
Proof. apply omap_app. Qed.

Section writes_facts.
Context {A B : Type}.
Implicit Types (Q : A → Prop) (R : B → Prop) (m : M A) (files : list string).

Lemma writes_mret Q (a : A) : Q a → writes Q [] (mret a).
Proof. by intros Ha t a' [= <- <-]. Qed.

Lemma writes_lift (r : result A) : writes (λ _, True) [] (lift r).
Proof. by intros t a [_ ->]%lift_Return_inv. Qed.

Lemma writes_bind Q R m (f : A → M B) files files' :
  writes Q files m → (∀ a, Q a → writes R files' (f a)) →
  writes R (files ++ files') (m ≫= f).
Proof.
  intros Hm Hf t b (t1 & a & t2 & -> & Hfa & ->)%bind_Return_inv.
  destruct (Hm _ _ eq_refl) as [Ha <-]. destruct (Hf a Ha _ _ Hfa) as [Hb <-].
  by rewrite written_app.
Qed.

Lemma writes_weaken Q (Q' : A → Prop) m files files' :
  writes Q files m → (∀ a, Q a → Q' a) → files = files' → writes Q' files' m.
Proof. intros Hm HQ <- t a [? ?]%Hm. auto. Qed.

End writes_facts.

Lemma writes_emit (e : Event) : writes (λ _, True) (written [e]) (emit e).
Proof. by intros t a [= <-]. Qed.

(** A loop whose turns write the files of their elements. *)
Lemma writes_foldRun {A B} (f : B → A → M B) (g : A → list string) (b : B) (l : list A) :
  (∀ b x, x ∈ l → writes (λ _, True) (g x) (f b x)) →
  writes (λ _, True) (concat (g <$> l)) (foldRun f b l).
Proof.
  revert b. induction l as [|x l IH]; intros b Hf; [by apply writes_mret|].
  apply (writes_bind (λ _, True)); [apply Hf; left|].
  intros b' _. apply IH. intros ???. apply Hf. by right.
Qed.

Lemma writes_foldRun_nil {A B} (f : B → A → M B) (b : B) (l : list A) :
  (∀ b x, writes (λ _, True) [] (f b x)) → writes (λ _, True) [] (foldRun f b l).
Proof.
  intros Hf. revert b. induction l as [|x l IH]; intros b; [by apply writes_mret|].
  apply (writes_bind (λ _, True) _ _ _ [] []); auto.
Qed.

Section writes_steps.
Context {A B : Type}.
Implicit Types (R : B → Prop) (files : list string).

Lemma writes_Err R files (e : Error) : writes R files (@lift B (Err e)).
Proof. by intros t a [? _]%lift_Return_inv. Qed.

(** A builder operation writes nothing. *)
Lemma writes_lift_bind R files (r : result A) (f : A → M B) :
  (∀ a, writes R files (f a)) → writes R files (lift r ≫= f).
Proof.
  intros Hf. apply (writes_bind (λ _, True) _ _ _ [] files); [apply writes_lift|auto].
Qed.

Lemma writes_bind_lift (Q : A → Prop) files (m : M A) (g : A → result B) :
  writes Q files m → writes (λ _, True) files (m ≫= λ a, lift (g a)).
Proof.
  intros Hm. rewrite <- (app_nil_r files). apply (writes_bind Q); [done|].
  intros. apply writes_lift.
Qed.

Lemma writes_bind_mret (Q : A → Prop) R files (m : M A) (h : A → B) :
  writes Q files m → (∀ a, Q a → R (h a)) → writes R files (m ≫= λ a, mret (h a)).
Proof.
  intros Hm HR. rewrite <- (app_nil_r files). apply (writes_bind Q); [done|].
  intros. by apply writes_mret, HR.
Qed.

End writes_steps.
