(* ===== verification/Documenter.v ===== *)
(** * The page writer

    [_writeApiItemPage], the member tables that call it back
    ([_writeModelTable], [_writePackageOrNamespaceTables],
    [_writeClassTables], [_writeInterfaceTables]),
    [_getMembersAndWriteIncompleteWarning], [_deleteOldOutputFiles] and
    [generateFiles] of [HugoDocumenter] ([src/src/yaml/ISDPYamlFile.ts]).

    A run is a value of [M] (file [Run]): the trace of what the run did to
    the console and the file system, with its outcome.  The theorems of
    this file: the writer depends on its callee only where it calls it, the
    fuel is enough, and the index of the site is the last file of a run
    that returns. *)

From stdpp Require Import functions.
From S2P Require Import Prelude DocNodes ApiModel Utilities Resolver Builder Run.

(** ** The member tables *)

(** The tables of a package or namespace page, in the order the source
    creates them (lines 649-687). *)
Inductive ContainerTable : Type :=
| AbstractClassesTable | ClassesTable | EnumerationsTable | FunctionsTable
| InterfacesTable | NamespacesTable | VariablesTable | TypeAliasesTable.

#[export] Instance ContainerTable_eq_dec : EqDecision ContainerTable.
Proof. solve_decision. Defined.

(** The tables of a class or interface page (lines 816-834 and 949-962). *)
Inductive MemberTable : Type :=
| EventsTable | ConstructorsTable | PropertiesTable | MethodsTable.

#[export] Instance MemberTable_eq_dec : EqDecision MemberTable.
Proof. solve_decision. Defined.

(** The heading over a table (lines 770-807). *)
Definition containerTable_title (t : ContainerTable) : string :=
  match t with
  | AbstractClassesTable => "Abstract Classes" | ClassesTable => "Classes"
  | EnumerationsTable => "Enumerations" | FunctionsTable => "Functions"
  | InterfacesTable => "Interfaces" | NamespacesTable => "Namespaces"
  | VariablesTable => "Variables" | TypeAliasesTable => "Type Aliases"
  end.

(** The order in which a page shows its tables (lines 770-807). *)
Definition containerTable_order : list ContainerTable :=
  [ClassesTable; AbstractClassesTable; EnumerationsTable; FunctionsTable;
   InterfacesTable; NamespacesTable; VariablesTable; TypeAliasesTable].

(** The table a member of a package or namespace goes to (the [switch] of
    lines 728-767); [None] for a member that gets no row and no page. *)
Definition containerTable_of (apiMember : ApiItem) : option ContainerTable :=
  match Api.kind apiMember with
  | Class =>
      Some (if decide (Api.isAbstract apiMember = Some true)
            then AbstractClassesTable else ClassesTable)
  | Enum => Some EnumerationsTable
  | Interface => Some InterfacesTable
  | Namespace => Some NamespacesTable
  | Function => Some FunctionsTable
  | TypeAlias => Some TypeAliasesTable
  | Variable_ => Some VariablesTable
  | _ => None
  end.

Definition memberTable_title (t : MemberTable) : string :=
  match t with
  | EventsTable => "Events" | ConstructorsTable => "Constructors"
  | PropertiesTable => "Properties" | MethodsTable => "Methods"
  end.

(** The table a member of a class goes to (the [switch] of lines 839-888). *)
Definition classTable_of (apiMember : ApiItem) : option MemberTable :=
  match Api.kind apiMember with
  | Constructor => Some ConstructorsTable
  | Method => Some MethodsTable
  | Property => Some (if Api.isEventProperty apiMember then EventsTable else PropertiesTable)
  | _ => None
  end.

(** The table a member of an interface goes to (the [switch] of lines
    967-1004). *)
Definition interfaceTable_of (apiMember : ApiItem) : option MemberTable :=
  match Api.kind apiMember with
  | ConstructSignature | MethodSignature => Some MethodsTable
  | PropertySignature =>
      Some (if Api.isEventProperty apiMember then EventsTable else PropertiesTable)
  | _ => None
  end.

(** Appends the tables of [order] that have rows, each under its heading. *)
Definition appendTables {K} (configuration : TSDocConfiguration) (title : K → string)
    (tables : K → DocNode) (output : list DocNode) (order : list K) :
    result (list DocNode) :=
  foldM (λ output t, appendTable configuration output (title t) (tables t)) output order.

Section documenter.
Context `{Naming} (host : Host) (configuration : TSDocConfiguration) (_apiModel : ApiModel).
Context (_documenterConfig : option DocumenterConfig) (_outputFolder : string).
Context (markdownDocumenterFeature : option MarkdownDocumenterFeature).

Section tables.
(** The call [this._writeApiItemPage(apiMember)] of the tables. *)
Variable writePage : ApiItemRef → M unit.

(** The row of a member of the model, a package or a namespace (lines
    624-627 and 723-726). *)
Definition titleRow (apiMember : ApiItemRef) : result DocNode :=
  titleCell ← _createTitleCell configuration apiMember;
  descriptionCell ← _createDescriptionCell configuration apiMember false;
  Ok (newDocTableRow [titleCell; descriptionCell]).

(** One turn of the loop of [_writeModelTable] (lines 623-635). *)
Definition modelStep (packagesTable : DocNode) (apiMember : ApiItemRef) : M DocNode :=
  row ← lift (titleRow apiMember);
  match Api.kind apiMember with
  | Package => writePage apiMember;; mret (addRow packagesTable row)
  | _ => mret packagesTable
  end.

(** Lines 615-641. *)
Definition _writeModelTable (output : list DocNode) (apiModel : ApiItemRef) :
    M (list DocNode) :=
  packagesTable ← lift (newDocTable configuration ["Package"; "Description"]);
  packagesTable ← foldRun modelStep packagesTable (memberRefs apiModel);
  lift (appendTable configuration output "Packages" packagesTable).

(** One turn of the loop over the entry points of a package (lines
    695-708). *)
Definition entrypointStep (apiContainer : ApiItemRef) (entrypointsTable : DocNode)
    (entrypoint : ApiItemRef) : M DocNode :=
  let linkText :=
    Api.name apiContainer +:+
    (if decide (importPath entrypoint = "") then "" else "/" +:+ importPath entrypoint) in
  path ← lift (
    p ← newDocParagraph configuration
           [newDocLinkTag linkText (_getLinkFilenameForApiItem entrypoint)];
    newDocTableCell configuration [p]);
  writePage entrypoint;;
  mret (addRow entrypointsTable (newDocTableRow [path])).

(** Lines 689-715: the table of entry points, shown when a package has
    more than the default one. *)
Definition writeEntrypointsTable (output : list DocNode) (apiContainer : ApiItemRef) :
    M (list DocNode) :=
  entrypointsTable ← lift (newDocTable configuration ["Path"]);
  entrypointsTable ←
    foldRun (entrypointStep apiContainer) entrypointsTable (entryPoints apiContainer);
  if decide (1 < length (rows entrypointsTable))
  then lift (output ← appendNode configuration "Section" output (newDocHeading "Entrypoints");
             appendNode configuration "Section" output entrypointsTable)
  else mret output.

(** One turn of the loop over the members of a package or namespace (lines
    722-768). *)
Definition containerStep (tables : ContainerTable → DocNode) (apiMember : ApiItemRef) :
    M (ContainerTable → DocNode) :=
  row ← lift (titleRow apiMember);
  match containerTable_of apiMember with
  | Some t => writePage apiMember;; mret (<[t := addRow (tables t) row]> tables)
  | None => mret tables
  end.

(** The eight tables, empty (lines 649-687). *)
Definition newContainerTables : result (ContainerTable → DocNode) :=
  abstractClassesTable ← newDocTable configuration ["Abstract Class"; "Description"];
  classesTable ← newDocTable configuration ["Class"; "Description"];
  enumerationsTable ← newDocTable configuration ["Enumeration"; "Description"];
  functionsTable ← newDocTable configuration ["Function"; "Description"];
  interfacesTable ← newDocTable configuration ["Interface"; "Description"];
  namespacesTable ← newDocTable configuration ["Namespace"; "Description"];
  variablesTable ← newDocTable configuration ["Variable"; "Description"];
  typeAliasesTable ← newDocTable configuration ["Type Alias"; "Description"];
  Ok (λ t, match t with
           | AbstractClassesTable => abstractClassesTable
           | ClassesTable => classesTable
           | EnumerationsTable => enumerationsTable
           | FunctionsTable => functionsTable
           | InterfacesTable => interfacesTable
           | NamespacesTable => namespacesTable
           | VariablesTable => variablesTable
           | TypeAliasesTable => typeAliasesTable
           end).

(** Lines 646-808. *)
Definition _writePackageOrNamespaceTables (output : list DocNode)
    (apiContainer : ApiItemRef) : M (list DocNode) :=
  tables ← lift newContainerTables;
  output ←
    (if decide (Api.kind apiContainer = Package)
     then writeEntrypointsTable output apiContainer
     else mret output);
  let apiMembers :=
    if decide (Api.kind apiContainer = Package)
    then entryPoints apiContainer ≫= memberRefs
    else memberRefs apiContainer in
  tables ← foldRun containerStep tables apiMembers;
  lift (appendTables configuration containerTable_title tables output containerTable_order).

(** Lines 1360-1392: the members a class or interface page lists, with the
    advisory paragraph appended to [output] when the list may be
    incomplete. *)
Definition _getMembersAndWriteIncompleteWarning (apiClassOrInterface : ApiItemRef)
    (output : list DocNode) : M (list ApiItemRef * list DocNode) :=
  let showInheritedMembers := default false (_documenterConfig ≫= showInheritedMembers) in
  if negb showInheritedMembers then mret (memberRefs apiClassOrInterface, output)
  else
    let result := findMembersWithInheritance _apiModel apiClassOrInterface in
    output ←
      (if maybeIncompleteResult result
       then lift (
         p ← labelParagraph configuration false true
               "(Some inherited members may not be shown because they are not represented in the documentation.)";
         appendNode configuration "Section" output p)
       else mret output);
    foldRun (λ _ message,
        emit (Log ("Diagnostic message for findMembersWithInheritance: " +:+ message)))
      () (messages result);;
    mret (items result, output).

(** The row of a member of a class (lines 841-847, 853-859, 866-882): three
    cells for a constructor or method, four for a property. *)
Definition classRow (t : MemberTable) (apiMember : ApiItemRef) (isInherited : bool) :
    result DocNode :=
  titleCell ← _createTitleCell configuration apiMember;
  modifiersCell ← _createModifiersCell configuration apiMember;
  match t with
  | ConstructorsTable | MethodsTable =>
      descriptionCell ← _createDescriptionCell configuration apiMember isInherited;
      Ok (newDocTableRow [titleCell; modifiersCell; descriptionCell])
  | EventsTable | PropertiesTable =>
      typeCell ← _createPropertyTypeCell configuration _apiModel apiMember;
      descriptionCell ← _createDescriptionCell configuration apiMember isInherited;
      Ok (newDocTableRow [titleCell; modifiersCell; typeCell; descriptionCell])
  end.

(** The row of a member of an interface (lines 970-975, 982-998): two cells
    for a signature, four for a property. *)
Definition interfaceRow (t : MemberTable) (apiMember : ApiItemRef) (isInherited : bool) :
    result DocNode :=
  titleCell ← _createTitleCell configuration apiMember;
  match t with
  | ConstructorsTable | MethodsTable =>
      descriptionCell ← _createDescriptionCell configuration apiMember isInherited;
      Ok (newDocTableRow [titleCell; descriptionCell])
  | EventsTable | PropertiesTable =>
      modifiersCell ← _createModifiersCell configuration apiMember;
      typeCell ← _createPropertyTypeCell configuration _apiModel apiMember;
      descriptionCell ← _createDescriptionCell configuration apiMember isInherited;
      Ok (newDocTableRow [titleCell; modifiersCell; typeCell; descriptionCell])
  end.

(** One turn of the loops over the members of a class or interface (lines
    837-889 and 965-1005): [table_of] is the [switch], [row] the cells. *)
Definition memberStep (table_of : ApiItem → option MemberTable)
    (row : MemberTable → ApiItemRef → bool → result DocNode)
    (apiClassOrInterface : ApiItemRef) (tables : MemberTable → DocNode)
    (apiMember : ApiItemRef) : M (MemberTable → DocNode) :=
  let isInherited := bool_decide (parent apiMember ≠ Some apiClassOrInterface) in
  match table_of apiMember with
  | Some t =>
      row ← lift (row t apiMember isInherited);
      writePage apiMember;;
      mret (<[t := addRow (tables t) row]> tables)
  | None => mret tables
  end.

(** Lines 813-910. *)
Definition _writeClassTables (output : list DocNode) (apiClass : ApiItemRef) :
    M (list DocNode) :=
  tables ← lift (
    eventsTable ← newDocTable configuration ["Property"; "Modifiers"; "Type"; "Description"];
    constructorsTable ← newDocTable configuration ["Constructor"; "Modifiers"; "Description"];
    propertiesTable ←
      newDocTable configuration ["Property"; "Modifiers"; "Type"; "Description"];
    methodsTable ← newDocTable configuration ["Method"; "Modifiers"; "Description"];
    Ok (λ t, match t with
             | EventsTable => eventsTable | ConstructorsTable => constructorsTable
             | PropertiesTable => propertiesTable | MethodsTable => methodsTable
             end));
  '(apiMembers, output) ← _getMembersAndWriteIncompleteWarning apiClass output;
  tables ← foldRun (memberStep classTable_of classRow apiClass) tables apiMembers;
  lift (appendTables configuration memberTable_title tables output
          [EventsTable; ConstructorsTable; PropertiesTable; MethodsTable]).

(** Lines 946-1021. *)
Definition _writeInterfaceTables (output : list DocNode) (apiInterface : ApiItemRef) :
    M (list DocNode) :=
  tables ← lift (
    eventsTable ← newDocTable configuration ["Property"; "Modifiers"; "Type"; "Description"];
    propertiesTable ←
      newDocTable configuration ["Property"; "Modifiers"; "Type"; "Description"];
    methodsTable ← newDocTable configuration ["Method"; "Description"];
    Ok (λ t, match t with
             | EventsTable => eventsTable | PropertiesTable => propertiesTable
             | ConstructorsTable | MethodsTable => methodsTable
             end));
  '(apiMembers, output) ← _getMembersAndWriteIncompleteWarning apiInterface output;
  tables ← foldRun (memberStep interfaceTable_of interfaceRow apiInterface) tables apiMembers;
  lift (appendTables configuration memberTable_title tables output
          [EventsTable; PropertiesTable; MethodsTable]).

(** ** The page of an item *)

Definition titled (title : string) : FrontMatter :=
  {| title := title; menu_main_weight := None |}.

(** The first [switch] of [_writeApiItemPage] (lines 259-315): the front
    matter of the page; [None] when no page is written for the item. *)
Definition pageFrontMatter (apiItem : ApiItemRef) : M (option FrontMatter) :=
  let scopedName := getScopedNameWithinPackage apiItem in
  match Api.kind apiItem with
  | Class => mret (Some (titled (scopedName +:+ " class")))
  | EntryPoint =>
      if decide (importPath apiItem = "") then mret None
      else match parent apiItem with
           | Some package =>
               let unscopedPackageName := getUnscopedName (Api.displayName package) in
               mret (Some (titled (unscopedPackageName +:+ "/" +:+ Api.displayName apiItem
                                   +:+ " entrypoint")))
           | None => lift (Err (TypeError "displayName"))
           end
  | Enum => mret (Some (titled (scopedName +:+ " enum")))
  | Interface => mret (Some (titled (scopedName +:+ " interface")))
  | Constructor | ConstructSignature => mret (Some (titled scopedName))
  | Method | MethodSignature => mret (Some (titled (scopedName +:+ " method")))
  | Function => mret (Some (titled (scopedName +:+ " function")))
  | Model => mret (Some {| title := "API Reference"; menu_main_weight := Some 20 |})
  | Namespace => mret (Some (titled (scopedName +:+ " namespace")))
  | Package =>
      emit (Log ("Writing " +:+ Api.displayName apiItem +:+ " package"));;
      mret (Some (titled (getUnscopedName (Api.displayName apiItem) +:+ " package")))
  | Property | PropertySignature => mret (Some (titled (scopedName +:+ " property")))
  | TypeAlias => mret (Some (titled (scopedName +:+ " type")))
  | Variable_ => mret (Some (titled (scopedName +:+ " variable")))
  | _ => lift (Err (UnsupportedKindError (ApiItemKind_tag (Api.kind apiItem))))
  end.

(** The deprecation box and the summary (lines 337-351). *)
Definition writeComment (output : list DocNode) (tsdocComment : DocComment) :
    result (list DocNode) :=
  output ←
    match deprecatedBlock tsdocComment with
    | Some deprecatedBlock =>
        p ← newDocParagraph configuration
               [DocPlainText "Warning: This API is now obsolete. "];
        box ← newDocNoteBox configuration (p :: content deprecatedBlock);
        appendNode configuration "Section" output box
    | None => Ok output
    end;
  _appendSection configuration output (summarySection tsdocComment).

(** The signature and the heritage of a declared item (lines 355-374). *)
Definition writeDeclaration (output : list DocNode) (apiItem : ApiItemRef)
    (excerptTokens : list ExcerptToken) : result (list DocNode) :=
  output ←
    (if decide (0 < String.length (Excerpt_text {| spannedTokens := excerptTokens |}))
     then
       label ← labelParagraph configuration true false "Signature:";
       output ← appendNode configuration "Section" output label;
       appendNode configuration "Section" output
         (DocFencedCode "typescript" (Api.excerptWithModifiers apiItem))
     else Ok output);
  _writeHeritageTypes configuration _apiModel output apiItem.

(** The decorators (lines 376-387). *)
Definition writeDecorators (output : list DocNode) (decoratorBlocks : list DocBlock) :
    result (list DocNode) :=
  if decide (0 < length decoratorBlocks)
  then
    label ← labelParagraph configuration true false "Decorators:";
    output ← appendNode configuration "Section" output label;
    foldM (λ output decoratorBlock,
             appendNodes configuration "Section" output (content decoratorBlock))
      output decoratorBlocks
  else Ok output.

(** The kinds whose remarks come before their tables (lines 390-398). *)
Definition remarksFirst (k : ApiItemKind) : bool :=
  match k with
  | Class | Interface | Namespace | Package => true
  | _ => false
  end.

(** The page down to the tables (lines 317-398). *)
Definition pageHeader (apiItem : ApiItemRef) : result (list DocNode) :=
  let output := [] in
  output ←
    match Api.releaseTag apiItem with
    | Some Alpha => _writeAlphaWarning configuration output
    | Some Beta => _writeBetaWarning configuration output
    | _ => Ok output
    end;
  let decoratorBlocks :=
    from_option (blocksWithTag StandardTags_decorator) [] (Api.tsdocComment apiItem) in
  output ← from_option (writeComment output) (Ok output) (Api.tsdocComment apiItem);
  output ←
    from_option (writeDeclaration output apiItem) (Ok output) (Api.excerptTokens apiItem);
  output ← writeDecorators output decoratorBlocks;
  if remarksFirst (Api.kind apiItem)
  then _writeRemarksSection configuration output apiItem
  else Ok output.

(** The second [switch] (lines 400-440): the tables of the page; the pages
    of the members are written from here. *)
Definition pageTables (output : list DocNode) (apiItem : ApiItemRef) : M (list DocNode) :=
  match Api.kind apiItem with
  | Class => _writeClassTables output apiItem
  | Enum => lift (_writeEnumTables configuration output apiItem)
  | Interface => _writeInterfaceTables output apiItem
  | Constructor | ConstructSignature | Method | MethodSignature | Function =>
      lift (output ← _writeParameterTables configuration _apiModel output apiItem;
            _writeThrowsSection configuration output apiItem)
  | Namespace | Package => _writePackageOrNamespaceTables output apiItem
  | Model => _writeModelTable output apiItem
  | EntryPoint =>
      lift (appendNodeInParagraph configuration output (DocPlainText
        "TODO: Please reference the root entrypoint which contains links to elements from all entrypoints"))
  | Property | PropertySignature | TypeAlias | Variable_ => mret output
  | _ => lift (Err (UnsupportedKindError (ApiItemKind_tag (Api.kind apiItem))))
  end.

(** The end of [_writeApiItemPage] (lines 442-474): the late remarks, the
    emitter, the plugin and the file. *)
Definition writeOutput (output : list DocNode) (frontMatter : FrontMatter)
    (apiItem : ApiItemRef) : M unit :=
  output ←
    lift (if remarksFirst (Api.kind apiItem) then Ok output
          else _writeRemarksSection configuration output apiItem);
  let filename := path_join host _outputFolder (_getFilenameForApiItem apiItem) in
  pageContent ← lift (emitWithFrontMatter host (DocSection output) frontMatter apiItem
                        _getLinkFilenameForApiItem);
  let pageContent :=
    match markdownDocumenterFeature with
    | Some feature => onBeforeWritePage feature apiItem filename pageContent
    | None => pageContent
    end in
  emit (EnsureFolder (path_dirname host filename));;
  emit (WriteFile filename pageContent
          (from_option newlineKind CrLf _documenterConfig)).

(** The body of [_writeApiItemPage] (lines 254-475). *)
Definition writePageBody (apiItem : ApiItemRef) : M unit :=
  frontMatter ← pageFrontMatter apiItem;
  match frontMatter with
  | None => mret ()
  | Some frontMatter =>
      output ← lift (pageHeader apiItem);
      output ← pageTables output apiItem;
      writeOutput output frontMatter apiItem
  end.

End tables.

(** Lines 254-475.  The calls from the tables are calls with less fuel. *)
Fixpoint _writeApiItemPage (fuel : nat) (apiItem : ApiItemRef) : M unit :=
  match fuel with
  | 0 => ([], OutOfFuel)
  | S fuel => writePageBody (_writeApiItemPage fuel) apiItem
  end.

End documenter.

(** ** The run *)

Section run.
Context `{Naming} (host : Host) (configuration : TSDocConfiguration) (_apiModel : ApiModel).
Context (_documenterConfig : option DocumenterConfig) (_outputFolder : string).

(** Lines 1445-1448. *)
Definition _deleteOldOutputFiles : M unit :=
  emit (Log ("Deleting old output from " +:+ _outputFolder));;
  emit (EnsureEmptyFolder _outputFolder).

(** The fuel of a run: the tables recurse into members, and the members a
    class inherits are leaves. *)
Definition run_fuel : nat := S (item_height (root _apiModel)).

(** The plugin [this._pluginLoader.load] leaves in the loader (lines
    230-242): none without a configuration. *)
Definition loadedFeature : option MarkdownDocumenterFeature :=
  _documenterConfig ≫= pluginLoader_load host.

(** Lines 229-252. *)
Definition generateFiles : M unit :=
  let markdownDocumenterFeature := loadedFeature in
  emit (Log "");;
  _deleteOldOutputFiles;;
  _writeApiItemPage host configuration _apiModel _documenterConfig _outputFolder
    markdownDocumenterFeature run_fuel (rootRef (root _apiModel));;
  match markdownDocumenterFeature with
  | Some _ => emit OnFinished
  | None => mret ()
  end.

End run.

(** The members a page can reach in one call: the members of the item and
    their members (a package lists the members of its entry points). *)
Definition below (apiItem m : ApiItemRef) : Prop :=
  m ∈ memberRefs apiItem ∨ m ∈ (memberRefs apiItem ≫= memberRefs).

(** The kinds whose pages have no member tables. *)
Definition leaf_kind (k : ApiItemKind) : bool :=
  match k with
  | Model | Package | Namespace | Class | Interface => false
  | _ => true
  end.

(** * Theorems *)

(** One step of a proof that two runs agree. *)
Ltac agree_step :=
  match goal with
  | |- agree (mbind _ _) (mbind _ _) => apply agree_bind; [|intros ?]
  | |- agree (lift _) (lift _) => apply agree_lift
  | |- agree (mret _) (mret _) => apply agree_mret
  | |- agree (emit _) (emit _) => apply agree_emit
  | |- agree (foldRun _ _ _) (foldRun _ _ _) => apply agree_foldRun; intros ? ? ?
  | |- agree (match ?x with _ => _ end) (match ?x with _ => _ end) => destruct x eqn:?
  | |- agree (let '(_, _) := ?x in _) _ => destruct x
  end.

Ltac agree_tac := repeat agree_step; eauto with docgen.

(** ** The page writer depends on its callee only where it calls it *)

Section agreement.
Context `{Naming} (host : Host) (configuration : TSDocConfiguration) (_apiModel : ApiModel).
Context (_documenterConfig : option DocumenterConfig) (_outputFolder : string).
Context (markdownDocumenterFeature : option MarkdownDocumenterFeature).
Context (wp1 wp2 : ApiItemRef → M unit).
Implicit Types (apiItem m : ApiItemRef) (output : list DocNode).

Lemma agree__writeModelTable output apiItem :
  (∀ m, m ∈ memberRefs apiItem → agree (wp1 m) (wp2 m)) →
  agree (_writeModelTable configuration wp1 output apiItem)
        (_writeModelTable configuration wp2 output apiItem).
Proof. intros Hwp. unfold _writeModelTable, modelStep. agree_tac. Qed.

Lemma agree_writeEntrypointsTable output apiItem :
  (∀ m, m ∈ memberRefs apiItem → agree (wp1 m) (wp2 m)) →
  agree (writeEntrypointsTable configuration wp1 output apiItem)
        (writeEntrypointsTable configuration wp2 output apiItem).
Proof. intros Hwp. unfold writeEntrypointsTable, entrypointStep. agree_tac. Qed.

Lemma agree__writePackageOrNamespaceTables output apiItem :
  (∀ m, below apiItem m → agree (wp1 m) (wp2 m)) →
  agree (_writePackageOrNamespaceTables configuration wp1 output apiItem)
        (_writePackageOrNamespaceTables configuration wp2 output apiItem).
Proof.
  intros Hwp. unfold _writePackageOrNamespaceTables, containerStep.
  agree_tac; try (apply agree_writeEntrypointsTable; intros; apply Hwp; by left);
    apply Hwp; unfold below, entryPoints in *; try case_decide; auto.
Qed.

Lemma agree__getMembersAndWriteIncompleteWarning output apiItem :
  agree (_getMembersAndWriteIncompleteWarning configuration _apiModel _documenterConfig
           apiItem output)
        (_getMembersAndWriteIncompleteWarning configuration _apiModel _documenterConfig
           apiItem output).
Proof. unfold _getMembersAndWriteIncompleteWarning. agree_tac. Qed.

Lemma agree_memberStep table_of row apiItem (tables : MemberTable → DocNode) m :
  (is_Some (table_of (self m)) → agree (wp1 m) (wp2 m)) →
  agree (memberStep wp1 table_of row apiItem tables m)
        (memberStep wp2 table_of row apiItem tables m).
Proof. intros Hwp. unfold memberStep. agree_tac. Qed.

Lemma classTable_of_leaf (i : ApiItem) :
  is_Some (classTable_of i) → leaf_kind (Api.kind i) = true.
Proof. unfold classTable_of. destruct (Api.kind i); by intros [? ?]. Qed.

Lemma interfaceTable_of_leaf (i : ApiItem) :
  is_Some (interfaceTable_of i) → leaf_kind (Api.kind i) = true.
Proof. unfold interfaceTable_of. destruct (Api.kind i); by intros [? ?]. Qed.

Lemma agree__writeClassTables output apiItem :
  (∀ m, leaf_kind (Api.kind m) = true → agree (wp1 m) (wp2 m)) →
  agree (_writeClassTables configuration _apiModel _documenterConfig wp1 output apiItem)
        (_writeClassTables configuration _apiModel _documenterConfig wp2 output apiItem).
Proof.
  intros Hwp. unfold _writeClassTables.
  agree_tac; [apply agree__getMembersAndWriteIncompleteWarning|].
  apply agree_memberStep. eauto using classTable_of_leaf.
Qed.

Lemma agree__writeInterfaceTables output apiItem :
  (∀ m, leaf_kind (Api.kind m) = true → agree (wp1 m) (wp2 m)) →
  agree (_writeInterfaceTables configuration _apiModel _documenterConfig wp1 output apiItem)
        (_writeInterfaceTables configuration _apiModel _documenterConfig wp2 output apiItem).
Proof.
  intros Hwp. unfold _writeInterfaceTables.
  agree_tac; [apply agree__getMembersAndWriteIncompleteWarning|].
  apply agree_memberStep. eauto using interfaceTable_of_leaf.
Qed.

Lemma agree_pageTables output apiItem :
  (leaf_kind (Api.kind apiItem) = false → ∀ m, below apiItem m → agree (wp1 m) (wp2 m)) →
  (leaf_kind (Api.kind apiItem) = false →
   ∀ m, leaf_kind (Api.kind m) = true → agree (wp1 m) (wp2 m)) →
  agree (pageTables configuration _apiModel _documenterConfig wp1 output apiItem)
        (pageTables configuration _apiModel _documenterConfig wp2 output apiItem).
Proof.
  intros Hb Hl. unfold pageTables, leaf_kind in *.
  destruct (Api.kind apiItem); auto with docgen;
    auto using agree__writeClassTables, agree__writeInterfaceTables,
      agree__writePackageOrNamespaceTables.
  apply agree__writeModelTable. intros m Hm. apply Hb; [done|by left].
Qed.

Lemma agree_pageFrontMatter apiItem :
  agree (pageFrontMatter apiItem) (pageFrontMatter apiItem).
Proof. unfold pageFrontMatter. destruct (Api.kind apiItem); agree_tac. Qed.

Lemma agree_writeOutput output frontMatter apiItem :
  agree (writeOutput host configuration _documenterConfig _outputFolder
           markdownDocumenterFeature output frontMatter apiItem)
        (writeOutput host configuration _documenterConfig _outputFolder
           markdownDocumenterFeature output frontMatter apiItem).
Proof. unfold writeOutput. agree_tac. Qed.

Lemma agree_writePageBody apiItem :
  (leaf_kind (Api.kind apiItem) = false → ∀ m, below apiItem m → agree (wp1 m) (wp2 m)) →
  (leaf_kind (Api.kind apiItem) = false →
   ∀ m, leaf_kind (Api.kind m) = true → agree (wp1 m) (wp2 m)) →
  agree (writePageBody host configuration _apiModel _documenterConfig _outputFolder
           markdownDocumenterFeature wp1 apiItem)
        (writePageBody host configuration _apiModel _documenterConfig _outputFolder
           markdownDocumenterFeature wp2 apiItem).
Proof.
  intros Hb Hl. unfold writePageBody.
  agree_tac; auto using agree_pageFrontMatter, agree_pageTables, agree_writeOutput.
Qed.

End agreement.

(** ** Fuel *)

Section fuel.
Context `{Naming} (host : Host) (configuration : TSDocConfiguration) (_apiModel : ApiModel).
Context (_documenterConfig : option DocumenterConfig) (_outputFolder : string).
Context (markdownDocumenterFeature : option MarkdownDocumenterFeature).
Implicit Types (apiItem m : ApiItemRef).

Local Notation "'W'" := (_writeApiItemPage host configuration _apiModel _documenterConfig
                           _outputFolder markdownDocumenterFeature).

Lemma below_height apiItem m : below apiItem m → S (item_height m) < S (item_height apiItem).
Proof.
  assert (∀ r x : ApiItemRef, x ∈ memberRefs r → item_height x < item_height r) as Hm.
  { intros r x (y & -> & Hy)%list_elem_of_fmap. by apply item_height_member. }
  intros [?|(y & ? & ?)%list_elem_of_bind].
  - apply Hm in H0. lia.
  - apply Hm in H0, H1. lia.
Qed.

(** A page written with enough fuel is written the same with more, and
    does not run out: enough is more than the height of the item, or
    anything at all for an item without member tables. *)
Lemma _writeApiItemPage_agree (n n' : nat) apiItem :
  item_height apiItem < n ∨ (leaf_kind (Api.kind apiItem) = true ∧ 0 < n) →
  n ≤ n' → agree (W n' apiItem) (W n apiItem).
Proof.
  revert n' apiItem. induction n as [|n IH]; intros n' apiItem Hn Hle; [lia|].
  destruct n' as [|n']; [lia|]. simpl. apply agree_writePageBody.
  - intros Hk m Hm%below_height. apply IH; [|lia]. destruct Hn as [?|[? _]]; [left; lia|congruence].
  - intros Hk m Hm. apply IH; [|lia]. right. split; [done|].
    destruct Hn as [?|[? _]]; [|congruence]. pose proof (item_height_pos apiItem). lia.
Qed.

(** C8: fuel above the height of the item is enough: a page written with
    it is the page written with any larger amount, and the writer does not
    stop for lack of fuel; so the recursion through the member tables
    terminates on every item tree. *)
Theorem _writeApiItemPage_enough_fuel (fuel : nat) apiItem :
  item_height apiItem < fuel →
  _writeApiItemPage host configuration _apiModel _documenterConfig _outputFolder
    markdownDocumenterFeature fuel apiItem =
  _writeApiItemPage host configuration _apiModel _documenterConfig _outputFolder
    markdownDocumenterFeature (S (item_height apiItem)) apiItem ∧
  (_writeApiItemPage host configuration _apiModel _documenterConfig _outputFolder
     markdownDocumenterFeature fuel apiItem).2 ≠ OutOfFuel.
Proof.
  intros Hfuel.
  destruct (_writeApiItemPage_agree (S (item_height apiItem)) fuel apiItem) as [-> ?];
    [left|..]; done || lia.
Qed.

(** C25: no page is written for the default entry point of a package: the
    writer returns at once, and nothing is logged or written. *)
Theorem _writeApiItemPage_default_entry_point (fuel : nat) apiItem :
  Api.kind apiItem = EntryPoint → importPath apiItem = "" →
  _writeApiItemPage host configuration _apiModel _documenterConfig _outputFolder
    markdownDocumenterFeature (S fuel) apiItem = ([], Return ()).
Proof.
  intros Hk Hp. simpl. unfold writePageBody, pageFrontMatter.
  rewrite Hk, decide_True by done. by rewrite mret_bind.
Qed.

(** C26: an item of a kind that has no page (an enum member, a call or
    index signature, no kind) makes the writer throw before anything is
    logged or written. *)
Theorem _writeApiItemPage_unsupported (fuel : nat) apiItem :
  Api.kind apiItem ∈ [CallSignature; EnumMember; IndexSignature; None_] →
  _writeApiItemPage host configuration _apiModel _documenterConfig _outputFolder
    markdownDocumenterFeature (S fuel) apiItem =
  ([], Throw (UnsupportedKindError (ApiItemKind_tag (Api.kind apiItem)))).
Proof.
  intros Hk. simpl. unfold writePageBody, pageFrontMatter.
  by repeat (apply elem_of_cons in Hk as [->|Hk]); [..|by apply elem_of_nil in Hk].
Qed.

(** The file of an item. *)
Local Notation "'page_file' r" :=
  (path_join host _outputFolder (_getFilenameForApiItem r)) (at level 10, r at level 9).

Lemma writeOutput_Return output frontMatter apiItem (t : list Event) :
  writeOutput host configuration _documenterConfig _outputFolder markdownDocumenterFeature
    output frontMatter apiItem = (t, Return ()) →
  ∃ contents, t = [EnsureFolder (path_dirname host (page_file apiItem));
                   WriteFile (page_file apiItem) contents
                     (from_option newlineKind CrLf _documenterConfig)].
Proof.
  unfold writeOutput.
  intros (t1 & o & t2 & [_ ->]%lift_Return_inv & Hk & ->)%bind_Return_inv.
  apply bind_Return_inv in Hk as (t1 & c & t3 & [_ ->]%lift_Return_inv & Hk & ->).
  apply emit_seq_Return in Hk as (t4 & [= <-] & ->). eauto.
Qed.

(** A page that is written is written last: when the writer returns for
    an item that has a page, the run ends with the folder of the file of the
    item ensured and the file written, after the pages of the members. *)
Lemma _writeApiItemPage_writes_last (fuel : nat) apiItem (t : list Event) :
  W fuel apiItem = (t, Return ()) →
  ¬ (Api.kind apiItem = EntryPoint ∧ importPath apiItem = "") →
  ∃ t' contents,
    t = t' ++ [EnsureFolder (path_dirname host (page_file apiItem));
               WriteFile (page_file apiItem) contents
                 (from_option newlineKind CrLf _documenterConfig)].
Proof.
  destruct fuel as [|fuel]; [done|]. simpl. unfold writePageBody.
  intros (t1 & fm & t2 & Hfm & Hk & ->)%bind_Return_inv Hdef.
  destruct fm as [fm|].
  - apply bind_Return_inv in Hk as (t3 & o & t4 & _ & Hk & ->).
    apply bind_Return_inv in Hk as (t5 & o' & t6 & _ & Hk & ->).
    apply writeOutput_Return in Hk as (c & ->). exists (t1 ++ t3 ++ t5), c.
    by rewrite <- !app_assoc.
  - exfalso. unfold pageFrontMatter in Hfm.
    destruct (Api.kind apiItem) eqn:Hkind; try done.
    case_decide; [by apply Hdef|]. by destruct (parent apiItem).
Qed.

End fuel.

(** ** The run *)

Section run_facts.
Context `{Naming} (host : Host) (configuration : TSDocConfiguration) (_apiModel : ApiModel).
Context (_documenterConfig : option DocumenterConfig) (_outputFolder : string).

Local Notation "'generate'" :=
  (generateFiles host configuration _apiModel _documenterConfig _outputFolder).

(** What every run starts with. *)
Definition run_start : list Event :=
  [Log ""; Log ("Deleting old output from " +:+ _outputFolder);
   EnsureEmptyFolder _outputFolder].

Lemma generateFiles_unfold :
  generate =
  (run_start ++
   (_writeApiItemPage host configuration _apiModel _documenterConfig _outputFolder
      (loadedFeature host _documenterConfig) (run_fuel _apiModel)
      (rootRef (root _apiModel));;
    match loadedFeature host _documenterConfig with
    | Some _ => emit OnFinished
    | None => mret ()
    end).1,
   (_writeApiItemPage host configuration _apiModel _documenterConfig _outputFolder
      (loadedFeature host _documenterConfig) (run_fuel _apiModel)
      (rootRef (root _apiModel));;
    match loadedFeature host _documenterConfig with
    | Some _ => emit OnFinished
    | None => mret ()
    end).2).
Proof.
  unfold generateFiles, _deleteOldOutputFiles.
  by rewrite emit_bind, M_bind_assoc, !emit_bind.
Qed.

(** C9: a run never stops for lack of fuel: the fuel [generateFiles]
    starts the writer with is enough for the whole tree of the model. *)
Theorem generateFiles_enough_fuel :
  (generateFiles host configuration _apiModel _documenterConfig _outputFolder).2 ≠ OutOfFuel.
Proof.
  rewrite generateFiles_unfold. cbn [snd].
  destruct (_writeApiItemPage_agree host configuration _apiModel _documenterConfig
    _outputFolder (loadedFeature host _documenterConfig) (run_fuel _apiModel)
    (run_fuel _apiModel) (rootRef (root _apiModel))) as [_ Hfuel];
    [left; unfold run_fuel; simpl; lia|done|].
  destruct (_writeApiItemPage _ _ _ _ _ _ _ _) as [t [[]|e|]]; [|done..].
  rewrite M_bind_Return. by destruct (loadedFeature _ _).
Qed.

(** C13: a run that returns wrote the index of the site last: its trace is
    the start of a run, the pages of the packages and their members, then
    the folder and the file [_index.md] of the model, and the call of the
    plugin's [onFinished] when a plugin is loaded. *)
Theorem generateFiles_Return (t : list Event) :
  Api.kind (root _apiModel) = Model → generateFiles host configuration _apiModel _documenterConfig _outputFolder = (t, Return ()) →
  ∃ pages contents,
    t = run_start ++ pages ++
        [EnsureFolder (path_dirname host (path_join host _outputFolder "_index.md"));
         WriteFile (path_join host _outputFolder "_index.md") contents
           (from_option newlineKind CrLf _documenterConfig)] ++
        (if loadedFeature host _documenterConfig is Some _ then [OnFinished] else []).
Proof.
  intros Hroot. rewrite generateFiles_unfold.
  destruct (_ ≫= _) as [tk ok] eqn:Hk. simpl. intros [= <- ->].
  apply bind_Return_inv in Hk as (t1 & [] & t2 & Hw & Hfin & ->).
  apply _writeApiItemPage_writes_last in Hw as (pages & contents & ->);
    [|simpl; by rewrite Hroot; intros [? _]].
  exists pages, contents. f_equal. rewrite <- app_assoc. f_equal.
  unfold _getFilenameForApiItem. simpl. rewrite decide_True by done. f_equal.
  destruct (loadedFeature _ _); by injection Hfin as <-.
Qed.

End run_facts.
