(* ===== verification/Pages.v ===== *)
(** * What a run writes

    The specification of the pages of a run ([called], [pages_fuel],
    [pages_of]) and of its traces ([page_trace]), and the theorems that the
    page writer and [generateFiles] of file [Documenter] meet it: what a
    run does to the file system however it ends, and which files it has
    written, in which order, when it returns. *)

From S2P Require Import Prelude DocNodes ApiModel Utilities Resolver Builder Run Documenter.

(** The traces of the page writer: messages on the console, and files of
    pages of items, each written under the output folder, right after its
    folder is ensured, with the line ending of the configuration (CRLF
    without one). *)
Inductive page_trace `{Naming} (host : Host) (_documenterConfig : option DocumenterConfig)
    (_outputFolder : string) : list Event → Prop :=
| page_trace_nil : page_trace host _documenterConfig _outputFolder []
| page_trace_Log message t :
    page_trace host _documenterConfig _outputFolder t →
    page_trace host _documenterConfig _outputFolder (Log message :: t)
| page_trace_write (apiItem : ApiItemRef) contents t :
    page_trace host _documenterConfig _outputFolder t →
    page_trace host _documenterConfig _outputFolder
      (EnsureFolder
         (path_dirname host (path_join host _outputFolder (_getFilenameForApiItem apiItem)))
       :: WriteFile (path_join host _outputFolder (_getFilenameForApiItem apiItem)) contents
            (from_option newlineKind CrLf _documenterConfig)
       :: t).

(** ** The pages of a run *)

(** The members a class or interface page lists, in order. *)
Definition listed_members (_apiModel : ApiModel)
    (_documenterConfig : option DocumenterConfig) (apiClassOrInterface : ApiItemRef) :
    list ApiItemRef :=
  if default false (_documenterConfig ≫= showInheritedMembers)
  then items (findMembersWithInheritance _apiModel apiClassOrInterface)
  else memberRefs apiClassOrInterface.

(** The pages the writer of the page of [apiItem] asks for, in order. *)
Definition called (_apiModel : ApiModel) (_documenterConfig : option DocumenterConfig)
    (apiItem : ApiItemRef) : list ApiItemRef :=
  match Api.kind apiItem with
  | Model => filter (λ m : ApiItemRef, Api.kind m = Package) (memberRefs apiItem)
  | Package =>
      entryPoints apiItem ++
      filter (λ m : ApiItemRef, is_Some (containerTable_of m))
        (entryPoints apiItem ≫= memberRefs)
  | Namespace =>
      filter (λ m : ApiItemRef, is_Some (containerTable_of m)) (memberRefs apiItem)
  | Class =>
      filter (λ m : ApiItemRef, is_Some (classTable_of m))
        (listed_members _apiModel _documenterConfig apiItem)
  | Interface =>
      filter (λ m : ApiItemRef, is_Some (interfaceTable_of m))
        (listed_members _apiModel _documenterConfig apiItem)
  | _ => []
  end.

(** The items whose pages a call of the writer writes, in the order of
    their files: the pages of the members before the page that lists them,
    and none for a default entry point.  [fuel] bounds the depth, as in the
    writer. *)
Fixpoint pages_fuel (_apiModel : ApiModel) (_documenterConfig : option DocumenterConfig)
    (fuel : nat) (apiItem : ApiItemRef) : list ApiItemRef :=
  match fuel with
  | 0 => []
  | S fuel =>
      if decide (Api.kind apiItem = EntryPoint ∧ importPath apiItem = "") then []
      else concat (pages_fuel _apiModel _documenterConfig fuel
                     <$> called _apiModel _documenterConfig apiItem) ++ [apiItem]
  end.

(** A page the writer of the page of [apiItem] asks for. *)
Definition calls (_apiModel : ApiModel) (_documenterConfig : option DocumenterConfig)
    (apiItem m : ApiItemRef) : Prop :=
  m ∈ called _apiModel _documenterConfig apiItem.

(** A member a class or interface page lists. *)
Definition listed (_apiModel : ApiModel) (_documenterConfig : option DocumenterConfig)
    (apiClassOrInterface m : ApiItemRef) : Prop :=
  m ∈ listed_members _apiModel _documenterConfig apiClassOrInterface.

(** The pages of a run. *)
Definition pages_of (_apiModel : ApiModel) (_documenterConfig : option DocumenterConfig) :
    list ApiItemRef :=
  pages_fuel _apiModel _documenterConfig (run_fuel _apiModel) (rootRef (root _apiModel)).

(** * Theorems *)

(** ** The pages a page asks for *)

Section calls_facts.
Context (_apiModel : ApiModel) (_documenterConfig : option DocumenterConfig).
Implicit Types (apiItem m : ApiItemRef).

Lemma listed_inv apiItem m :
  listed _apiModel _documenterConfig apiItem m ↔
  if default false (_documenterConfig ≫= showInheritedMembers)
  then m ∈ items (findMembersWithInheritance _apiModel apiItem)
  else m ∈ memberRefs apiItem.
Proof. unfold listed, listed_members. by destruct (default false _). Qed.

(** The packages of the model, the entry points of a package and their
    members, the members of a namespace, and the listed members of a class
    or interface that have a table. *)
Lemma calls_inv apiItem m :
  calls _apiModel _documenterConfig apiItem m ↔
  match Api.kind apiItem with
  | Model => m ∈ memberRefs apiItem ∧ Api.kind m = Package
  | Package =>
      m ∈ entryPoints apiItem ∨
      (m ∈ (entryPoints apiItem ≫= memberRefs) ∧ is_Some (containerTable_of m))
  | Namespace => m ∈ memberRefs apiItem ∧ is_Some (containerTable_of m)
  | Class => listed _apiModel _documenterConfig apiItem m ∧ is_Some (classTable_of m)
  | Interface =>
      listed _apiModel _documenterConfig apiItem m ∧ is_Some (interfaceTable_of m)
  | _ => False
  end.
Proof.
  unfold calls, called, listed.
  destruct (Api.kind apiItem);
    rewrite ?elem_of_app, ?list_elem_of_filter, ?elem_of_nil; tauto.
Qed.

End calls_facts.

(** ** What a run does to the file system *)

(** One step of a proof that the trace of a run is in a set. *)
Ltac traced_step :=
  match goal with
  | |- traced ?P (mbind _ _) => apply (traced_bind P); [|intros ?]
  | |- traced ?P (lift _) => apply (traced_lift P)
  | |- traced ?P (mret _) => apply (traced_mret P)
  | |- traced ?P (foldRun _ _ _) => apply (traced_foldRun P); intros ? ?
  | |- traced _ (emit (Log _)) => by apply page_trace_Log, page_trace_nil
  | |- traced _ (match ?x with _ => _ end) => destruct x
  | |- traced _ (let '(_, _) := ?x in _) => destruct x
  end.

Ltac traced_tac := repeat traced_step; eauto.

Section traces.
Context `{Naming} (host : Host) (configuration : TSDocConfiguration) (_apiModel : ApiModel).
Context (_documenterConfig : option DocumenterConfig) (_outputFolder : string).
Context (markdownDocumenterFeature : option MarkdownDocumenterFeature).
Implicit Types (apiItem m : ApiItemRef) (output : list DocNode).

Local Notation "'pages'" := (page_trace host _documenterConfig _outputFolder).

#[local] Instance page_trace_concatenable : Concatenable pages.
Proof.
  split; [constructor|]. intros t t' Ht Ht'.
  induction Ht; simpl; [done|by constructor..].
Qed.

Section tables.
Context (wp : ApiItemRef → M unit) (Hwp : ∀ m, traced pages (wp m)).

Lemma traced__writeModelTable output apiItem :
  traced pages (_writeModelTable configuration wp output apiItem).
Proof. unfold _writeModelTable, modelStep. traced_tac. Qed.

Lemma traced_writeEntrypointsTable output apiItem :
  traced pages (writeEntrypointsTable configuration wp output apiItem).
Proof. unfold writeEntrypointsTable, entrypointStep. traced_tac. Qed.

Lemma traced__writePackageOrNamespaceTables output apiItem :
  traced pages (_writePackageOrNamespaceTables configuration wp output apiItem).
Proof.
  unfold _writePackageOrNamespaceTables, containerStep.
  traced_tac; apply traced_writeEntrypointsTable.
Qed.

Lemma traced__getMembersAndWriteIncompleteWarning output apiItem :
  traced pages (_getMembersAndWriteIncompleteWarning configuration _apiModel
                  _documenterConfig apiItem output).
Proof. unfold _getMembersAndWriteIncompleteWarning. traced_tac. Qed.

Lemma traced_memberStep table_of row apiItem (tables : MemberTable → DocNode) m :
  traced pages (memberStep wp table_of row apiItem tables m).
Proof. unfold memberStep. traced_tac. Qed.

Lemma traced__writeClassTables output apiItem :
  traced pages (_writeClassTables configuration _apiModel _documenterConfig wp output apiItem).
Proof.
  unfold _writeClassTables.
  traced_tac; auto using traced__getMembersAndWriteIncompleteWarning, traced_memberStep.
Qed.

Lemma traced__writeInterfaceTables output apiItem :
  traced pages
    (_writeInterfaceTables configuration _apiModel _documenterConfig wp output apiItem).
Proof.
  unfold _writeInterfaceTables.
  traced_tac; auto using traced__getMembersAndWriteIncompleteWarning, traced_memberStep.
Qed.

Lemma traced_pageTables output apiItem :
  traced pages (pageTables configuration _apiModel _documenterConfig wp output apiItem).
Proof.
  unfold pageTables. destruct (Api.kind apiItem);
    auto using traced__writeClassTables, traced__writeInterfaceTables,
      traced__writePackageOrNamespaceTables, traced__writeModelTable;
    traced_tac.
Qed.

Lemma traced_pageFrontMatter apiItem : traced pages (pageFrontMatter apiItem).
Proof. unfold pageFrontMatter. destruct (Api.kind apiItem); traced_tac. Qed.

Lemma traced_writeOutput output (frontMatter : FrontMatter) apiItem :
  traced pages (writeOutput host configuration _documenterConfig _outputFolder
                  markdownDocumenterFeature output frontMatter apiItem).
Proof.
  unfold writeOutput. do 2 (traced_step; [traced_step|]).
  apply page_trace_write, page_trace_nil.
Qed.

Lemma traced_writePageBody apiItem :
  traced pages (writePageBody host configuration _apiModel _documenterConfig _outputFolder
                  markdownDocumenterFeature wp apiItem).
Proof.
  unfold writePageBody.
  traced_tac; auto using traced_pageFrontMatter, traced_pageTables, traced_writeOutput.
Qed.

End tables.

Lemma _writeApiItemPage_traced (fuel : nat) apiItem :
  traced pages
    (_writeApiItemPage host configuration _apiModel _documenterConfig _outputFolder
       markdownDocumenterFeature fuel apiItem).
Proof.
  revert apiItem. induction fuel as [|fuel IH]; intros apiItem; [constructor|].
  by apply traced_writePageBody.
Qed.


End traces.

Section run_trace.
Context `{Naming} (host : Host) (configuration : TSDocConfiguration) (_apiModel : ApiModel).
Context (_documenterConfig : option DocumenterConfig) (_outputFolder : string).

(** C6: what a run does to the file system, however it ends: it empties
    the output folder once, before anything else, then only logs and writes
    pages under that folder, each right after its folder is ensured; and the
    hook [onFinished] of the plugin is called last and only by a run that
    returns with a plugin loaded. *)
Theorem generateFiles_trace :
  ∃ t fin,
    (generateFiles host configuration _apiModel _documenterConfig _outputFolder).1 =
      run_start _outputFolder ++ t ++ fin ∧
    page_trace host _documenterConfig _outputFolder t ∧
    (fin = [] ∨
     fin = [OnFinished] ∧ is_Some (loadedFeature host _documenterConfig) ∧
     (generateFiles host configuration _apiModel _documenterConfig _outputFolder).2 =
       Return ()).
Proof.
  rewrite generateFiles_unfold. cbn [fst snd].
  pose proof (_writeApiItemPage_traced host configuration _apiModel _documenterConfig
                _outputFolder (loadedFeature host _documenterConfig)
                (run_fuel _apiModel) (rootRef (root _apiModel))) as Hw.
  unfold traced in Hw.
  destruct (_writeApiItemPage _ _ _ _ _ _ _ _) as [t [[]|e|]]; simpl in Hw.
  - rewrite M_bind_Return. destruct (loadedFeature host _documenterConfig) eqn:Hf.
    + exists t, [OnFinished]. split_and!; [done..|]. right. by split_and!.
    + exists t, []. split_and!; [done..|]. by left.
  - exists t, []. rewrite app_nil_r. split_and!; [done..|]. by left.
  - exists t, []. rewrite app_nil_r. split_and!; [done..|]. by left.
Qed.

End run_trace.

(** ** The files a run writes *)

Section files.
Context `{Naming} (host : Host) (configuration : TSDocConfiguration) (_apiModel : ApiModel).
Context (_documenterConfig : option DocumenterConfig) (_outputFolder : string).
Context (markdownDocumenterFeature : option MarkdownDocumenterFeature).
Implicit Types (apiItem m : ApiItemRef) (output : list DocNode).

Local Notation "'any'" := (λ _, True).
Local Notation "'file' r" :=
  (path_join host _outputFolder (_getFilenameForApiItem r)) (at level 10, r at level 9).

Section tables.
Context (wp : ApiItemRef → M unit) (g : ApiItemRef → list string).
Context (Hwp : ∀ m, writes any (g m) (wp m)).

Lemma writes_modelStep (packagesTable : DocNode) m :
  writes any (if decide (Api.kind m = Package) then g m else [])
    (modelStep configuration wp packagesTable m).
Proof.
  unfold modelStep. apply writes_lift_bind. intros row.
  destruct (Api.kind m); try by apply writes_mret.
  rewrite decide_True by done. by apply (writes_bind_mret any).
Qed.

Lemma writes__writeModelTable output apiItem :
  writes any (concat (g <$> filter (λ m : ApiItemRef, Api.kind m = Package)
                              (memberRefs apiItem)))
    (_writeModelTable configuration wp output apiItem).
Proof.
  unfold _writeModelTable. apply writes_lift_bind. intros t.
  apply (writes_bind_lift any). rewrite <- concat_fmap_filter.
  apply writes_foldRun. intros. apply writes_modelStep.
Qed.

Lemma writes_writeEntrypointsTable output apiItem :
  writes any (concat (g <$> entryPoints apiItem))
    (writeEntrypointsTable configuration wp output apiItem).
Proof.
  unfold writeEntrypointsTable. apply writes_lift_bind. intros t.
  rewrite <- (app_nil_r (concat _)). apply (writes_bind any).
  - apply writes_foldRun. intros t' m _. unfold entrypointStep.
    apply writes_lift_bind. intros c. by apply (writes_bind_mret any).
  - intros t' _. case_decide; [apply writes_lift|by apply writes_mret].
Qed.

Lemma writes_containerStep (tables : ContainerTable → DocNode) m :
  writes any (if decide (is_Some (containerTable_of m)) then g m else [])
    (containerStep configuration wp tables m).
Proof.
  unfold containerStep. apply writes_lift_bind. intros row.
  destruct (containerTable_of m) as [t|].
  - rewrite decide_True by done. by apply (writes_bind_mret any).
  - rewrite decide_False by (by intros [? ?]). by apply writes_mret.
Qed.

Lemma writes_containerTables (tables : ContainerTable → DocNode) output
    (apiMembers : list ApiItemRef) :
  writes any
    (concat (g <$> filter (λ m : ApiItemRef, is_Some (containerTable_of m)) apiMembers))
    (tables ← foldRun (containerStep configuration wp) tables apiMembers;
     lift (appendTables configuration containerTable_title tables output
             containerTable_order)).
Proof.
  apply (writes_bind_lift any). rewrite <- concat_fmap_filter.
  apply writes_foldRun. intros. apply writes_containerStep.
Qed.

Lemma writes__writePackageOrNamespaceTables output apiItem :
  Api.kind apiItem = Package ∨ Api.kind apiItem = Namespace →
  writes any (concat (g <$> called _apiModel _documenterConfig apiItem))
    (_writePackageOrNamespaceTables configuration wp output apiItem).
Proof.
  intros Hk. unfold _writePackageOrNamespaceTables, called.
  apply writes_lift_bind. intros t. destruct Hk as [Hk|Hk]; rewrite Hk.
  - rewrite !decide_True, fmap_app, concat_app by done.
    apply (writes_bind any); [apply writes_writeEntrypointsTable|]. intros o _.
    apply writes_containerTables.
  - rewrite !decide_False by done. change (concat ?l) with ([] ++ concat l).
    apply (writes_bind any); [by apply writes_mret|]. intros o _.
    apply writes_containerTables.
Qed.

Lemma writes__getMembersAndWriteIncompleteWarning output apiItem :
  writes (λ r : list ApiItemRef * list DocNode,
            r.1 = listed_members _apiModel _documenterConfig apiItem) []
    (_getMembersAndWriteIncompleteWarning configuration _apiModel _documenterConfig
       apiItem output).
Proof.
  unfold _getMembersAndWriteIncompleteWarning, listed_members.
  destruct (default false _); simpl; [|by apply writes_mret].
  apply (writes_bind any _ _ _ [] []).
  { destruct (maybeIncompleteResult _); [apply writes_lift|by apply writes_mret]. }
  intros o _. apply (writes_bind any _ _ _ [] []); [|by intros; apply writes_mret].
  apply writes_foldRun_nil. intros. apply writes_emit.
Qed.

Lemma writes_memberStep (table_of : ApiItem → option MemberTable)
    (row : MemberTable → ApiItemRef → bool → result DocNode) apiItem
    (tables : MemberTable → DocNode) m :
  writes any (if decide (is_Some (table_of m)) then g m else [])
    (memberStep wp table_of row apiItem tables m).
Proof.
  unfold memberStep. destruct (table_of m) as [t|].
  - rewrite decide_True by done. apply writes_lift_bind. intros r.
    by apply (writes_bind_mret any).
  - rewrite decide_False by (by intros [? ?]). by apply writes_mret.
Qed.

(** The loop over the listed members and the tables after it. *)
Lemma writes_memberTables (table_of : ApiItem → option MemberTable)
    (row : MemberTable → ApiItemRef → bool → result DocNode) apiItem
    (tables : MemberTable → DocNode) (order : list MemberTable) output :
  writes any
    (concat (g <$> filter (λ m : ApiItemRef, is_Some (table_of m))
                     (listed_members _apiModel _documenterConfig apiItem)))
    ('(apiMembers, output) ←
       _getMembersAndWriteIncompleteWarning configuration _apiModel _documenterConfig
         apiItem output;
     tables ← foldRun (memberStep wp table_of row apiItem) tables apiMembers;
     lift (appendTables configuration memberTable_title tables output order)).
Proof.
  change (concat ?l) with ([] ++ concat l).
  eapply writes_bind; [apply writes__getMembersAndWriteIncompleteWarning|].
  intros [ms o] Hms. simpl in Hms. subst ms.
  apply (writes_bind_lift any). rewrite <- concat_fmap_filter.
  apply writes_foldRun. intros. apply writes_memberStep.
Qed.

Lemma writes__writeClassTables output apiItem :
  Api.kind apiItem = Class →
  writes any (concat (g <$> called _apiModel _documenterConfig apiItem))
    (_writeClassTables configuration _apiModel _documenterConfig wp output apiItem).
Proof.
  intros Hk. unfold _writeClassTables, called. rewrite Hk.
  apply writes_lift_bind. intros t. apply writes_memberTables.
Qed.

Lemma writes__writeInterfaceTables output apiItem :
  Api.kind apiItem = Interface →
  writes any (concat (g <$> called _apiModel _documenterConfig apiItem))
    (_writeInterfaceTables configuration _apiModel _documenterConfig wp output apiItem).
Proof.
  intros Hk. unfold _writeInterfaceTables, called. rewrite Hk.
  apply writes_lift_bind. intros t. apply writes_memberTables.
Qed.

Lemma writes_pageTables output apiItem :
  writes any (concat (g <$> called _apiModel _documenterConfig apiItem))
    (pageTables configuration _apiModel _documenterConfig wp output apiItem).
Proof.
  unfold pageTables. destruct (Api.kind apiItem) eqn:Hk;
    auto using writes__writeClassTables, writes__writeInterfaceTables,
      writes__writePackageOrNamespaceTables.
  all: try (unfold called; rewrite Hk; by first [apply writes_lift|apply writes_mret]).
  unfold called. rewrite Hk. apply writes__writeModelTable.
Qed.

(** The first [switch] returns no front matter exactly for a default
    entry point. *)
Lemma writes_pageFrontMatter apiItem :
  writes (λ frontMatter, frontMatter = None ↔
            Api.kind apiItem = EntryPoint ∧ importPath apiItem = "") []
    (pageFrontMatter apiItem).
Proof.
  unfold pageFrontMatter. destruct (Api.kind apiItem) eqn:Hk;
    try (apply writes_mret; by split; [|intros [? _]]);
    try apply writes_Err.
  - case_decide; [by apply writes_mret|].
    destruct (parent apiItem); [|apply writes_Err].
    apply writes_mret. by split; [|intros [_ ?]].
  - apply (writes_bind any _ _ _ [] []); [apply writes_emit|]. intros _ _.
    apply writes_mret. by split; [|intros [? _]].
Qed.

Lemma writes_writeOutput output (frontMatter : FrontMatter) apiItem :
  writes any [file apiItem]
    (writeOutput host configuration _documenterConfig _outputFolder
       markdownDocumenterFeature output frontMatter apiItem).
Proof.
  unfold writeOutput. do 2 (apply writes_lift_bind; intros ?).
  by intros t u [= <- <-].
Qed.

Lemma writes_writePageBody apiItem :
  writes any
    (if decide (Api.kind apiItem = EntryPoint ∧ importPath apiItem = "") then []
     else concat (g <$> called _apiModel _documenterConfig apiItem) ++ [file apiItem])
    (writePageBody host configuration _apiModel _documenterConfig _outputFolder
       markdownDocumenterFeature wp apiItem).
Proof.
  unfold writePageBody. apply (writes_bind _ _ _ _ [] _ (writes_pageFrontMatter apiItem)).
  intros [frontMatter|] Hfm.
  - rewrite decide_False by (by intros ?%Hfm). apply writes_lift_bind. intros o.
    apply (writes_bind any); [apply writes_pageTables|]. intros o' _.
    apply writes_writeOutput.
  - rewrite decide_True by (by apply Hfm). by apply writes_mret.
Qed.

End tables.

(** The files of the pages the writer writes when it returns. *)
Lemma _writeApiItemPage_writes (fuel : nat) apiItem :
  writes any ((λ m : ApiItemRef, file m)
                <$> pages_fuel _apiModel _documenterConfig fuel apiItem)
    (_writeApiItemPage host configuration _apiModel _documenterConfig _outputFolder
       markdownDocumenterFeature fuel apiItem).
Proof.
  revert apiItem. induction fuel as [|fuel IH]; intros apiItem; [by intros t a [=]|].
  simpl. eapply writes_weaken; [by apply writes_writePageBody, IH|done|].
  case_decide; [done|]. rewrite fmap_app, fmap_concat, <- list_fmap_compose. done.
Qed.

(** C15: the files the page writer writes when it returns: the files of
    the pages of the item, in the order of [pages_fuel]: the pages the
    tables of a page ask for, each with the pages below it, then the page
    itself; nothing for a default entry point. *)
Theorem _writeApiItemPage_files (fuel : nat) apiItem (t : list Event) :
  _writeApiItemPage host configuration _apiModel _documenterConfig _outputFolder
    markdownDocumenterFeature fuel apiItem = (t, Return ()) →
  written t =
  (λ m : ApiItemRef, path_join host _outputFolder (_getFilenameForApiItem m))
    <$> pages_fuel _apiModel _documenterConfig fuel apiItem.
Proof. intros Ht. by apply _writeApiItemPage_writes in Ht as [_ ?]. Qed.

End files.

Section pages.
Context `{Naming} (host : Host) (configuration : TSDocConfiguration) (_apiModel : ApiModel).
Context (_documenterConfig : option DocumenterConfig) (_outputFolder : string).
Implicit Types (apiItem m : ApiItemRef).

Lemma called_leaf apiItem :
  leaf_kind (Api.kind apiItem) = true → called _apiModel _documenterConfig apiItem = [].
Proof. unfold called. by destruct (Api.kind apiItem). Qed.

Lemma called_below apiItem m :
  m ∈ called _apiModel _documenterConfig apiItem →
  below apiItem m ∨ leaf_kind (Api.kind m) = true.
Proof.
  intros Hm%calls_inv. unfold below, entryPoints in *.
  destruct (Api.kind apiItem); try done.
  - destruct Hm as [_ ?%classTable_of_leaf]. by right.
  - destruct Hm as [_ ?%interfaceTable_of_leaf]. by right.
  - destruct Hm as [? _]. by left; left.
  - destruct Hm as [? _]. by left; left.
  - destruct Hm as [?|[? _]]; left; [by left|by right].
Qed.

(** The pages of an item do not depend on the fuel, once it is above the
    height of the item. *)
Lemma pages_fuel_enough (n n' : nat) apiItem :
  item_height apiItem < n ∨ (leaf_kind (Api.kind apiItem) = true ∧ 0 < n) → n ≤ n' →
  pages_fuel _apiModel _documenterConfig n' apiItem =
  pages_fuel _apiModel _documenterConfig n apiItem.
Proof.
  revert n' apiItem. induction n as [|n IH]; intros n' apiItem Hn Hle; [lia|].
  destruct n' as [|n']; [lia|]. simpl. case_decide; [done|]. do 2 f_equal.
  apply list_fmap_ext. intros i m Hm%list_elem_of_lookup_2.
  pose proof (item_height_pos apiItem).
  apply IH; [|lia]. destruct Hn as [Hn|[Hleaf _]].
  - destruct (called_below _ _ Hm) as [?%below_height|?]; [left; lia|right; split; [done|lia]].
  - rewrite called_leaf in Hm by done. by apply elem_of_nil in Hm.
Qed.

Lemma generateFiles_writes :
  writes (λ _, True)
    ((λ m : ApiItemRef, path_join host _outputFolder (_getFilenameForApiItem m))
       <$> pages_of _apiModel _documenterConfig)
    (generateFiles host configuration _apiModel _documenterConfig _outputFolder).
Proof.
  intros t []. rewrite generateFiles_unfold.
  destruct (_writeApiItemPage _ _ _ _ _ _ _ _) as [tw [[]|e|]] eqn:Hw; [|done..].
  apply _writeApiItemPage_writes in Hw as [_ Hw]. rewrite M_bind_Return.
  cbn [fst snd]. intros [= <- _]. split; [done|]. unfold written in *.
  cbn [omap list_omap]. rewrite omap_app, Hw.
  destruct (loadedFeature host _documenterConfig); simpl; by rewrite app_nil_r.
Qed.

(** C3: the files a run writes when it returns are the files of the pages
    of the model, in order: for every page the writer asks for, the pages
    below it and then the page, and the index of the site last. *)
Theorem generateFiles_files (t : list Event) :
  generateFiles host configuration _apiModel _documenterConfig _outputFolder =
    (t, Return ()) →
  written t =
  (λ m : ApiItemRef, path_join host _outputFolder (_getFilenameForApiItem m))
    <$> pages_of _apiModel _documenterConfig.
Proof. intros Ht. by apply generateFiles_writes in Ht as [_ ?]. Qed.

End pages.
