(* ===== verification/Success.v ===== *)
(** * A run on a well-formed model returns

    The conditions under which no operation of the documenter throws
    ([page_ok] for the items, [emitter_total] for the platform,
    [inherited_ok] for the members the model finds), one lemma per
    operation of the page writer that it returns under them with a
    well-formed section, and the theorem for [generateFiles]. *)

From stdpp Require Import functions.
From S2P Require Import Prelude DocNodes ApiModel Utilities Resolver Builder Run Documenter.
From S2P Require Import Pages.

(** The kinds that have a page (the first [switch] of [_writeApiItemPage]
    throws for the others). *)
Definition supported (k : ApiItemKind) : bool :=
  match k with
  | CallSignature | EnumMember | IndexSignature | None_ => false
  | _ => true
  end.

(** An item whose page can be written: a well-formed tree with comments
    the documenter accepts, of a kind that has a page, and below a package
    when it is an entry point. *)
Definition page_ok (apiItem : ApiItemRef) : Prop :=
  wf_item apiItem = true ∧ docs_ok apiItem = true ∧ supported (Api.kind apiItem) = true ∧
  (Api.kind apiItem = EntryPoint → is_Some (parent apiItem)).

(** Tables a page can show, all of them. *)
Definition tables_ok {K} (tables : K → DocNode) : Prop := ∀ t, table_ok (tables t).

(** A platform whose emitter renders every section the documenter
    accepts. *)
Definition emitter_total `{Naming} (host : Host) : Prop :=
  ∀ output frontMatter apiItem,
    children_ok "Section" output →
    is_Ok (emitWithFrontMatter host (DocSection output) frontMatter apiItem
             _getLinkFilenameForApiItem).

(** The members the model finds for a page that shows inherited members
    are items of well-formed trees with comments the documenter accepts. *)
Definition inherited_ok (_apiModel : ApiModel)
    (_documenterConfig : option DocumenterConfig) : Prop :=
  default false (_documenterConfig ≫= showInheritedMembers) = true →
  ∀ apiItem m : ApiItemRef, m ∈ items (findMembersWithInheritance _apiModel apiItem) →
    wf_item m = true ∧ docs_ok m = true.

(** * Theorems *)

(** ** A run on a well-formed model returns *)

Section success.
Context `{Naming} (host : Host) (_apiModel : ApiModel).
Context (_documenterConfig : option DocumenterConfig) (_outputFolder : string).
Context (markdownDocumenterFeature : option MarkdownDocumenterFeature).
Context (wp : ApiItemRef → M unit).
Implicit Types (apiItem m : ApiItemRef) (output : list DocNode).

Local Notation "'cfg'" := the_configuration.
Local Notation "'finished'" := (λ _ : unit, True).

Lemma tables_ok_insert `{EqDecision K} (tables : K → DocNode) (t : K) (row : DocNode) :
  tables_ok tables → node_ok "TableRow" row →
  tables_ok (<[t := addRow (tables t) row]> tables).
Proof.
  intros Ht Hrow t'. destruct (decide (t = t')) as [<-|Hne].
  - rewrite fn_lookup_insert. by apply table_ok_addRow.
  - by rewrite fn_lookup_insert_ne.
Qed.

Lemma steps_appendTables {K} (title : K → string) (tables : K → DocNode) (order : list K) :
  tables_ok tables → steps (λ output, appendTables cfg title tables output order).
Proof.
  intros Ht. unfold appendTables. apply steps_foldM. intros t _. by apply steps_appendTable.
Qed.

Lemma builds_titleRow m : item_ok m = true → builds "TableRow" (titleRow cfg m).
Proof.
  intros Hm. unfold titleRow.
  apply (ok_bind (node_ok "TableCell")); [apply builds__createTitleCell|]. intros c1 Hc1.
  apply (ok_bind (node_ok "TableCell")); [by apply builds__createDescriptionCell|].
  intros c2 Hc2. apply ok_Ok, node_ok_row.
  repeat (apply Forall_cons_2; [done|]). apply Forall_nil_2.
Qed.

Lemma returns_modelStep (packagesTable : DocNode) m :
  table_ok packagesTable → item_ok m = true →
  (Api.kind m = Package → returns finished (wp m)) →
  returns table_ok (modelStep cfg wp packagesTable m).
Proof.
  intros Ht Hm Hwp. unfold modelStep.
  apply (returns_bind (node_ok "TableRow")); [by apply returns_lift, builds_titleRow|].
  intros row Hrow. destruct (Api.kind m); try by apply returns_mret.
  apply (returns_bind finished); [by apply Hwp|]. intros _ _.
  by apply returns_mret, table_ok_addRow.
Qed.

Lemma returns__writeModelTable output apiItem :
  children_ok "Section" output → docs_ok apiItem = true →
  (∀ m, m ∈ memberRefs apiItem → Api.kind m = Package → returns finished (wp m)) →
  returns (children_ok "Section") (_writeModelTable cfg wp output apiItem).
Proof.
  intros Hout Hdocs Hwp. unfold _writeModelTable.
  apply (returns_bind table_ok); [apply returns_lift, ok_newDocTable|]. intros t0 Ht0.
  apply (returns_bind table_ok); [|by intros; apply returns_lift, steps_appendTable].
  apply returns_foldRun; [done|]. intros t m Hm Ht. apply returns_modelStep; auto.
  apply list_elem_of_fmap in Hm as (x & -> & Hx). eapply docs_ok_item, docs_ok_member; eauto.
Qed.

Lemma returns_entrypointStep apiItem (entrypointsTable : DocNode) m :
  table_ok entrypointsTable → returns finished (wp m) →
  returns table_ok (entrypointStep cfg wp apiItem entrypointsTable m).
Proof.
  intros Ht Hwp. unfold entrypointStep.
  apply (returns_bind (node_ok "TableCell")).
  { apply returns_lift. rewrite newDocParagraph_inline by done. simpl.
    apply builds_cell, children_ok_link. }
  intros c Hc. apply (returns_bind finished); [done|]. intros _ _.
  apply returns_mret, table_ok_addRow; [done|]. apply node_ok_row.
  repeat (apply Forall_cons_2; [done|]). apply Forall_nil_2.
Qed.

Lemma returns_writeEntrypointsTable output apiItem :
  children_ok "Section" output →
  (∀ m, m ∈ memberRefs apiItem → returns finished (wp m)) →
  returns (children_ok "Section") (writeEntrypointsTable cfg wp output apiItem).
Proof.
  intros Hout Hwp. unfold writeEntrypointsTable.
  apply (returns_bind table_ok); [apply returns_lift, ok_newDocTable|]. intros t0 Ht0.
  apply (returns_bind table_ok).
  { apply returns_foldRun; [done|]. intros t m Hm Ht. by apply returns_entrypointStep, Hwp. }
  intros t1 [Hk Hwf]. case_decide; [|by apply returns_mret]. apply returns_lift.
  apply (ok_bind (children_ok "Section")); [by apply steps_appendNode|].
  intros o Ho. apply steps_appendNode; try done. unfold block. by rewrite Hk.
Qed.

Lemma returns_containerStep (tables : ContainerTable → DocNode) m :
  tables_ok tables → item_ok m = true →
  (is_Some (containerTable_of m) → returns finished (wp m)) →
  returns tables_ok (containerStep cfg wp tables m).
Proof.
  intros Ht Hm Hwp. unfold containerStep.
  apply (returns_bind (node_ok "TableRow")); [by apply returns_lift, builds_titleRow|].
  intros row Hrow. destruct (containerTable_of m) as [t|]; [|by apply returns_mret].
  apply (returns_bind finished); [by apply Hwp|]. intros _ _.
  by apply returns_mret, tables_ok_insert.
Qed.

Lemma ok_newContainerTables : ok_with tables_ok (newContainerTables cfg).
Proof.
  unfold newContainerTables. rewrite !newDocTable_the. simpl.
  apply ok_Ok. intros []; apply table_ok_emptyTable.
Qed.

(** The members of the members of an item with comments the documenter
    accepts have such comments. *)
Lemma docs_ok_below apiItem m :
  docs_ok apiItem = true → below apiItem m → docs_ok m = true.
Proof.
  assert (∀ r x : ApiItemRef, docs_ok r = true → x ∈ memberRefs r → docs_ok x = true) as Hm.
  { intros r x Hr (y & -> & Hy)%list_elem_of_fmap. by eapply docs_ok_member. }
  intros Hd [?|(y & ? & ?)%list_elem_of_bind]; eauto.
Qed.

Lemma returns__writePackageOrNamespaceTables output apiItem :
  children_ok "Section" output → docs_ok apiItem = true →
  (Api.kind apiItem = Package → ∀ m, m ∈ memberRefs apiItem → returns finished (wp m)) →
  (∀ m, m ∈ (if decide (Api.kind apiItem = Package)
             then entryPoints apiItem ≫= memberRefs else memberRefs apiItem) →
     is_Some (containerTable_of m) → returns finished (wp m)) →
  returns (children_ok "Section") (_writePackageOrNamespaceTables cfg wp output apiItem).
Proof.
  intros Hout Hdocs Hentry Hwp. unfold _writePackageOrNamespaceTables.
  apply (returns_bind tables_ok); [apply returns_lift, ok_newContainerTables|].
  intros t0 Ht0. apply (returns_bind (children_ok "Section")).
  { case_decide; [|by apply returns_mret]. by apply returns_writeEntrypointsTable; auto. }
  intros o1 Ho1.
  apply (returns_bind tables_ok); [|by intros; apply returns_lift, steps_appendTables].
  apply returns_foldRun; [done|]. intros t m Hm Ht.
  assert (below apiItem m) as Hb by (unfold below, entryPoints in *; case_decide; auto).
  apply returns_containerStep; [done|by eapply docs_ok_item, docs_ok_below|auto].
Qed.

(** ** Class and interface pages *)

Lemma returns__getMembersAndWriteIncompleteWarning apiItem output :
  children_ok "Section" output →
  returns (λ r : list ApiItemRef * list DocNode,
             r.1 = listed_members _apiModel _documenterConfig apiItem ∧
             children_ok "Section" r.2)
    (_getMembersAndWriteIncompleteWarning cfg _apiModel _documenterConfig apiItem output).
Proof.
  intros Hout. unfold _getMembersAndWriteIncompleteWarning, listed_members.
  destruct (default false _); simpl; [|by apply returns_mret].
  apply (returns_bind (children_ok "Section")).
  { destruct (maybeIncompleteResult _); [|by apply returns_mret]. apply returns_lift.
    by apply (steps_build "Paragraph"); [|apply builds_labelParagraph|]. }
  intros o Ho. apply (returns_bind finished); [|by intros; apply returns_mret].
  apply returns_foldRun; [done|]. intros. by apply returns_emit.
Qed.

Lemma builds_classRow (t : MemberTable) m (isInherited : bool) :
  item_ok m = true → builds "TableRow" (classRow cfg _apiModel t m isInherited).
Proof.
  intros Hm. unfold classRow.
  apply (ok_bind (node_ok "TableCell")); [apply builds__createTitleCell|]. intros c1 Hc1.
  apply (ok_bind (node_ok "TableCell")); [apply builds__createModifiersCell|].
  intros c2 Hc2. destruct t.
  all: try (apply (ok_bind (node_ok "TableCell")); [apply builds__createPropertyTypeCell|];
            intros c3 Hc3).
  all: apply (ok_bind (node_ok "TableCell")); [by apply builds__createDescriptionCell|];
    intros c4 Hc4; apply ok_Ok, node_ok_row;
    repeat (apply Forall_cons_2; [done|]); apply Forall_nil_2.
Qed.

Lemma builds_interfaceRow (t : MemberTable) m (isInherited : bool) :
  item_ok m = true → builds "TableRow" (interfaceRow cfg _apiModel t m isInherited).
Proof.
  intros Hm. unfold interfaceRow.
  apply (ok_bind (node_ok "TableCell")); [apply builds__createTitleCell|]. intros c1 Hc1.
  destruct t.
  all: try (apply (ok_bind (node_ok "TableCell")); [apply builds__createModifiersCell|];
            intros c2 Hc2;
            apply (ok_bind (node_ok "TableCell")); [apply builds__createPropertyTypeCell|];
            intros c3 Hc3).
  all: apply (ok_bind (node_ok "TableCell")); [by apply builds__createDescriptionCell|];
    intros c4 Hc4; apply ok_Ok, node_ok_row;
    repeat (apply Forall_cons_2; [done|]); apply Forall_nil_2.
Qed.

Lemma returns_memberStep (table_of : ApiItem → option MemberTable)
    (row : MemberTable → ApiItemRef → bool → result DocNode) apiItem
    (tables : MemberTable → DocNode) m :
  (∀ t b, builds "TableRow" (row t m b)) →
  tables_ok tables → (is_Some (table_of m) → returns finished (wp m)) →
  returns tables_ok (memberStep wp table_of row apiItem tables m).
Proof.
  intros Hrow Ht Hwp. unfold memberStep.
  destruct (table_of m) as [t|]; [|by apply returns_mret].
  apply (returns_bind (node_ok "TableRow")); [apply returns_lift, Hrow|]. intros r Hr.
  apply (returns_bind finished); [by apply Hwp|]. intros _ _.
  by apply returns_mret, tables_ok_insert.
Qed.

Lemma returns_memberTables (table_of : ApiItem → option MemberTable)
    (row : MemberTable → ApiItemRef → bool → result DocNode) apiItem
    (tables : MemberTable → DocNode) (order : list MemberTable) output :
  (∀ m t b, item_ok m = true → builds "TableRow" (row t m b)) →
  children_ok "Section" output → tables_ok tables →
  (∀ m, listed _apiModel _documenterConfig apiItem m → item_ok m = true) →
  (∀ m, listed _apiModel _documenterConfig apiItem m → is_Some (table_of m) →
     returns finished (wp m)) →
  returns (children_ok "Section")
    ('(apiMembers, output) ←
       _getMembersAndWriteIncompleteWarning cfg _apiModel _documenterConfig apiItem output;
     tables ← foldRun (memberStep wp table_of row apiItem) tables apiMembers;
     lift (appendTables cfg memberTable_title tables output order)).
Proof.
  intros Hrow Hout Ht Hdocs Hwp. eapply returns_bind;
    [by apply returns__getMembersAndWriteIncompleteWarning|].
  intros [ms o] [Hms Ho]. simpl in *. subst ms.
  apply (returns_bind tables_ok); [|by intros; apply returns_lift, steps_appendTables].
  apply returns_foldRun; [done|]. intros ts m Hm Hts.
  apply returns_memberStep; [|done|]; auto.
Qed.

Lemma returns__writeClassTables output apiItem :
  children_ok "Section" output →
  (∀ m, listed _apiModel _documenterConfig apiItem m → item_ok m = true) →
  (∀ m, listed _apiModel _documenterConfig apiItem m → is_Some (classTable_of m) →
     returns finished (wp m)) →
  returns (children_ok "Section")
    (_writeClassTables cfg _apiModel _documenterConfig wp output apiItem).
Proof.
  intros Hout Hdocs Hwp. unfold _writeClassTables. apply (returns_bind tables_ok).
  { apply returns_lift. rewrite !newDocTable_the. simpl. apply ok_Ok.
    intros []; apply table_ok_emptyTable. }
  intros tables Ht. apply returns_memberTables; auto using builds_classRow.
Qed.

Lemma returns__writeInterfaceTables output apiItem :
  children_ok "Section" output →
  (∀ m, listed _apiModel _documenterConfig apiItem m → item_ok m = true) →
  (∀ m, listed _apiModel _documenterConfig apiItem m → is_Some (interfaceTable_of m) →
     returns finished (wp m)) →
  returns (children_ok "Section")
    (_writeInterfaceTables cfg _apiModel _documenterConfig wp output apiItem).
Proof.
  intros Hout Hdocs Hwp. unfold _writeInterfaceTables. apply (returns_bind tables_ok).
  { apply returns_lift. rewrite !newDocTable_the. simpl. apply ok_Ok.
    intros []; apply table_ok_emptyTable. }
  intros tables Ht. apply returns_memberTables; auto using builds_interfaceRow.
Qed.

(** ** The page *)

Lemma returns_pageFrontMatter apiItem :
  supported (Api.kind apiItem) = true →
  (Api.kind apiItem = EntryPoint → is_Some (parent apiItem)) →
  returns (λ _, True) (pageFrontMatter apiItem).
Proof.
  intros Hk Hp. unfold pageFrontMatter.
  destruct (Api.kind apiItem); try done; try by apply returns_mret.
  - case_decide; [by apply returns_mret|]. destruct Hp as [p ->]; [done|].
    by apply returns_mret.
  - apply (returns_bind finished); [by apply returns_emit|]. intros. by apply returns_mret.
Qed.

Lemma steps_writeComment (tsdocComment : DocComment) :
  comment_ok tsdocComment = true → steps (λ output, writeComment cfg output tsdocComment).
Proof.
  intros (Hs & _ & Hd & _)%comment_ok_inv output Hout. unfold writeComment.
  apply (ok_bind (children_ok "Section")); [|by intros; apply steps__appendSection].
  destruct (deprecatedBlock tsdocComment) as [b|]; [|by apply ok_Ok].
  rewrite newDocParagraph_inline by done. simpl.
  apply (steps_build "NoteBox"); [done| |done]. apply builds_noteBox.
  change (?p :: content b) with ([p] ++ content b). unfold children_ok.
  rewrite wf_children_app. apply andb_true_iff. split; [by vm_compute|by apply Hd].
Qed.

Lemma steps_writeDeclaration apiItem (excerptTokens : list ExcerptToken) :
  steps (λ output, writeDeclaration cfg _apiModel output apiItem excerptTokens).
Proof.
  intros output Hout. unfold writeDeclaration.
  apply (ok_bind (children_ok "Section")); [|by intros; apply steps__writeHeritageTypes].
  case_decide; [|by apply ok_Ok].
  apply (ok_bind (node_ok "Paragraph")); [apply builds_labelParagraph|]. intros l Hl.
  apply (ok_bind (children_ok "Section")); [by apply (steps_appendNode_ok "Paragraph")|].
  intros o Ho. by apply steps_appendNode.
Qed.

Lemma steps_writeDecorators (decoratorBlocks : list DocBlock) :
  Forall (λ b, children_ok "Section" (content b)) decoratorBlocks →
  steps (λ output, writeDecorators cfg output decoratorBlocks).
Proof.
  intros Hb output Hout. unfold writeDecorators. case_decide; [|by apply ok_Ok].
  apply (ok_bind (node_ok "Paragraph")); [apply builds_labelParagraph|]. intros l Hl.
  apply (ok_bind (children_ok "Section")); [by apply (steps_appendNode_ok "Paragraph")|].
  intros o Ho. apply ok_foldM; [done|]. intros o' b Hin Ho'.
  apply steps_appendNodes; [|done]. by apply (proj1 (Forall_forall _ _) Hb).
Qed.

Lemma ok_pageHeader apiItem :
  item_ok apiItem = true →
  ok_with (children_ok "Section") (pageHeader cfg _apiModel apiItem).
Proof.
  intros Hd. unfold pageHeader.
  apply (ok_bind (children_ok "Section")).
  { destruct (Api.releaseTag apiItem) as [[]|];
      [by apply ok_Ok|by apply ok_Ok|by apply steps__writeAlphaWarning
      |by apply steps__writeBetaWarning|by apply ok_Ok..]. }
  intros o1 Ho1. apply (ok_bind (children_ok "Section")).
  { destruct (Api.tsdocComment apiItem) as [c|] eqn:Hc; [|by apply ok_Ok].
    apply steps_writeComment; [by eapply item_ok_comment|done]. }
  intros o2 Ho2. apply (ok_bind (children_ok "Section")).
  { destruct (Api.excerptTokens apiItem); [by apply steps_writeDeclaration|by apply ok_Ok]. }
  intros o3 Ho3. apply (ok_bind (children_ok "Section")).
  { apply steps_writeDecorators; [|done].
    destruct (Api.tsdocComment apiItem) as [c|] eqn:Hc; [|by apply Forall_nil_2].
    apply Forall_forall. intros b Hb. eapply blocksWithTag_ok; [|done].
    by eapply item_ok_comment. }
  intros o4 Ho4. destruct (remarksFirst _); [|by apply ok_Ok].
  by apply steps__writeRemarksSection.
Qed.

Lemma returns_writeOutput output (frontMatter : FrontMatter) apiItem :
  emitter_total host → item_ok apiItem = true → children_ok "Section" output →
  returns finished
    (writeOutput host cfg _documenterConfig _outputFolder markdownDocumenterFeature
       output frontMatter apiItem).
Proof.
  intros Hemit Hd Hout. unfold writeOutput.
  apply (returns_bind (children_ok "Section")).
  { apply returns_lift. destruct (remarksFirst _); [by apply ok_Ok|].
    by apply steps__writeRemarksSection. }
  intros o Ho. destruct (Hemit o frontMatter apiItem Ho) as [pageContent ->].
  rewrite lift_Ok_bind.
  apply (returns_bind finished); by intros; apply returns_emit.
Qed.

(** ** The pages a page calls for *)

Lemma listed_ok apiItem m :
  inherited_ok _apiModel _documenterConfig →
  wf_item apiItem = true → docs_ok apiItem = true →
  listed _apiModel _documenterConfig apiItem m → wf_item m = true ∧ docs_ok m = true.
Proof.
  unfold inherited_ok. rewrite listed_inv. intros Hi Hwf Hd.
  destruct (default false _); [by apply Hi|].
  intros (x & -> & Hx)%list_elem_of_fmap. split.
  - by eapply wf_item_member.
  - by eapply docs_ok_member.
Qed.

Lemma memberRef_ok apiItem (x : ApiItem) :
  wf_item apiItem = true → docs_ok apiItem = true → x ∈ members apiItem →
  member_kind_ok (Api.kind apiItem) (Api.kind x) = true ∧
  wf_item (memberRef apiItem x) = true ∧ docs_ok (memberRef apiItem x) = true.
Proof.
  intros Hwf Hd Hx. destruct (wf_item_member apiItem x Hwf Hx) as [Hk Hwfx].
  split_and!; [done..|]. by eapply docs_ok_member.
Qed.

Lemma containerTable_of_supported (i : ApiItem) :
  is_Some (containerTable_of i) → supported (Api.kind i) = true ∧ Api.kind i ≠ EntryPoint.
Proof. unfold containerTable_of. destruct (Api.kind i); by intros [? ?]. Qed.

Lemma classTable_of_supported (i : ApiItem) :
  is_Some (classTable_of i) → supported (Api.kind i) = true ∧ Api.kind i ≠ EntryPoint.
Proof. unfold classTable_of. destruct (Api.kind i); by intros [? ?]. Qed.

Lemma interfaceTable_of_supported (i : ApiItem) :
  is_Some (interfaceTable_of i) → supported (Api.kind i) = true ∧ Api.kind i ≠ EntryPoint.
Proof. unfold interfaceTable_of. destruct (Api.kind i); by intros [? ?]. Qed.

(** An item with a table has a page that can be written. *)
Lemma page_ok_tabled m :
  wf_item m = true ∧ docs_ok m = true →
  supported (Api.kind m) = true ∧ Api.kind m ≠ EntryPoint → page_ok m.
Proof. intros [? ?] [? ?]. by split_and!. Qed.

(** The pages of a page that can be written can be written. *)
Lemma calls_page_ok apiItem m :
  inherited_ok _apiModel _documenterConfig →
  page_ok apiItem → calls _apiModel _documenterConfig apiItem m → page_ok m.
Proof.
  intros Hi (Hwf & Hd & _ & _). rewrite calls_inv. unfold entryPoints.
  destruct (Api.kind apiItem) eqn:Hk; try done.
  - intros [Hl Ht]. eauto using page_ok_tabled, listed_ok, classTable_of_supported.
  - intros [Hl Ht]. eauto using page_ok_tabled, listed_ok, interfaceTable_of_supported.
  - intros [(x & -> & Hx)%list_elem_of_fmap Hp].
    destruct (memberRef_ok apiItem x) as (_ & ? & ?); [done..|].
    apply page_ok_tabled; [done|]. by rewrite Hp.
  - intros [(x & -> & Hx)%list_elem_of_fmap Ht].
    destruct (memberRef_ok apiItem x) as (_ & ? & ?); [done..|].
    eauto using page_ok_tabled, containerTable_of_supported.
  - intros [(x & -> & Hx)%list_elem_of_fmap|[(e & Hm & He)%list_elem_of_bind Ht]].
    + destruct (memberRef_ok apiItem x) as (Hkx & ? & ?); [done..|].
      rewrite Hk in Hkx. apply bool_decide_eq_true in Hkx.
      split_and!; [done..|by simpl; rewrite Hkx|]. intros _. by rewrite parent_memberRef.
    + apply list_elem_of_fmap in He as (x & -> & Hx).
      destruct (memberRef_ok apiItem x) as (_ & ? & ?); [done..|].
      apply list_elem_of_fmap in Hm as (y & -> & Hy).
      destruct (memberRef_ok (memberRef apiItem x) y) as (_ & ? & ?); [done..|].
      eauto using page_ok_tabled, containerTable_of_supported.
Qed.

(** The pages of a page are the pages of members, or of items without
    member tables. *)
Lemma calls_below apiItem m :
  calls _apiModel _documenterConfig apiItem m →
  below apiItem m ∨ leaf_kind (Api.kind m) = true.
Proof.
  rewrite calls_inv. unfold below, entryPoints. destruct (Api.kind apiItem); try done.
  - intros [_ ?%classTable_of_leaf]. by right.
  - intros [_ ?%interfaceTable_of_leaf]. by right.
  - intros [? _]. by left; left.
  - intros [? _]. by left; left.
  - intros [?|[? _]]; left; [by left|by right].
Qed.

Lemma returns_callableTables output apiItem :
  item_ok apiItem = true → children_ok "Section" output →
  returns (children_ok "Section")
    (lift (output ← _writeParameterTables cfg _apiModel output apiItem;
           _writeThrowsSection cfg output apiItem)).
Proof.
  intros Hd Hout. apply returns_lift, (ok_bind (children_ok "Section")).
  - by apply steps__writeParameterTables.
  - intros. by apply steps__writeThrowsSection.
Qed.

Lemma returns_pageTables output apiItem :
  inherited_ok _apiModel _documenterConfig →
  page_ok apiItem → children_ok "Section" output →
  (∀ m, calls _apiModel _documenterConfig apiItem m → returns finished (wp m)) →
  returns (children_ok "Section")
    (pageTables cfg _apiModel _documenterConfig wp output apiItem).
Proof.
  intros Hi (Hwf & Hd & Hs & _) Hout Hwp. pose proof (docs_ok_item _ Hd) as Hitem.
  assert (∀ m, listed _apiModel _documenterConfig apiItem m → item_ok m = true) as Hl.
  { intros m Hm. eapply docs_ok_item, listed_ok; eauto. }
  pose proof (returns_callableTables output apiItem Hitem Hout) as Hcallable.
  setoid_rewrite calls_inv in Hwp. unfold pageTables.
  destruct (Api.kind apiItem) eqn:Hk; try discriminate Hs;
    [ apply returns__writeClassTables; by auto
    | done | done
    | by apply returns_lift, steps_appendNodeInParagraph
    | by apply returns_lift, steps__writeEnumTables
    | done
    | apply returns__writeInterfaceTables; by auto
    | done | done
    | apply returns__writeModelTable; by auto
    | apply returns__writePackageOrNamespaceTables; auto;
        [by rewrite Hk|rewrite decide_False by (by rewrite Hk); by auto]
    | apply returns__writePackageOrNamespaceTables; auto;
        rewrite decide_True by done; by auto
    | by apply returns_mret ..].
Qed.

Lemma returns_writePageBody apiItem :
  emitter_total host → inherited_ok _apiModel _documenterConfig → page_ok apiItem →
  (∀ m, calls _apiModel _documenterConfig apiItem m → returns finished (wp m)) →
  returns finished
    (writePageBody host cfg _apiModel _documenterConfig _outputFolder
       markdownDocumenterFeature wp apiItem).
Proof.
  intros He Hi Hp Hwp. pose proof Hp as (Hwf & Hd%docs_ok_item & Hs & Hpar).
  unfold writePageBody. eapply returns_bind; [by apply returns_pageFrontMatter|].
  intros [frontMatter|] _; [|by apply returns_mret].
  apply (returns_bind (children_ok "Section")); [by apply returns_lift, ok_pageHeader|].
  intros o1 Ho1.
  apply (returns_bind (children_ok "Section")); [by apply returns_pageTables|].
  intros o2 Ho2. by apply returns_writeOutput.
Qed.

End success.

Section success_run.
Context `{Naming} (host : Host) (_apiModel : ApiModel).
Context (_documenterConfig : option DocumenterConfig) (_outputFolder : string).
Implicit Types (apiItem m : ApiItemRef).

Lemma _writeApiItemPage_returns (feature : option MarkdownDocumenterFeature) (n : nat)
    apiItem :
  emitter_total host → inherited_ok _apiModel _documenterConfig →
  item_height apiItem < n ∨ (leaf_kind (Api.kind apiItem) = true ∧ 0 < n) →
  page_ok apiItem →
  returns (λ _, True)
    (_writeApiItemPage host the_configuration _apiModel _documenterConfig _outputFolder
       feature n apiItem).
Proof.
  intros He Hi. revert apiItem. induction n as [|n IH]; intros apiItem Hn Hp; [lia|].
  simpl. apply returns_writePageBody; [done..|]. intros m Hm.
  apply IH; [|by eapply calls_page_ok]. pose proof (item_height_pos apiItem).
  destruct (calls_below _ _ _ _ Hm) as [Hb%below_height|Hl]; [|right; split; [done|]].
  - destruct Hn as [?|[Hleaf _]]; [left; lia|].
    apply calls_inv in Hm. by destruct (Api.kind apiItem).
  - destruct Hn as [?|[Hleaf _]]; [lia|].
    apply calls_inv in Hm. by destruct (Api.kind apiItem).
Qed.

(** C2: a run on a well-formed model returns: when the items of the model
    form a well-formed tree and their comments hold only nodes a section
    may hold, no operation of the documenter throws, whatever the names,
    the release tags, the excerpts and the overloads of the items are, and
    every page is handed to the emitter as a section it accepts.  The
    emitter is assumed to render such sections, and the inherited members
    the model finds, when they are shown, to be such items. *)
Theorem generateFiles_returns :
  wf_model (root _apiModel) = true → docs_ok (root _apiModel) = true →
  emitter_total host → inherited_ok _apiModel _documenterConfig →
  ∃ t, generateFiles host the_configuration _apiModel _documenterConfig _outputFolder =
       (t, Return ()).
Proof.
  intros [Hk%bool_decide_eq_true Hwf]%andb_true_iff Hd He Hi.
  destruct (_writeApiItemPage_returns (loadedFeature host _documenterConfig)
              (run_fuel _apiModel) (rootRef (root _apiModel)) He Hi) as (t & [] & Hw & _).
  { left. unfold run_fuel. simpl. lia. }
  { split_and!; [done..|by simpl; rewrite Hk|by simpl; rewrite Hk]. }
  rewrite generateFiles_unfold, Hw, M_bind_Return. simpl.
  destruct (loadedFeature _ _); eauto.
Qed.

End success_run.
