(* ===== verification/Distinct.v ===== *)
(** * Every page is written once, to a file of its own

    The resolver and the writer together: in a well-formed model whose
    sibling segments are unique, the pages of a run ([pages_of], file
    [Pages]) are distinct items of the tree that have a file of their own,
    so by the uniqueness of file names (file [Resolver]) a run that returns
    has written no file twice.  Inherited members are not shown here: a
    page that shows them writes the page of a member of a base class again
    from every class that inherits it. *)

From S2P Require Import Prelude DocNodes ApiModel Utilities Resolver Builder Run Documenter.
From S2P Require Import Pages Success.

(** An item of the tree under [root] whose subtree is well-formed with
    unique segments, and that is no enum member. *)
Definition tree_ok `{Naming} (root : ApiItem) (apiItem : ApiItemRef) : Prop :=
  in_tree root apiItem ∧ wf_item apiItem = true ∧ unique_segments apiItem = true ∧
  Api.kind apiItem ≠ EnumMember.

(** A trace that writes no file twice: no page replaces another. *)
Definition no_overwrite (t : list Event) : Prop := NoDup (written t).

(** * Theorems *)

(** A list whose elements all have an image is without duplicates when
    the images are. *)
Lemma NoDup_omap_Some {A B} (f : A → option B) (l : list A) :
  NoDup (omap f l) → Forall (λ x, is_Some (f x)) l → NoDup l.
Proof.
  induction l as [|a l IH]; intros Hnd Hall; [constructor|].
  apply Forall_cons in Hall as [[b Hb] Hall]. csimpl in Hnd. rewrite Hb in Hnd.
  apply NoDup_cons in Hnd as [Hnb Hnd]. apply NoDup_cons. split; [|by apply IH].
  intros Ha. apply Hnb, list_elem_of_omap. eauto.
Qed.

(** The members of a well-formed container with unique segments are
    distinct. *)
Lemma members_NoDup `{Naming} (i : ApiItem) :
  wf_item i = true → unique_segments i = true → Api.kind i ≠ Enum → NoDup (members i).
Proof.
  intros Hwf Hu Hk. apply (NoDup_omap_Some member_segment).
  - by apply unique_segments_NoDup.
  - apply Forall_forall. intros x Hx. apply member_segment_is_Some.
    destruct (wf_item_member i x Hwf Hx) as [Hkx _].
    split; intros Heq; rewrite Heq in Hkx.
    + by rewrite member_kind_ok_Model in Hkx.
    + by destruct (Api.kind i).
Qed.

Section distinct.
Context `{Naming} (_apiModel : ApiModel) (_documenterConfig : option DocumenterConfig).
Context (Hshow : default false (_documenterConfig ≫= showInheritedMembers) = false).
Implicit Types (apiItem m : ApiItemRef) (x e : ApiItem).

Local Notation "'called'" := (called _apiModel _documenterConfig).
Local Notation "'pages'" := (pages_fuel _apiModel _documenterConfig).

#[local] Instance memberRef_inj apiItem : Inj (=) (=) (memberRef apiItem).
Proof. by intros x y [= ->]. Qed.

(** A page a page asks for is the page of a member, or, for a package,
    of a member of an entry point. *)
Lemma called_shape apiItem m :
  m ∈ called apiItem →
  (∃ x, x ∈ members apiItem ∧ m = memberRef apiItem x ∧
        (Api.kind apiItem = Package ∨ supported (Api.kind x) = true ∧
                                       Api.kind x ≠ EntryPoint)) ∨
  (∃ e x, Api.kind apiItem = Package ∧ e ∈ members apiItem ∧ x ∈ members e ∧
          m = memberRef (memberRef apiItem e) x ∧
          supported (Api.kind x) = true ∧ Api.kind x ≠ EntryPoint).
Proof.
  intros Hm. apply (calls_inv _apiModel _documenterConfig) in Hm.
  unfold entryPoints in Hm. destruct (Api.kind apiItem) eqn:Hk; try done.
  - destruct Hm as [Hl%listed_inv Ht%classTable_of_supported]. rewrite Hshow in Hl.
    apply list_elem_of_fmap in Hl as (x & -> & Hx). left. exists x. auto.
  - destruct Hm as [Hl%listed_inv Ht%interfaceTable_of_supported]. rewrite Hshow in Hl.
    apply list_elem_of_fmap in Hl as (x & -> & Hx). left. exists x. auto.
  - destruct Hm as [(x & -> & Hx)%list_elem_of_fmap Hp]. left. exists x.
    split_and!; [done..|]. right. simpl in Hp. by rewrite Hp.
  - destruct Hm as [(x & -> & Hx)%list_elem_of_fmap Ht%containerTable_of_supported].
    left. exists x. auto.
  - destruct Hm as [(x & -> & Hx)%list_elem_of_fmap|[(em & Hm & He)%list_elem_of_bind Ht]].
    + left. exists x. auto.
    + apply list_elem_of_fmap in He as (e & -> & He).
      apply list_elem_of_fmap in Hm as (x & -> & Hx).
      apply containerTable_of_supported in Ht as [? ?]. right. exists e, x. by split_and!.
Qed.

(** The pages of an item are pages of items below it. *)
Lemma pages_prefix (n : nat) apiItem m :
  m ∈ pages n apiItem → getHierarchy apiItem `prefix_of` getHierarchy m.
Proof.
  revert apiItem. induction n as [|n IH]; intros apiItem; simpl; [by intros ?%elem_of_nil|].
  case_decide; [by intros ?%elem_of_nil|].
  intros [(a & Hm & Ha)%elem_of_concat_fmap| ->%list_elem_of_singleton]%elem_of_app;
    [|done].
  apply IH in Hm. etrans; [|exact Hm].
  apply called_shape in Ha as [(x & _ & -> & _)|(e & x & _ & _ & _ & -> & _)].
  - rewrite getHierarchy_memberRef. by apply prefix_app_r.
  - rewrite !getHierarchy_memberRef, <- app_assoc. by apply prefix_app_r.
Qed.

Lemma called_tree_ok (root : ApiItem) apiItem m :
  tree_ok root apiItem → m ∈ called apiItem → tree_ok root m.
Proof.
  assert (∀ r x, tree_ok root r → x ∈ members r →
            Api.kind r = Package ∨ supported (Api.kind x) = true →
            tree_ok root (memberRef r x)) as Hstep.
  { intros r x (Ht & Hwf & Hu & _) Hx Hk.
    destruct (wf_item_member r x Hwf Hx) as [Hkx Hwfx].
    destruct (unique_segments_member r x Hu Hx) as [Hux _].
    split_and!; [by apply in_tree_memberRef|done..|]. simpl. intros Heq.
    rewrite Heq in Hkx, Hk. destruct Hk as [Hk|?]; [|done]. by rewrite Hk in Hkx. }
  intros Hok [(x & Hx & -> & Hk)|(e & x & Hk & He & Hx & -> & Hs & _)]%called_shape.
  - apply Hstep; [done..|]. destruct Hk as [?|[? _]]; auto.
  - apply Hstep; [apply Hstep| |]; auto.
Qed.

(** The pages of an item of the tree are items of the tree that have a
    file of their own. *)
Lemma pages_tree_ok (root : ApiItem) (n : nat) apiItem m :
  tree_ok root apiItem → m ∈ pages n apiItem →
  tree_ok root m ∧ addressable m = true.
Proof.
  revert apiItem. induction n as [|n IH]; intros apiItem Hok; simpl;
    [by intros ?%elem_of_nil|].
  case_decide as Hdef; [by intros ?%elem_of_nil|].
  intros [(a & Hm & Ha)%elem_of_concat_fmap| ->%list_elem_of_singleton]%elem_of_app.
  - eapply IH; [|done]. by eapply called_tree_ok.
  - split; [done|]. apply addressable_spec. by destruct Hok as (_ & _ & _ & ?).
Qed.

(** An entry point has its own page, or none. *)
Lemma pages_EntryPoint (n : nat) apiItem m :
  Api.kind apiItem = EntryPoint → m ∈ pages n apiItem → m = apiItem.
Proof.
  intros Hk. destruct n as [|n]; simpl; [by intros ?%elem_of_nil|].
  case_decide; [by intros ?%elem_of_nil|].
  unfold Pages.called. rewrite Hk. simpl. by intros ->%list_elem_of_singleton.
Qed.

(** The pages a page asks for are distinct. *)
Lemma called_NoDup apiItem :
  wf_item apiItem = true → unique_segments apiItem = true → NoDup (called apiItem).
Proof.
  intros Hwf Hu.
  assert (Api.kind apiItem ≠ Enum → NoDup (memberRefs apiItem)) as Hms.
  { intros Hk. unfold memberRefs. apply (NoDup_fmap_2 (memberRef apiItem)).
    by apply members_NoDup. }
  unfold Pages.called, listed_members, entryPoints. rewrite Hshow.
  destruct (Api.kind apiItem) eqn:Hk; try apply NoDup_nil_2;
    try (by apply NoDup_filter, Hms).
  apply NoDup_app. split_and!; [by apply Hms| |apply NoDup_filter, NoDup_bind].
  - intros m (e & -> & He)%list_elem_of_fmap
      [_ (em & (x & Heq & Hx)%list_elem_of_fmap & (e' & -> & _)%list_elem_of_fmap)
           %list_elem_of_bind]%list_elem_of_filter.
    apply (f_equal (λ r, length (ancestors r))) in Heq. simpl in Heq.
    rewrite getHierarchy_memberRef, length_app in Heq. simpl in Heq. lia.
  - intros e1 e2 y _ _ (x1 & -> & _)%list_elem_of_fmap (x2 & Heq & _)%list_elem_of_fmap.
    apply getHierarchy_inj. by injection Heq.
  - intros em (e & -> & He)%list_elem_of_fmap. unfold memberRefs.
    apply (NoDup_fmap_2 (memberRef (memberRef apiItem e))).
    destruct (wf_item_member apiItem e Hwf He) as [Hke Hwfe].
    destruct (unique_segments_member apiItem e Hu He) as [Hue _].
    apply members_NoDup; [done..|]. simpl. rewrite Hk in Hke.
    apply bool_decide_eq_true in Hke. by rewrite Hke.
  - by apply Hms.
Qed.

(** The pages of two pages a page asks for are apart. *)
Lemma pages_disjoint (n : nat) apiItem m1 m2 y :
  wf_item apiItem = true → m1 ∈ called apiItem → m2 ∈ called apiItem →
  y ∈ pages n m1 → y ∈ pages n m2 → m1 = m2.
Proof.
  intros Hwf H1 H2 Hy1 Hy2. apply getHierarchy_inj.
  pose proof (pages_prefix _ _ _ Hy1) as Hp1. pose proof (pages_prefix _ _ _ Hy2) as Hp2.
  assert (∀ e x m, Api.kind apiItem = Package → e ∈ members apiItem →
            y ∈ pages n (memberRef apiItem e) →
            getHierarchy (memberRef (memberRef apiItem e) x) `prefix_of` getHierarchy m →
            m = y → False) as Hentry.
  { intros e x m Hk He Hy Hp ->.
    destruct (wf_item_member apiItem e Hwf He) as [Hke _]. rewrite Hk in Hke.
    apply bool_decide_eq_true in Hke. apply pages_EntryPoint in Hy as ->; [|done].
    apply prefix_length in Hp. rewrite !getHierarchy_memberRef, !length_app in Hp.
    simpl in Hp. lia. }
  apply called_shape in H1 as [(x1 & Hx1 & -> & _)|(e1 & x1 & Hk1 & He1 & _ & -> & _)];
    apply called_shape in H2 as [(x2 & Hx2 & -> & _)|(e2 & x2 & Hk2 & He2 & _ & -> & _)].
  - destruct (prefix_weak_total _ _ _ Hp1 Hp2) as [Hp|Hp];
      [|symmetry]; apply prefix_length_eq; by rewrite ?getHierarchy_memberRef, ?length_app.
  - exfalso. destruct (prefix_weak_total _ _ _ Hp1 Hp2) as [Hp|Hp].
    + rewrite !getHierarchy_memberRef, <- app_assoc in Hp.
      apply prefix_app_inv in Hp as [k [= -> _]]. by apply (Hentry x1 x2 y).
    + apply prefix_length in Hp. rewrite !getHierarchy_memberRef, !length_app in Hp.
      simpl in Hp. lia.
  - exfalso. destruct (prefix_weak_total _ _ _ Hp1 Hp2) as [Hp|Hp].
    + apply prefix_length in Hp. rewrite !getHierarchy_memberRef, !length_app in Hp.
      simpl in Hp. lia.
    + rewrite !getHierarchy_memberRef, <- app_assoc in Hp.
      apply prefix_app_inv in Hp as [k [= -> _]]. by apply (Hentry x2 x1 y).
  - destruct (prefix_weak_total _ _ _ Hp1 Hp2) as [Hp|Hp];
      [|symmetry]; apply prefix_length_eq; by rewrite ?getHierarchy_memberRef, ?length_app.
Qed.

(** The pages of an item of the tree are distinct. *)
Lemma pages_NoDup (root : ApiItem) (n : nat) apiItem :
  tree_ok root apiItem → NoDup (pages n apiItem).
Proof.
  revert apiItem. induction n as [|n IH]; intros apiItem Hok; simpl; [apply NoDup_nil_2|].
  case_decide; [apply NoDup_nil_2|]. pose proof Hok as (_ & Hwf & Hu & _).
  apply NoDup_app. split_and!; [|
    intros m (a & Hm & Ha)%elem_of_concat_fmap ->%list_elem_of_singleton|
    apply NoDup_singleton].
  - rewrite concat_fmap_bind. apply NoDup_bind.
    + intros m1 m2 y ??. by apply (pages_disjoint n apiItem).
    + intros a Ha. by apply IH, (called_tree_ok root apiItem).
    + by apply called_NoDup.
  - apply pages_prefix, prefix_length in Hm.
    apply called_shape in Ha as [(x & _ & -> & _)|(e & x & _ & _ & _ & -> & _)];
      rewrite !getHierarchy_memberRef, !length_app in Hm; simpl in Hm; lia.
Qed.

End distinct.

Section no_overwrite.
Context `{Naming} (host : Host) (configuration : TSDocConfiguration) (_apiModel : ApiModel).
Context (_documenterConfig : option DocumenterConfig) (_outputFolder : string).

Lemma tree_ok_root :
  wf_model (root _apiModel) = true → unique_segments (root _apiModel) = true →
  tree_ok (root _apiModel) (rootRef (root _apiModel)).
Proof.
  intros [Hk Hwf]%andb_prop Hu. apply bool_decide_eq_true in Hk.
  split_and!; [by exists []|done..|]. simpl. by rewrite Hk.
Qed.

(** C4: a run that returns writes no file twice: when the members of every
    item have distinct segments, no inherited member is listed and the
    host joins distinct file names under the output folder to distinct
    paths, the files written are distinct, so that no page replaces
    another. *)
Theorem generateFiles_no_overwrite (t : list Event) :
  wf_model (root _apiModel) = true → unique_segments (root _apiModel) = true →
  default false (_documenterConfig ≫= showInheritedMembers) = false →
  Inj (=) (=) (path_join host _outputFolder) →
  generateFiles host configuration _apiModel _documenterConfig _outputFolder =
    (t, Return ()) →
  no_overwrite t.
Proof.
  intros Hwf Hu Hshow Hjoin Ht. unfold no_overwrite.
  apply generateFiles_writes in Ht as [_ ->].
  pose proof (tree_ok_root Hwf Hu) as Hok.
  apply NoDup_fmap_2_strong; [|by eapply pages_NoDup].
  intros m1 m2 [[Ht1 _] Ha1]%(pages_tree_ok _ _ Hshow (root _apiModel))
    [[Ht2 _] Ha2]%(pages_tree_ok _ _ Hshow (root _apiModel)) Heq%(inj _); [|done..].
  by apply (filename_inj_tree (root _apiModel)).
Qed.

End no_overwrite.
