(* ===== verification/Cli.v ===== *)
(** * The command line

    [ApiDocumenterCommandLine] ([src/src/cli/ApiDocumenterCommandLine.ts])
    and [HugoAction] ([src/src/cli/HugoAction.ts]): the actions the parser
    registers, and what the hugo action executes.  The parser itself
    ([CommandLineParser] of ts-command-line), [BaseAction.buildApiModel]
    and the documenters of the other actions are not under [src/]: the
    model and the output folder [buildApiModel] returns are arguments. *)

From S2P Require Import Prelude DocNodes ApiModel Utilities Resolver Builder Run Documenter.
From S2P Require Import Pages Success.

(** The action classes of the command line. *)
Inductive Action : Type := MarkdownAction | YamlAction | GenerateAction | HugoAction.

#[export] Instance Action_eq_dec : EqDecision Action.
Proof. solve_decision. Defined.

(** [actionName] of the constructors under [src/]. *)
Definition actionName (a : Action) : option string :=
  match a with
  | MarkdownAction => Some "markdown"
  | HugoAction => Some "hugo"
  | _ => None
  end.


Section HugoAction.
Context `{Naming} (host : Host).

(** [HugoAction.onExecute] (lines 19-29): a documenter without a
    configuration, and its [generateFiles]. *)
Definition HugoAction_onExecute (apiModel : ApiModel) (outputFolder : string) : M unit :=
  let documenterConfig : option DocumenterConfig := None in
  generateFiles host the_configuration apiModel documenterConfig outputFolder.

End HugoAction.

(** * Theorems *)


Section HugoAction_facts.
Context `{Naming} (host : Host).

(** C7: the hugo action on a well-formed model whose comments the
    documenter accepts: it returns; it empties the output folder, then
    writes the pages of the model and nothing else, in the order of
    [pages_of], each file under the output folder right after its folder
    is ensured, with CRLF line endings; no plugin is loaded and no hook is
    called. *)
Theorem HugoAction_onExecute_spec (apiModel : ApiModel) (outputFolder : string) :
  wf_model (root apiModel) = true → docs_ok (root apiModel) = true →
  emitter_total host →
  ∃ t, HugoAction_onExecute host apiModel outputFolder =
         (run_start outputFolder ++ t, Return ()) ∧
       page_trace host None outputFolder t ∧
       written t =
       (λ m : ApiItemRef, path_join host outputFolder (_getFilenameForApiItem m))
         <$> pages_of apiModel None.
Proof.
  intros [Hk%bool_decide_eq_true Hwf]%andb_true_iff Hd He.
  unfold HugoAction_onExecute. rewrite generateFiles_unfold. cbn [loadedFeature mbind option_bind].
  destruct (_writeApiItemPage_returns host apiModel None outputFolder None
              (run_fuel apiModel) (rootRef (root apiModel)) He) as (t & [] & Hw & _).
  { by intros ?. }
  { left. unfold run_fuel. simpl. lia. }
  { split_and!; [done..|by simpl; rewrite Hk|by simpl; rewrite Hk]. }
  pose proof (_writeApiItemPage_traced host the_configuration apiModel None outputFolder
                None (run_fuel apiModel) (rootRef (root apiModel))) as Ht.
  pose proof (_writeApiItemPage_writes host the_configuration apiModel None outputFolder
                None (run_fuel apiModel) (rootRef (root apiModel)) _ _ Hw) as [_ Hf].
  unfold traced in Ht. rewrite Hw in Ht |- *. rewrite M_bind_Return. simpl.
  exists t. by rewrite app_nil_r.
Qed.

End HugoAction_facts.
