(* ===== verification/Examples.v ===== *)
(** * Runs on two models

    The model of file [Resolver] and a documented model, written by two
    hosts: the runs evaluated, and the theorems of files [Documenter],
    [Pages] and [Success] applied to them. *)

From S2P Require Import Prelude DocNodes ApiModel Utilities Resolver Builder Run Documenter.
From S2P Require Import Pages Success Distinct Cli.

(** * A run on a model

    The model of file [Resolver], written to the folder [out] by a host
    whose emitter returns the title of the page and that loads no plugin. *)

(** The part of a path before its last separator. *)
Fixpoint dirname_chars (l : list ascii) : option (list ascii) :=
  match l with
  | [] => None
  | c :: l =>
      match dirname_chars l with
      | Some d => Some (c :: d)
      | None => if decide (c = slash) then Some [] else None
      end
  end.

Definition ex_host : Host :=
  {| emitWithFrontMatter := λ _ frontMatter _ _, Ok (title frontMatter);
     pluginLoader_load := λ _, None;
     path_join := λ folder file, folder </> file;
     path_dirname := λ file,
       from_option String.string_of_list_ascii "." (dirname_chars (chars file)) |}.

Definition ex_model : ApiModel := closed_model ex_root.

Definition ex_write (fuel : nat) (apiItem : ApiItemRef) : M unit :=
  _writeApiItemPage ex_host the_configuration ex_model None "out" None fuel apiItem.

Lemma _writeApiItemPage_enough_fuel_witness :
  item_height ex_Widget_ref < 9 ∧
  ex_write 9 ex_Widget_ref = ex_write (S (item_height ex_Widget_ref)) ex_Widget_ref ∧
  (ex_write 9 ex_Widget_ref).2 ≠ OutOfFuel.
Proof.
  assert (item_height ex_Widget_ref < 9) as Hfuel by (vm_compute; lia).
  split; [done|].
  exact (_writeApiItemPage_enough_fuel ex_host the_configuration ex_model None "out" None
           9 ex_Widget_ref Hfuel).
Defined.

Lemma _writeApiItemPage_default_entry_point_witness :
  ex_write 1 ex_entry_ref = ([], Return ()).
Proof.
  exact (_writeApiItemPage_default_entry_point ex_host the_configuration ex_model None
           "out" None 0 ex_entry_ref eq_refl eq_refl).
Defined.

Lemma _writeApiItemPage_unsupported_witness :
  ex_write 1 (memberRef ex_Color_ref ex_Red) =
  ([], Throw (UnsupportedKindError (ApiItemKind_tag EnumMember))).
Proof.
  assert (EnumMember ∈ [CallSignature; EnumMember; IndexSignature; None_]) as Hk
    by by_compute.
  exact (_writeApiItemPage_unsupported ex_host the_configuration ex_model None "out" None 0
           (memberRef ex_Color_ref ex_Red) Hk).
Defined.

Lemma generateFiles_Return_witness :
  ∃ pages contents,
    (generateFiles ex_host the_configuration ex_model None "out").1 =
    run_start "out" ++ pages ++
      [EnsureFolder "out"; WriteFile "out/_index.md" contents CrLf] ++ [].
Proof.
  apply (generateFiles_Return ex_host the_configuration ex_model None "out"); [done|].
  by vm_compute.
Defined.


(** C38: a run can lose a page: on a well-formed model with a variable
    [foo] and a function [var_foo] the run returns, and the page of the
    function is written to the file of the page of the variable, over
    it. *)
Example ex_run_overwrites :
  wf_model ex_clash_root = true ∧
  ∃ t1 t2 t3,
    generateFiles ex_host the_configuration (closed_model ex_clash_root) None "out" =
    (t1 ++ [WriteFile "out/clash/_root/var_foo/_index.md" "foo variable" CrLf] ++ t2 ++
     [WriteFile "out/clash/_root/var_foo/_index.md" "var_foo function" CrLf] ++ t3,
     Return ()).
Proof.
  split; [by vm_compute|].
  exists [Log ""; Log "Deleting old output from out"; EnsureEmptyFolder "out";
          Log "Writing clash package"; EnsureFolder "out/clash/_root/var_foo"].
  exists [EnsureFolder "out/clash/_root/var_foo"]. eexists. by vm_compute.
Qed.

(** * A run on a documented model

    A package with a beta class [Shape] that has a deprecation notice, a
    summary, remarks and two examples, and a method [area] with an optional
    parameter, a return type and an exception; written by a host whose
    emitter refuses a page that is not a well-formed section and renders
    the title of a page and the kinds of its nodes. *)

Definition ex_text (s : string) : list DocNode := [DocParagraph [DocPlainText s]].

Definition ex_excerpt (s : string) : Excerpt :=
  {| spannedTokens := [{| tokenKind := Content; text := s; canonicalReference := None |}] |}.

Definition ex_Shape_comment : DocComment :=
  {| summarySection := ex_text "A shape.";
     remarksBlock := Some {| tagNameWithUpperCase := "@REMARKS";
                             content := ex_text "Shapes are immutable." |};
     deprecatedBlock := Some {| tagNameWithUpperCase := "@DEPRECATED";
                                content := ex_text "Use Figure." |};
     returnsBlock := None;
     customBlocks :=
       [{| tagNameWithUpperCase := "@EXAMPLE"; content := [DocFencedCode "ts" "new Shape()"] |};
        {| tagNameWithUpperCase := "@EXAMPLE"; content := ex_text "See above." |}] |}.

Definition ex_area_comment : DocComment :=
  {| summarySection := ex_text "The area.";
     remarksBlock := None; deprecatedBlock := None;
     returnsBlock := Some {| tagNameWithUpperCase := "@RETURNS";
                             content := ex_text "square units" |};
     customBlocks :=
       [{| tagNameWithUpperCase := "@THROWS"; content := ex_text "RangeError" |}] |}.

Definition ex_area : ApiItem :=
  mkApiItem
    {| Api.kind := Method; Api.displayName := "area"; Api.name := "area";
       Api.releaseTag := Some Public; Api.tsdocComment := Some ex_area_comment;
       Api.excerptTokens := Some (spannedTokens (ex_excerpt "area(scale?: number): number;"));
       Api.excerptWithModifiers := "area(scale?: number): number;";
       Api.extendsType := None; Api.implementsTypes := []; Api.extendsTypes := [];
       Api.overloadIndex := Some 1;
       Api.parameters :=
         [{| parameterName := "scale"; parameterTypeExcerpt := ex_excerpt "number";
             parameterIsOptional := true;
             tsdocParamBlock := Some {| tagNameWithUpperCase := "@PARAM";
                                        content := ex_text "a factor" |} |}];
       Api.returnTypeExcerpt := Some (ex_excerpt "number");
       Api.isOptional := None; Api.isStatic := Some true; Api.isProtected := None;
       Api.isAbstract := None; Api.isReadonly := None; Api.propertyTypeExcerpt := None;
       Api.isEventProperty := false; Api.initializerExcerpt := None |} [].

Definition ex_Shape : ApiItem :=
  mkApiItem
    {| Api.kind := Class; Api.displayName := "Shape"; Api.name := "Shape";
       Api.releaseTag := Some Beta; Api.tsdocComment := Some ex_Shape_comment;
       Api.excerptTokens := Some (spannedTokens (ex_excerpt "class Shape extends Figure"));
       Api.excerptWithModifiers := "export class Shape extends Figure";
       Api.extendsType := Some (ex_excerpt "Figure");
       Api.implementsTypes := [ex_excerpt "Drawable"; ex_excerpt "Sized"];
       Api.extendsTypes := []; Api.overloadIndex := None; Api.parameters := [];
       Api.returnTypeExcerpt := None; Api.isOptional := None; Api.isStatic := None;
       Api.isProtected := None; Api.isAbstract := None; Api.isReadonly := None;
       Api.propertyTypeExcerpt := None; Api.isEventProperty := false;
       Api.initializerExcerpt := None |} [ex_area].

Definition ex_doc_root : ApiItem :=
  mkApiItem (Api.plain Model "")
    [mkApiItem (Api.plain Package "shapes")
       [mkApiItem (Api.plain EntryPoint "") [ex_Shape; ex_Color]]].

(** The kinds of the nodes of a page, in order. *)
Definition ex_outline (nodes : list DocNode) : string :=
  foldr (λ n s, " " +:+ kind n +:+ s) "" nodes.

Definition ex_strict_host : Host :=
  {| emitWithFrontMatter := λ page frontMatter _ _,
       if wf_node the_configuration page
       then Ok (title frontMatter +:+ ":" +:+ ex_outline (getChildNodes page))
       else Err (TypeError "unsupported node");
     pluginLoader_load := pluginLoader_load ex_host;
     path_join := path_join ex_host;
     path_dirname := path_dirname ex_host |}.

Lemma ex_strict_host_total : emitter_total ex_strict_host.
Proof.
  intros output frontMatter apiItem Hout. cbn [emitWithFrontMatter ex_strict_host].
  rewrite wf_node_Section. unfold children_ok in Hout. rewrite Hout. by eexists.
Qed.

Lemma generateFiles_returns_witness :
  ∃ t, generateFiles ex_strict_host the_configuration (closed_model ex_doc_root) None "out" =
       (t, Return ()).
Proof.
  assert (wf_model ex_doc_root = true) as Hwf by by vm_compute.
  assert (docs_ok ex_doc_root = true) as Hdocs by by vm_compute.
  assert (inherited_ok (closed_model ex_doc_root) None) as Hi by by intros ?.
  exact (generateFiles_returns ex_strict_host (closed_model ex_doc_root) None "out"
           Hwf Hdocs ex_strict_host_total Hi).
Defined.

Definition ex_Shape_ref : ApiItemRef :=
  {| ancestors :=
       [ex_doc_root;
        mkApiItem (Api.plain Package "shapes")
          [mkApiItem (Api.plain EntryPoint "") [ex_Shape; ex_Color]];
        mkApiItem (Api.plain EntryPoint "") [ex_Shape; ex_Color]];
     self := ex_Shape |}.



Lemma _writeApiItemPage_files_witness :
  written (ex_write 2 ex_Widget_ref).1 =
  (λ m : ApiItemRef, "out" </> _getFilenameForApiItem m)
    <$> pages_fuel ex_model None 2 ex_Widget_ref.
Proof.
  apply (_writeApiItemPage_files ex_host the_configuration ex_model None "out" None 2
           ex_Widget_ref).
  by vm_compute.
Defined.

Lemma generateFiles_files_witness :
  written (generateFiles ex_strict_host the_configuration (closed_model ex_doc_root)
             None "out").1 =
  (λ m : ApiItemRef, "out" </> _getFilenameForApiItem m)
    <$> pages_of (closed_model ex_doc_root) None.
Proof.
  apply (generateFiles_files ex_strict_host the_configuration (closed_model ex_doc_root)
           None "out").
  by vm_compute.
Defined.

Lemma generateFiles_no_overwrite_witness :
  no_overwrite (generateFiles ex_strict_host the_configuration
                  (closed_model ex_doc_root) None "out").1.
Proof.
  apply (generateFiles_no_overwrite ex_strict_host the_configuration
           (closed_model ex_doc_root) None "out"); [by vm_compute..| |by vm_compute].
  intros x y Heq. by injection Heq.
Defined.


Lemma _writeRemarksSection_spec_witness :
  _writeRemarksSection the_configuration [] ex_Shape_ref =
  Ok ([] ++ remarks_of ex_Shape_comment).
Proof.
  assert (comment_ok ex_Shape_comment = true) as Hok by by vm_compute.
  exact (_writeRemarksSection_spec [] ex_Shape_ref ex_Shape_comment eq_refl Hok).
Defined.

(** A type alias whose declaration names [Shape] twice, [Color] once and
    a type the model does not hold, and the documented model with the
    query that resolves the canonical references of [Shape] and [Color]. *)
Definition ex_alias : ApiItem :=
  let token kind text ref :=
    {| tokenKind := kind; text := text; canonicalReference := ref |} in
  mkApiItem
    {| Api.kind := TypeAlias; Api.displayName := "Pair"; Api.name := "Pair";
       Api.releaseTag := None; Api.tsdocComment := None;
       Api.excerptTokens :=
         Some [token Content "type Pair = [" None;
               token Reference "Shape" (Some "shapes!Shape:class");
               token Content ", " None;
               token Reference "Lost" (Some "other!Lost:class");
               token Content ", " None;
               token Reference "Color" (Some "shapes!Color:enum");
               token Content ", " None;
               token Reference "Shape" (Some "shapes!Shape:class");
               token Content "]" None];
       Api.excerptWithModifiers := "type Pair = [Shape, Lost, Color, Shape]";
       Api.extendsType := None; Api.implementsTypes := []; Api.extendsTypes := [];
       Api.overloadIndex := None; Api.parameters := []; Api.returnTypeExcerpt := None;
       Api.isOptional := None; Api.isStatic := None; Api.isProtected := None;
       Api.isAbstract := None; Api.isReadonly := None; Api.propertyTypeExcerpt := None;
       Api.isEventProperty := false; Api.initializerExcerpt := None |} [].

Definition ex_Color_ref : ApiItemRef :=
  {| ancestors := ancestors ex_Shape_ref; self := ex_Color |}.

Definition ex_resolving_model : ApiModel :=
  {| root := ex_doc_root;
     resolveDeclarationReference := λ ref,
       if decide (ref = "shapes!Shape:class") then Some ex_Shape_ref
       else if decide (ref = "shapes!Color:enum") then Some ex_Color_ref
       else None;
     findMembersWithInheritance := findMembersWithInheritance (closed_model ex_doc_root) |}.

Lemma _writeHeritageTypes_references_witness :
  _writeHeritageTypes the_configuration ex_resolving_model [] (rootRef ex_alias) =
  Ok [DocParagraph
        [DocEmphasisSpan true false [DocPlainText "References: "];
         DocLinkTag "Shape" None (Some "/docs/shapes/_root/Shape/_index.md");
         DocPlainText ", ";
         DocLinkTag "Color" None (Some "/docs/shapes/_root/Color/_index.md")]].
Proof.
  rewrite (_writeHeritageTypes_references ex_resolving_model [] (rootRef ex_alias) eq_refl).
  by vm_compute.
Defined.

Lemma appendTable_spec_witness :
  appendTable the_configuration [] "Classes" (emptyTable ["Class"; "Description"]) =
  Ok (if decide (rows (emptyTable ["Class"; "Description"]) = []) then []
      else [] ++ [DocHeading "Classes" 1; emptyTable ["Class"; "Description"]]).
Proof. exact (appendTable_spec [] "Classes" (emptyTable ["Class"; "Description"]) eq_refl). Defined.

Lemma HugoAction_onExecute_spec_witness :
  ∃ t, HugoAction_onExecute ex_strict_host (closed_model ex_doc_root) "out" =
         (run_start "out" ++ t, Return ()) ∧
       page_trace ex_strict_host None "out" t ∧
       written t =
       (λ m : ApiItemRef, "out" </> _getFilenameForApiItem m)
         <$> pages_of (closed_model ex_doc_root) None.
Proof.
  assert (wf_model ex_doc_root = true) as Hwf by by vm_compute.
  assert (docs_ok ex_doc_root = true) as Hdocs by by vm_compute.
  exact (HugoAction_onExecute_spec ex_strict_host (closed_model ex_doc_root) "out"
           Hwf Hdocs ex_strict_host_total).
Defined.
